(** * local-storage-udev-writer: the reconcile loop, the rules template and
      the command runners of package [udevwriter], embedded and verified.

    The Go code lives in [pkg/udev-writer] (the sync loop and the two
    [ExecInterface] implementations) and in [cmd/local-storage-udev-writer]
    (flag parsing and signal handling).  The embedding keeps the names of the
    source.  Go strings are [string], Go [[]byte] values are [list byte], an
    [error] is the text of its message, and every call that touches the
    operating system goes through an explicit [World] and an [Env] oracle. *)

From Stdlib Require Import Strings.String Strings.Ascii Strings.Byte.
From Stdlib Require Import Lists.List Arith.PeanoNat Bool.Bool.
From stdpp Require Import base option list gmap strings.

Import ListNotations.
Local Open Scope string_scope.
Local Open Scope list_scope.

(* ===================================================================== *)
(** ** Fragments of the Go standard library used by the package

    These are not code of the repository: they state what the package
    relies on from [strings], [fmt], [path] and [path/filepath]. *)
(* ===================================================================== *)

Module Go.

(** The double quote character, as a one-character string. *)
Definition dq : string := String (Ascii.ascii_of_nat 34) EmptyString.

(** The newline character, as a one-character string. *)
Definition nl : string := String (Ascii.ascii_of_nat 10) EmptyString.

(** [string(b)] for [b []byte] and [[]byte(s)] for [s string]. *)
Definition string_of_bytes (b : list byte) : string :=
  String.string_of_list_byte b.
Definition bytes_of_string (s : string) : list byte :=
  String.list_byte_of_string s.

(** [strings.Join(elems, sep)]. *)
Fixpoint strings_Join (elems : list string) (sep : string) : string :=
  match elems with
  | [] => ""
  | [e] => e
  | e :: rest => e +:+ sep +:+ strings_Join rest sep
  end.

(** [fmt.Sprintf] for string operands (an [error] is printed as its
    text) and the verbs the package uses, [%s] and [%v], with [%%].  The
    other cases print what Go prints: [%!v(MISSING)] for a verb without an
    operand, [%!x(string=...)] for another verb, [%!(NOVERB)] for a lone
    percent sign at the end and [%!(EXTRA ...)] for operands left over. *)
Fixpoint Sprintf (format : string) (args : list string) : string :=
  match format with
  | EmptyString =>
      match args with
      | [] => ""
      | _ =>
          "%!(EXTRA "
          +:+ strings_Join (map (fun a => "string=" +:+ a) args) ", " +:+ ")"
      end
  | String c rest =>
      if Ascii.eqb c "%" then
        match rest with
        | EmptyString => "%!(NOVERB)"
        | String v rest' =>
            if Ascii.eqb v "%" then String "%" (Sprintf rest' args)
            else
              match args with
              | a :: args' =>
                  if Ascii.eqb v "s" || Ascii.eqb v "v"
                  then a +:+ Sprintf rest' args'
                  else "%!" +:+ String v ("(string=" +:+ a +:+ ")")
                       +:+ Sprintf rest' args'
              | [] => "%!" +:+ String v "(MISSING)" +:+ Sprintf rest' []
              end
        end
      else String c (Sprintf rest args)
  end.

(** *** [path.Join] and [filepath.Join] (Unix)

    Both join the elements from the first non-empty one on with a slash
    and return [Clean] of the result.  [Clean] is modelled on the
    components of the path: empty components and [.] are dropped, [..]
    removes the component before it, [..] at the root is dropped, and a
    relative path keeps its leading [..] components. *)

(** Components of a path: the pieces between slashes ([cur] is the piece
    being read, reversed). *)
Fixpoint split_slash (cur : string) (s : string) : list string :=
  match s with
  | EmptyString => [String.rev cur]
  | String c rest =>
      if Ascii.eqb c "/" then String.rev cur :: split_slash "" rest
      else split_slash (String c cur) rest
  end.

Definition components (p : string) : list string := split_slash "" p.

Definition rooted (p : string) : bool :=
  match p with
  | String c _ => Ascii.eqb c "/"
  | EmptyString => false
  end.

(** One step of [Clean]: [stack] holds the components kept so far, the
    last one first. *)
Definition clean_step (is_rooted : bool) (stack : list string) (c : string)
  : list string :=
  if String.eqb c "" || String.eqb c "." then stack
  else if String.eqb c ".." then
    match stack with
    | top :: below =>
        if String.eqb top ".." then c :: stack else below
    | [] => if is_rooted then [] else [c]
    end
  else c :: stack.

Definition clean_components (is_rooted : bool) (cs : list string)
  : list string :=
  rev (fold_left (clean_step is_rooted) cs []).

Definition render_path (is_rooted : bool) (cs : list string) : string :=
  if is_rooted then "/" +:+ strings_Join cs "/"
  else match cs with
       | [] => "."
       | _ => strings_Join cs "/"
       end.

Definition path_Clean (p : string) : string :=
  render_path (rooted p) (clean_components (rooted p) (components p)).

Fixpoint path_Join (elem : list string) : string :=
  match elem with
  | [] => ""
  | e :: rest =>
      if String.eqb e "" then path_Join rest
      else path_Clean (strings_Join elem "/")
  end.

Definition filepath_Join := path_Join.

(** A component that [Clean] keeps as it is. *)
Definition plain (c : string) : bool :=
  negb (String.eqb c "") && negb (String.eqb c ".")
  && negb (String.eqb c "..").

End Go.

(* ===================================================================== *)
(** ** The world outside the process *)
(* ===================================================================== *)

(** A Go [error], kept as the text [Error()] returns. *)
Definition error := string.

(** What the process does to its environment, in the order it does it. *)
Inductive Event : Type :=
| EvReadFile (name : string)
| EvOpenFile (name : string)
| EvWrite (name : string) (data : list byte)
| EvClose (name : string)
| EvRemove (name : string)
| EvCommand (argv : list string)
| EvLog (verbosity : nat) (msg : string).

(** The files of the rules directory and the history of calls (oldest
    first). *)
Record World : Type := mkWorld {
  fs : gmap string (list byte);
  trace : list Event
}.

Definition emit (e : Event) (w : World) : World :=
  {| fs := fs w; trace := trace w ++ [e] |}.

Definition set_fs (f : gmap string (list byte)) (w : World) : World :=
  {| fs := f; trace := trace w |}.

(** The environment's answers.  Each one may depend on everything that
    happened so far, so quantifying over [Env] covers every behaviour of
    the file system and of the commands. *)
Record Env : Type := mkEnv {
  ReadFile_result : World -> string -> list byte * option error;
  OpenFile_error : World -> string -> option error;
  Write_error : World -> string -> list byte -> option error;
  Remove_error : World -> string -> option error;
  CombinedOutput_result : World -> list string -> list byte * option error
}.

(** A call either returns a value or panics; both leave a world behind. *)
Inductive Outcome (A : Type) : Type :=
| Done (a : A) (w : World)
| Panicked (msg : string) (w : World).
Arguments Done {A} a w.
Arguments Panicked {A} msg w.

Definition M (A : Type) : Type := World -> Outcome A.

#[export] Instance M_ret : MRet M := fun A (a : A) (w : World) => Done a w.

#[export] Instance M_bind : MBind M :=
  fun A B (k : A -> M B) (m : M A) (w : World) =>
    match m w with
    | Done a w' => k a w'
    | Panicked msg w' => Panicked msg w'
    end.

Definition panic {A} (msg : string) : M A := fun w => Panicked msg w.

Definition world_of {A} (o : Outcome A) : World :=
  match o with Done _ w => w | Panicked _ w => w end.

(** The commands of a trace, in order. *)
Fixpoint commands_run (t : list Event) : list (list string) :=
  match t with
  | [] => []
  | EvCommand argv :: t' => argv :: commands_run t'
  | _ :: t' => commands_run t'
  end.

(** The files a trace opens for writing or writes to, in order. *)
Fixpoint files_written (t : list Event) : list string :=
  match t with
  | [] => []
  | EvOpenFile name :: t' => name :: files_written t'
  | EvWrite name _ :: t' => name :: files_written t'
  | _ :: t' => files_written t'
  end.

Section OS.
Variable env : Env.

(** [glog.Infof] is [glog_at 0]; [glog.V(n).Infof] is [glog_at n]. *)
Definition glog_at (v : nat) (format : string) (args : list string)
  : M unit :=
  fun w => Done tt (emit (EvLog v (Go.Sprintf format args)) w).

Definition glog_Infof := glog_at 0.
Definition glog_V (v : nat) := glog_at v.

(** [ioutil.ReadFile(name)]. *)
Definition ioutil_ReadFile (name : string) : M (list byte * option error) :=
  fun w => Done (ReadFile_result env w name) (emit (EvReadFile name) w).

(** [os.OpenFile(name, os.O_CREATE|os.O_TRUNC|os.O_WRONLY, 0600)]: on
    success the file exists and is empty.  The handle is the name. *)
Definition os_OpenFile_create_trunc (name : string) : M (option error) :=
  fun w =>
    match OpenFile_error env w name with
    | Some e => Done (Some e) (emit (EvOpenFile name) w)
    | None => Done None (emit (EvOpenFile name) (set_fs (<[name := []]> (fs w)) w))
    end.

(** [out.Write(data)] on a handle opened as above: the data goes to the
    end of the file; a failed write adds nothing. *)
Definition file_Write (name : string) (data : list byte) : M (option error) :=
  fun w =>
    match Write_error env w name data with
    | Some e => Done (Some e) (emit (EvWrite name data) w)
    | None =>
        Done None (emit (EvWrite name data)
                        (set_fs (alter (fun old => old ++ data) name (fs w)) w))
    end.

(** [out.Close()]; the package drops its result. *)
Definition file_Close (name : string) : M unit :=
  fun w => Done tt (emit (EvClose name) w).

(** [os.Remove(name)]: a file that is not there cannot be removed. *)
Definition os_Remove (name : string) : M (option error) :=
  fun w =>
    match fs w !! name with
    | None =>
        Done (Some ("remove " +:+ name +:+ ": no such file or directory"))
             (emit (EvRemove name) w)
    | Some _ =>
        match Remove_error env w name with
        | Some e => Done (Some e) (emit (EvRemove name) w)
        | None => Done None (emit (EvRemove name) (set_fs (delete name (fs w)) w))
        end
    end.

(** [osexec.Command(name, args...).CombinedOutput()]. *)
Definition osexec_CombinedOutput (name : string) (args : list string)
  : M (list byte * option error) :=
  fun w => Done (CombinedOutput_result env w (name :: args))
                (emit (EvCommand (name :: args)) w).

End OS.

(* ===================================================================== *)
(** ** [text/template], for templates of text and [{{.Field}}] actions

    Also library code: the parser covers text and actions that name one
    field, which is all [udevFileTemplate] contains; execution writes the
    pieces to the output one after the other, without escaping. *)
(* ===================================================================== *)

Module Template.

Inductive Node : Type :=
| TextNode (text : string)
| FieldNode (ident : string).

Definition is_ident_char (c : ascii) : bool :=
  let n := Ascii.nat_of_ascii c in
  (Nat.leb 48 n && Nat.leb n 57) || (Nat.leb 65 n && Nat.leb n 90)
  || (Nat.leb 97 n && Nat.leb n 122) || Nat.eqb n 95.

Fixpoint all_ident (s : string) : bool :=
  match s with
  | EmptyString => true
  | String c rest => is_ident_char c && all_ident rest
  end.

Fixpoint trim_left (s : string) : string :=
  match s with
  | String c rest => if Ascii.eqb c " " then trim_left rest else s
  | EmptyString => s
  end.

Definition trim (s : string) : string :=
  String.rev (trim_left (String.rev (trim_left s))).

(** The body of an action: a dot and one field name. *)
Definition field_of (body : string) : option string :=
  match trim body with
  | String c ident =>
      if Ascii.eqb c "." && negb (String.eqb ident "") && all_ident ident
      then Some ident else None
  | EmptyString => None
  end.

Definition text_node (text : string) : list Node :=
  if String.eqb text "" then [] else [TextNode text].

(** The lexer and parser in one pass: [cur] is the text or action body
    read so far (reversed).  [None] is a parse error. *)
Fixpoint parse_from (in_action : bool) (cur : string) (s : string)
  : option (list Node) :=
  match s with
  | EmptyString =>
      if in_action then None else Some (text_node (String.rev cur))
  | String c rest =>
      match rest with
      | String c' rest' =>
          if negb in_action && Ascii.eqb c "{" && Ascii.eqb c' "{" then
            app (text_node (String.rev cur)) <$> parse_from true "" rest'
          else if in_action && Ascii.eqb c "}" && Ascii.eqb c' "}" then
            match field_of (String.rev cur) with
            | Some f => cons (FieldNode f) <$> parse_from false "" rest'
            | None => None
            end
          else parse_from in_action (String c cur) rest
      | EmptyString => parse_from in_action (String c cur) rest
      end
  end.

(** [template.New(name).Parse(text)]. *)
Definition Parse (text : string) : option (list Node) :=
  parse_from false "" text.

(** [template.Must]: panics when parsing failed. *)
Definition Must (t : option (list Node)) : M (list Node) :=
  match t with
  | Some nodes => mret nodes
  | None => panic "template: parse error"
  end.

(** [t.Execute(out, data)]: text is written as it stands, a field is
    looked up in [data] and printed with [fmt.Fprint]; the first error
    (a failed write, a field [data] does not have) ends the execution. *)
Fixpoint Execute (env : Env) (t : list Node) (out : string)
    (data : string -> option string) : M (option error) :=
  match t with
  | [] => mret None
  | TextNode text :: rest =>
      err ← file_Write env out (Go.bytes_of_string text);
      match err with
      | Some e => mret (Some e)
      | None => Execute env rest out data
      end
  | FieldNode ident :: rest =>
      match data ident with
      | None => mret (Some ("can't evaluate field " +:+ ident))
      | Some v =>
          err ← file_Write env out (Go.bytes_of_string v);
          match err with
          | Some e => mret (Some e)
          | None => Execute env rest out data
          end
      end
  end.

End Template.

(* ===================================================================== *)
(** ** pkg/udev-writer/exec.go *)
(* ===================================================================== *)

Definition mountNsPath : string := "1/ns/mnt".

(** [ExecInterface] and its two implementations, [exec] (built by
    [NewExec]) and [nsenterExec] (built by [NewNSEnterExec]). *)
Inductive ExecInterface : Type :=
| NewExec
| NewNSEnterExec (hostProcDir : string).

Section Exec.
Variable env : Env.

(** Method [Exec(cmd []string) ([]byte, error)] of [exec]: [cmd[0]]
    panics on an empty vector. *)
Definition exec_Exec (cmd : list string) : M (list byte * option error) :=
  match cmd with
  | [] => panic "runtime error: index out of range [0] with length 0"
  | cmd0 :: cmd1 =>
      '(out, err) ← osexec_CombinedOutput env cmd0 cmd1;
      match err with
      | Some e =>
          glog_V 4 "executed %s: %s (error: %v)"
            [Go.strings_Join cmd " "; Go.string_of_bytes out; e]
      | None =>
          glog_V 4 "executed %s: %s (success)"
            [Go.strings_Join cmd " "; Go.string_of_bytes out]
      end;;
      mret (out, err)
  end.

(** Method [Exec(cmd []string) ([]byte, error)] of [nsenterExec]: the
    index [nsenterCmd[0]] is taken on the wrapped vector. *)
Definition nsenterExec_Exec (hostProcDir : string) (cmd : list string)
  : M (list byte * option error) :=
  let hostProcMountNsPath := Go.filepath_Join [hostProcDir; mountNsPath] in
  let nsenterCmd :=
    ["nsenter"; Go.Sprintf "--mount=%s" [hostProcMountNsPath]; "--"] in
  let nsenterCmd := nsenterCmd ++ cmd in
  match nsenterCmd with
  | [] => panic "runtime error: index out of range [0] with length 0"
  | cmd0 :: cmd1 =>
      '(out, err) ← osexec_CombinedOutput env cmd0 cmd1;
      match err with
      | Some e =>
          glog_V 4 "executed %s: %s (error: %v)"
            [Go.strings_Join nsenterCmd " "; Go.string_of_bytes out; e]
      | None =>
          glog_V 4 "executed %s: %s (success)"
            [Go.strings_Join nsenterCmd " "; Go.string_of_bytes out]
      end;;
      mret (out, err)
  end.

(** The method call [e.Exec(cmd)] through the interface. *)
Definition Exec (e : ExecInterface) (cmd : list string)
  : M (list byte * option error) :=
  match e with
  | NewExec => exec_Exec cmd
  | NewNSEnterExec hostProcDir => nsenterExec_Exec hostProcDir cmd
  end.

End Exec.

(* ===================================================================== *)
(** ** pkg/udev-writer/udev.go *)
(* ===================================================================== *)

Definition udevRulesTemplate : string := "99-kubernetes-%s.rules".

(** The lines of [udevFileTemplate]; the raw string literal of the source
    starts with a newline and ends with one. *)
Definition udevFileTemplate_lines : list string :=
  [ "";
    "# Generated file, do not modify!";
    "";
    "# Skip non-block devices.";
    "SUBSYSTEM!=" +:+ Go.dq +:+ "block" +:+ Go.dq +:+ ", GOTO="
      +:+ Go.dq +:+ "out" +:+ Go.dq;
    "";
    "{{.Rules}}";
    "";
    "# Check if the device was matched by any of the rules above.";
    "ENV{KUBERNETES_STORAGE_CLASS}==" +:+ Go.dq +:+ Go.dq +:+ ", GOTO="
      +:+ Go.dq +:+ "out" +:+ Go.dq;
    "";
    "# The device matched, create a symlink with stable device name if possible.";
    "ENV{ID_SERIAL}!=" +:+ Go.dq +:+ Go.dq +:+ ", SYMLINK+=" +:+ Go.dq
      +:+ "disk/kubernetes/{{.Name}}/$env{KUBERNETES_STORAGE_CLASS}/$env{ID_BUS}-$env{ID_SERIAL}"
      +:+ Go.dq;
    "";
    "# Fall back to kernel name if stable device name does not exist.";
    "ENV{ID_SERIAL}==" +:+ Go.dq +:+ Go.dq +:+ ", SYMLINK+=" +:+ Go.dq
      +:+ "disk/kubernetes/{{.Name}}/$env{KUBERNETES_STORAGE_CLASS}/$kernel"
      +:+ Go.dq;
    "";
    "LABEL=" +:+ Go.dq +:+ "out" +:+ Go.dq ].

Definition udevFileTemplate : string :=
  Eval vm_compute in
    String.concat "" (map (fun l => l +:+ Go.nl) udevFileTemplate_lines).

Record UdevSync : Type := mkUdevSync {
  (* Unique name of node group, reused as rules filename. *)
  name : string;
  (* Path to ConfigMap file with udev rules from the operator. *)
  configFile : string;
  (* Last known content of config file. *)
  oldConfigContent : list byte;
  (* Path to output udev rules file. *)
  rulesFile : string;
  (* Template of udev rules file. *)
  udevTemplate : list Template.Node;
  (* Exec interface to use *)
  exec : ExecInterface
}.

(** [u.oldConfigContent = config]. *)
Definition set_oldConfigContent (u : UdevSync) (config : list byte) : UdevSync :=
  {| name := name u; configFile := configFile u; oldConfigContent := config;
     rulesFile := rulesFile u; udevTemplate := udevTemplate u; exec := exec u |}.

(** The anonymous struct [writeRulesFile] hands to the template, and the
    field lookup the template does on it. *)
Record Params : Type := mkParams { Name : string; Rules : string }.

Definition Params_field (p : Params) (ident : string) : option string :=
  if String.eqb ident "Name" then Some (Name p)
  else if String.eqb ident "Rules" then Some (Rules p)
  else None.

(** Which case of the [select] in [Run] fires. *)
Inductive Select : Type :=
| ticker_C
| stopCh.

(** The vectors [reloadUdev] runs, in the order of the source. *)
Definition commands : list (list string) :=
  [ (* Reload all rules files. *)
    ["udevadm"; "control"; "--reload"];
    (* Pass all block devices through newly loaded rules *)
    ["udevadm"; "trigger"; "--subsystem-match=block"];
    (* Block until all devices are processed *)
    ["udevadm"; "settle"; "--timeout=300"] ].

(** The loop of [needApplyConfig]: [for i := range config] compares
    [config[i]] with [u.oldConfigContent[i]]; [rest] is what is left of
    [config] from index [i] on.  [None] is the panic of an index out of
    range in [oldConfigContent]. *)
Fixpoint needApplyConfig_range (i : nat) (rest old : list byte)
  : option bool :=
  match rest with
  | [] => Some false
  | c :: rest' =>
      match old !! i with
      | None => None
      | Some o =>
          if negb (Byte.eqb c o) then Some true
          else needApplyConfig_range (S i) rest' old
      end
  end.

Definition needApplyConfig (u : UdevSync) (config : list byte) : option bool :=
  if negb (Nat.eqb (length config) (length (oldConfigContent u))) then Some true
  else needApplyConfig_range 0 config (oldConfigContent u).

Section UdevSync.
Variable env : Env.

(** [glog.V(v).Info(msg)]: the message is not a format. *)
Definition glog_V_Info (v : nat) (msg : string) : M unit :=
  fun w => Done tt (emit (EvLog v msg) w).

Definition NewUdevSync (configFile rulesPath name : string)
    (exec : ExecInterface) : M UdevSync :=
  let rulesFile :=
    Go.path_Join [rulesPath; Go.Sprintf udevRulesTemplate [name]] in
  glog_V 4 "using rules file %s" [rulesFile];;
  t ← Template.Must (Template.Parse udevFileTemplate);
  mret (mkUdevSync name configFile [] rulesFile t exec).

Definition writeRulesFile (u : UdevSync) (config : list byte)
  : M (option error) :=
  err ← os_OpenFile_create_trunc env (rulesFile u);
  match err with
  | Some e => mret (Some e)
  | None =>
      let out := rulesFile u in
      let params := mkParams (name u) (Go.string_of_bytes config) in
      r ← (err ← Template.Execute env (udevTemplate u) out (Params_field params);
           match err with
           | Some e =>
               mret (Some (Go.Sprintf "failed to execute template: %s" [e]))
           | None =>
               glog_V 2 "configuration written to %s" [rulesFile u];;
               mret None
           end);
      (* defer out.Close() *)
      file_Close out;;
      mret r
  end.

(** The loop of [reloadUdev] over the commands still to run. *)
Fixpoint reloadUdev_range (e : ExecInterface) (cmds : list (list string))
  : M (option error) :=
  match cmds with
  | [] => mret None
  | cmd :: rest =>
      '(out, err) ← Exec env e cmd;
      match err with
      | Some err =>
          mret (Some (Go.Sprintf "error executing %s: %s (%s))"
                        [Go.strings_Join cmd " "; Go.string_of_bytes out; err]))
      | None => reloadUdev_range e rest
      end
  end.

Definition reloadUdev (u : UdevSync) : M (option error) :=
  reloadUdev_range (exec u) commands.

Definition removeUdevFile (u : UdevSync) : M unit :=
  err ← os_Remove env (rulesFile u);
  match err with
  | Some e =>
      glog_Infof "error removing udev file %s: %s" [rulesFile u; e]
      (* return *)
  | None =>
      glog_V 2 "udev file %s removed" [rulesFile u];;
      err ← reloadUdev u;
      match err with
      | Some e => glog_Infof "error reloading udev: %s" [e]
      | None => glog_V 2 "udev reloaded" []
      end
  end.

(** [applyConfig] returns its error and the receiver as it leaves it. *)
Definition applyConfig (u : UdevSync) : M (option error * UdevSync) :=
  '(config, err) ← ioutil_ReadFile env (configFile u);
  match err with
  | Some e => mret (Some e, u)
  | None =>
      need ← match needApplyConfig u config with
             | Some b => mret b
             | None => panic "runtime error: index out of range"
             end;
      if negb need then
        glog_V_Info 4 "no change detected, skipping config update";;
        mret (None, u)
      else
        err ← writeRulesFile u config;
        match err with
        | Some e => mret (Some e, u)
        | None =>
            err ← reloadUdev u;
            match err with
            | Some e =>
                mret (Some (Go.Sprintf "failed to reload udev rules: %s" [e]), u)
            | None =>
                let u := set_oldConfigContent u config in
                glog_V_Info 2 "configuration applied";;
                mret (None, u)
            end
        end
  end.

(** One [applyConfig] as [Run] calls it: the error is logged. *)
Definition Run_apply (u : UdevSync) : M UdevSync :=
  '(err, u) ← applyConfig u;
  match err with
  | Some e => glog_Infof "failed to apply config: %s" [e]
  | None => mret tt
  end;;
  mret u.

(** The [for { select { ... } }] of [Run] over the cases that fire, in
    order.  The result says whether [Run] returned ([true]) or still
    waits in the [select] with the schedule used up ([false]). *)
Fixpoint Run_loop (u : UdevSync) (fired : list Select)
  : M (UdevSync * bool) :=
  match fired with
  | [] => mret (u, false)
  | ticker_C :: later =>
      u ← Run_apply u;
      Run_loop u later
  | stopCh :: _ =>
      glog_Infof "stopping" [];;
      removeUdevFile u;;
      mret (u, true)
  end.

Definition Run (u : UdevSync) (fired : list Select) : M (UdevSync * bool) :=
  u ← Run_apply u;
  Run_loop u fired.

End UdevSync.

(* ===================================================================== *)
(** ** Definitions the statements below are written with *)
(* ===================================================================== *)

#[export] Instance byte_eq_dec : EqDecision byte := Byte.byte_eq_dec.

(** The vector a runner hands to [osexec.Command] for [cmd]. *)
Definition argv_of (e : ExecInterface) (cmd : list string) : list string :=
  match e with
  | NewExec => cmd
  | NewNSEnterExec hostProcDir =>
      ["nsenter";
       "--mount=" +:+ Go.filepath_Join [hostProcDir; mountNsPath];
       "--"] ++ cmd
  end.

(** What one [Exec] call does when it does not panic: one command, one
    log line, the answer of the environment handed back untouched. *)
Definition Exec_effect (env : Env) (argv : list string) (w : World)
  : Outcome (list byte * option error) :=
  let '(out, err) := CombinedOutput_result env w argv in
  let line :=
    match err with
    | Some e =>
        "executed " +:+ Go.strings_Join argv " " +:+ ": "
        +:+ Go.string_of_bytes out +:+ " (error: " +:+ e +:+ ")"
    | None =>
        "executed " +:+ Go.strings_Join argv " " +:+ ": "
        +:+ Go.string_of_bytes out +:+ " (success)"
    end in
  Done (out, err) (emit (EvLog 4 line) (emit (EvCommand argv) w)).

(** [ran env e w cmds answers w']: the runner [e] was called on the vectors
    [cmds] one after the other, from the world [w] to the world [w'], and
    returned [answers]. *)
Inductive ran (env : Env) (e : ExecInterface)
  : World -> list (list string) -> list (list byte * option error) -> World -> Prop :=
| ran_nil (w : World) : ran env e w [] [] w
| ran_cons (w w1 w' : World) (cmd : list string) (cmds : list (list string))
    (answer : list byte * option error)
    (answers : list (list byte * option error)) :
    Exec env e cmd w = Done answer w1 ->
    ran env e w1 cmds answers w' ->
    ran env e w (cmd :: cmds) (answer :: answers) w'.

Definition succeeded (answer : list byte * option error) : Prop :=
  snd answer = None.

(** *** Environments and worlds to run the model on *)

(** Nothing fails: the configuration file holds [cfg], every command
    succeeds without output. *)
Definition env_quiet (cfg : string) : Env :=
  mkEnv (fun _ _ => (Go.bytes_of_string cfg, None))
        (fun _ _ => None) (fun _ _ _ => None) (fun _ _ => None)
        (fun _ _ => ([], None)).

(** As [env_quiet], but every command exits with status 1 after printing
    [failed]. *)
Definition env_udevadm_fails (cfg : string) : Env :=
  mkEnv (fun _ _ => (Go.bytes_of_string cfg, None))
        (fun _ _ => None) (fun _ _ _ => None) (fun _ _ => None)
        (fun _ _ => (Go.bytes_of_string "failed", Some "exit status 1")).

(** The configuration file cannot be read. *)
Definition env_no_config : Env :=
  mkEnv (fun _ name => ([], Some ("open " +:+ name +:+ ": no such file or directory")))
        (fun _ _ => None) (fun _ _ _ => None) (fun _ _ => None)
        (fun _ _ => ([], None)).

(** The [trigger] command fails, the others succeed. *)
Definition env_trigger_fails : Env :=
  mkEnv (fun _ _ => (Go.bytes_of_string "abc", None))
        (fun _ _ => None) (fun _ _ _ => None) (fun _ _ => None)
        (fun _ argv =>
           if bool_decide (argv !! 1 = Some "trigger")
           then (Go.bytes_of_string "no devices", Some "exit status 1")
           else ([], None)).

(** The configuration file holds [X] until the first command has run and
    [Y] from then on. *)
Definition env_config_changes : Env :=
  mkEnv (fun w _ =>
           match commands_run (trace w) with
           | [] => (Go.bytes_of_string "X", None)
           | _ => (Go.bytes_of_string "Y", None)
           end)
        (fun _ _ => None) (fun _ _ _ => None) (fun _ _ => None)
        (fun _ _ => ([], None)).

(** An empty rules directory and no history. *)
Definition world_empty : World := mkWorld ∅ [].

(** What executing a template writes, piece after piece; [None] when the
    data lacks a field the template names. *)
Fixpoint render_nodes (t : list Template.Node) (data : string -> option string)
  : option (list byte) :=
  match t with
  | [] => Some []
  | Template.TextNode text :: rest =>
      app (Go.bytes_of_string text) <$> render_nodes rest data
  | Template.FieldNode ident :: rest =>
      match data ident with
      | None => None
      | Some v => app (Go.bytes_of_string v) <$> render_nodes rest data
      end
  end.

(** The text of the rules file before the rules of the configuration. *)
Definition artifact_header : string :=
  Eval vm_compute in
    String.concat "" (map (fun l => l +:+ Go.nl)
      [ "";
        "# Generated file, do not modify!";
        "";
        "# Skip non-block devices.";
        "SUBSYSTEM!=" +:+ Go.dq +:+ "block" +:+ Go.dq +:+ ", GOTO="
          +:+ Go.dq +:+ "out" +:+ Go.dq;
        "" ]).

(** The text after the rules, up to the node-group name in the first
    [SYMLINK] rule. *)
Definition artifact_guard : string :=
  Eval vm_compute in
    String.concat "" (map (fun l => l +:+ Go.nl)
      [ "";
        "";
        "# Check if the device was matched by any of the rules above.";
        "ENV{KUBERNETES_STORAGE_CLASS}==" +:+ Go.dq +:+ Go.dq +:+ ", GOTO="
          +:+ Go.dq +:+ "out" +:+ Go.dq;
        "";
        "# The device matched, create a symlink with stable device name if possible." ])
    +:+ "ENV{ID_SERIAL}!=" +:+ Go.dq +:+ Go.dq +:+ ", SYMLINK+=" +:+ Go.dq
    +:+ "disk/kubernetes/".

(** From the name in the first [SYMLINK] rule to the name in the second. *)
Definition artifact_serial_to_kernel : string :=
  Eval vm_compute in
    String.concat "" (map (fun l => l +:+ Go.nl)
      [ "/$env{KUBERNETES_STORAGE_CLASS}/$env{ID_BUS}-$env{ID_SERIAL}" +:+ Go.dq;
        "";
        "# Fall back to kernel name if stable device name does not exist." ])
    +:+ "ENV{ID_SERIAL}==" +:+ Go.dq +:+ Go.dq +:+ ", SYMLINK+=" +:+ Go.dq
    +:+ "disk/kubernetes/".

(** The end of the file. *)
Definition artifact_tail : string :=
  Eval vm_compute in
    String.concat "" (map (fun l => l +:+ Go.nl)
      [ "/$env{KUBERNETES_STORAGE_CLASS}/$kernel" +:+ Go.dq;
        "";
        "LABEL=" +:+ Go.dq +:+ "out" +:+ Go.dq ]).

(** The bytes of the rules file for a node group and a configuration: the
    configuration as it is between the header and the guard, the name in
    both [SYMLINK] rules. *)
Definition rendered (name : string) (config : list byte) : list byte :=
  Go.bytes_of_string artifact_header ++ config
  ++ Go.bytes_of_string artifact_guard ++ Go.bytes_of_string name
  ++ Go.bytes_of_string artifact_serial_to_kernel ++ Go.bytes_of_string name
  ++ Go.bytes_of_string artifact_tail.

(** The template the constructor parses. *)
Definition udevTemplate_parsed : list Template.Node :=
  [ Template.TextNode artifact_header; Template.FieldNode "Rules";
    Template.TextNode artifact_guard; Template.FieldNode "Name";
    Template.TextNode artifact_serial_to_kernel; Template.FieldNode "Name";
    Template.TextNode artifact_tail ].

(** What [applyConfig] does once the read succeeded and a change was
    detected: write the rules file, reload, and only then remember the
    configuration. *)
Definition write_then_reload (env : Env) (u : UdevSync) (config : list byte)
  : M (option error * UdevSync) :=
  fun w =>
    match writeRulesFile env u config w with
    | Panicked msg w1 => Panicked msg w1
    | Done (Some e) w1 => Done (Some e, u) w1
    | Done None w1 =>
        match reloadUdev env u w1 with
        | Panicked msg w2 => Panicked msg w2
        | Done (Some e) w2 =>
            Done (Some ("failed to reload udev rules: " +:+ e), u) w2
        | Done None w2 =>
            Done (None, set_oldConfigContent u config)
                 (emit (EvLog 2 "configuration applied") w2)
        end
    end.

(** [n] ticks of the ticker, one [applyConfig] each. *)
Fixpoint ticks (env : Env) (u : UdevSync) (n : nat) : M UdevSync :=
  match n with
  | O => mret u
  | S n' => u' ← Run_apply env u; ticks env u' n'
  end.

(** Whether [os.Remove(name)] succeeds in [w]: the file is there and the
    environment does not refuse. *)
Definition Remove_succeeds (env : Env) (name : string) (w : World) : bool :=
  match fs w !! name with
  | Some _ =>
      match Remove_error env w name with
      | None => true
      | Some _ => false
      end
  | None => false
  end.

(** *** A sync object to run the model on *)

(** What [NewUdevSync] builds from the default flags of the command and
    the name [pool-a]. *)
Definition u_pool_a : UdevSync :=
  mkUdevSync "pool-a" "/etc/local-storage-discoverer/rules.conf" []
    "/run/udev/rules.d/99-kubernetes-pool-a.rules" udevTemplate_parsed NewExec.

(** The configuration of the first end-to-end scenario: one rule. *)
Definition config_scenario_A : string :=
  Eval vm_compute in
    "KERNELS==" +:+ Go.dq +:+ "sda" +:+ Go.dq
    +:+ ", ENV{KUBERNETES_STORAGE_CLASS}=" +:+ Go.dq +:+ "fast" +:+ Go.dq.

(** The rules file expected for it under the name [pool-a], line by
    line. *)
Definition artifact_scenario_A : string :=
  Eval vm_compute in
    String.concat "" (map (fun l => l +:+ Go.nl)
      [ "";
        "# Generated file, do not modify!";
        "";
        "# Skip non-block devices.";
        "SUBSYSTEM!=" +:+ Go.dq +:+ "block" +:+ Go.dq +:+ ", GOTO="
          +:+ Go.dq +:+ "out" +:+ Go.dq;
        "";
        "KERNELS==" +:+ Go.dq +:+ "sda" +:+ Go.dq
          +:+ ", ENV{KUBERNETES_STORAGE_CLASS}=" +:+ Go.dq +:+ "fast" +:+ Go.dq;
        "";
        "# Check if the device was matched by any of the rules above.";
        "ENV{KUBERNETES_STORAGE_CLASS}==" +:+ Go.dq +:+ Go.dq +:+ ", GOTO="
          +:+ Go.dq +:+ "out" +:+ Go.dq;
        "";
        "# The device matched, create a symlink with stable device name if possible.";
        "ENV{ID_SERIAL}!=" +:+ Go.dq +:+ Go.dq +:+ ", SYMLINK+=" +:+ Go.dq
          +:+ "disk/kubernetes/pool-a/$env{KUBERNETES_STORAGE_CLASS}/$env{ID_BUS}-$env{ID_SERIAL}"
          +:+ Go.dq;
        "";
        "# Fall back to kernel name if stable device name does not exist.";
        "ENV{ID_SERIAL}==" +:+ Go.dq +:+ Go.dq +:+ ", SYMLINK+=" +:+ Go.dq
          +:+ "disk/kubernetes/pool-a/$env{KUBERNETES_STORAGE_CLASS}/$kernel"
          +:+ Go.dq;
        "";
        "LABEL=" +:+ Go.dq +:+ "out" +:+ Go.dq ]).

(* ===================================================================== *)
(** ** [regexp], for patterns of literals, classes, groups, [?] and [*]

    Library code again.  A pattern [^r$] matches a string when the whole
    string is in the language of [r]; the matcher takes derivatives, one
    byte of the string at a time. *)
(* ===================================================================== *)

Module Regexp.

Inductive re : Type :=
| Empty
| Eps
| Lit (c : ascii)
| Class (ranges : list (ascii * ascii))
| Cat (r1 r2 : re)
| Alt (r1 r2 : re)
| Opt (r : re)
| Star (r : re).

(** Whether [c] lies in one of the ranges of a class. *)
Definition in_class (c : ascii) (ranges : list (ascii * ascii)) : bool :=
  existsb (fun '(lo, hi) =>
             Nat.leb (nat_of_ascii lo) (nat_of_ascii c)
             && Nat.leb (nat_of_ascii c) (nat_of_ascii hi)) ranges.

Fixpoint nullable (r : re) : bool :=
  match r with
  | Empty => false
  | Eps => true
  | Lit _ => false
  | Class _ => false
  | Cat r1 r2 => nullable r1 && nullable r2
  | Alt r1 r2 => nullable r1 || nullable r2
  | Opt _ => true
  | Star _ => true
  end.

Fixpoint deriv (c : ascii) (r : re) : re :=
  match r with
  | Empty => Empty
  | Eps => Empty
  | Lit d => if Ascii.eqb c d then Eps else Empty
  | Class ranges => if in_class c ranges then Eps else Empty
  | Cat r1 r2 =>
      if nullable r1 then Alt (Cat (deriv c r1) r2) (deriv c r2)
      else Cat (deriv c r1) r2
  | Alt r1 r2 => Alt (deriv c r1) (deriv c r2)
  | Opt r1 => deriv c r1
  | Star r1 => Cat (deriv c r1) (Star r1)
  end.

Fixpoint matches (r : re) (s : list ascii) : bool :=
  match s with
  | [] => nullable r
  | c :: s' => matches (deriv c r) s'
  end.

(** The pattern text of an expression, in the syntax of Go: a literal dot
    is escaped, [?] and [*] on anything but a class or a literal take a
    group. *)
Definition show_range (range : ascii * ascii) : string :=
  let '(lo, hi) := range in
  if Ascii.eqb lo hi then String lo "" else String lo (String "-" (String hi "")).

Definition is_atom (r : re) : bool :=
  match r with
  | Lit _ | Class _ => true
  | _ => false
  end.

Fixpoint show (r : re) : string :=
  match r with
  | Empty => "[^\x00-\x{10FFFF}]"
  | Eps => "(?:)"
  | Lit c => if Ascii.eqb c "." then String "\" (String c "") else String c ""
  | Class ranges => "[" +:+ String.concat "" (map show_range ranges) +:+ "]"
  | Cat r1 r2 => show r1 +:+ show r2
  | Alt r1 r2 => "(?:" +:+ show r1 +:+ "|" +:+ show r2 +:+ ")"
  | Opt r1 => if is_atom r1 then show r1 +:+ "?" else "(" +:+ show r1 +:+ ")?"
  | Star r1 => if is_atom r1 then show r1 +:+ "*" else "(" +:+ show r1 +:+ ")*"
  end.

(** [regexp.MustCompile(pattern).MatchString(s)] for the pattern that
    anchors [r] at both ends. *)
Definition anchored (r : re) : string := "^" +:+ show r +:+ "$".

Definition MatchString (r : re) (s : string) : bool :=
  matches r (list_ascii_of_string s).

(** The language of an expression. *)
Inductive lang : re -> list ascii -> Prop :=
| lang_Eps : lang Eps []
| lang_Lit (c : ascii) : lang (Lit c) [c]
| lang_Class (c : ascii) (ranges : list (ascii * ascii)) :
    in_class c ranges = true -> lang (Class ranges) [c]
| lang_Cat (r1 r2 : re) (s1 s2 : list ascii) :
    lang r1 s1 -> lang r2 s2 -> lang (Cat r1 r2) (s1 ++ s2)
| lang_Alt_l (r1 r2 : re) (s : list ascii) : lang r1 s -> lang (Alt r1 r2) s
| lang_Alt_r (r1 r2 : re) (s : list ascii) : lang r2 s -> lang (Alt r1 r2) s
| lang_Opt_none (r : re) : lang (Opt r) []
| lang_Opt_some (r : re) (s : list ascii) : lang r s -> lang (Opt r) s
| lang_Star_nil (r : re) : lang (Star r) []
| lang_Star_cons (r : re) (s1 s2 : list ascii) :
    lang r s1 -> lang (Star r) s2 -> lang (Star r) (s1 ++ s2).

(** The bytes an expression can consume. *)
Fixpoint alphabet (r : re) (c : ascii) : bool :=
  match r with
  | Empty | Eps => false
  | Lit d => Ascii.eqb c d
  | Class ranges => in_class c ranges
  | Cat r1 r2 | Alt r1 r2 => alphabet r1 c || alphabet r2 c
  | Opt r1 | Star r1 => alphabet r1 c
  end.

End Regexp.

(* ===================================================================== *)
(** ** cmd/local-storage-udev-writer/main.go: the check of [--name] *)
(* ===================================================================== *)

Definition dns1123LabelFmt : string := "[a-z0-9]([-a-z0-9]*[a-z0-9])?".

Definition dns1123SubdomainFmt : string :=
  dns1123LabelFmt +:+ "(\." +:+ dns1123LabelFmt +:+ ")*".

(** The expression [dns1123LabelFmt] is the text of. *)
Definition dns1123Label : Regexp.re :=
  let alnum := Regexp.Class [("a", "z"); ("0", "9")]%char in
  let dash_alnum := Regexp.Class [("-", "-"); ("a", "z"); ("0", "9")]%char in
  Regexp.Cat alnum (Regexp.Opt (Regexp.Cat (Regexp.Star dash_alnum) alnum)).

(** [dns1123SubdomainRegexp], compiled from [dns1123SubdomainFmt] between
    [^] and [$]. *)
Definition dns1123SubdomainRegexp : Regexp.re :=
  Regexp.Cat dns1123Label
    (Regexp.Star (Regexp.Cat (Regexp.Lit ".") dns1123Label)).

Module Glushkov.
Import Regexp.

(** The bytes a word of the language can start with, end with, and the
    pairs of bytes that can stand next to each other in one. *)
Fixpoint first (r : re) (c : ascii) : bool :=
  match r with
  | Empty | Eps => false
  | Lit d => Ascii.eqb c d
  | Class ranges => in_class c ranges
  | Cat r1 r2 => first r1 c || (nullable r1 && first r2 c)
  | Alt r1 r2 => first r1 c || first r2 c
  | Opt r1 | Star r1 => first r1 c
  end.

Fixpoint final (r : re) (c : ascii) : bool :=
  match r with
  | Empty | Eps => false
  | Lit d => Ascii.eqb c d
  | Class ranges => in_class c ranges
  | Cat r1 r2 => final r2 c || (nullable r2 && final r1 c)
  | Alt r1 r2 => final r1 c || final r2 c
  | Opt r1 | Star r1 => final r1 c
  end.

Fixpoint follow (r : re) (c d : ascii) : bool :=
  match r with
  | Empty | Eps | Lit _ | Class _ => false
  | Cat r1 r2 => follow r1 c d || follow r2 c d || (final r1 c && first r2 d)
  | Alt r1 r2 => follow r1 c d || follow r2 c d
  | Opt r1 => follow r1 c d
  | Star r1 => follow r1 c d || (final r1 c && first r1 d)
  end.

(** Every two neighbours of [s] satisfy [P]. *)
Fixpoint neighbours (P : ascii -> ascii -> bool) (s : list ascii) : bool :=
  match s with
  | c :: (d :: _) as s' => P c d && neighbours P s'
  | _ => true
  end.

End Glushkov.

(** A lowercase letter or a digit. *)
Definition lower_or_digit (c : ascii) : bool :=
  let n := nat_of_ascii c in
  (Nat.leb 97 n && Nat.leb n 122) || (Nat.leb 48 n && Nat.leb n 57).

(** A lowercase letter, a digit or a dash. *)
Definition dash_lower_or_digit (c : ascii) : bool :=
  lower_or_digit c || Ascii.eqb c "-".

(** A DNS label: not empty, lowercase letters, digits and dashes only, and
    no dash at either end. *)
Definition dns_label (l : list ascii) : Prop :=
  (exists c, head l = Some c /\ lower_or_digit c = true)
  /\ (exists d, last l = Some d /\ lower_or_digit d = true)
  /\ Forall (fun x => dash_lower_or_digit x = true) l.

(** Labels put together with a dot between them. *)
Definition join_dots (labels : list (list ascii)) : list ascii :=
  match labels with
  | [] => []
  | l :: rest => l ++ concat (map (cons "."%char) rest)
  end.

(* ===================================================================== *)
(** ** Definitions the statements on names and on runs are written with *)
(* ===================================================================== *)

(** The disk fills up: the file can be opened, the first two writes of the
    history succeed, every later one fails. *)
Definition env_disk_full (cfg : string) : Env :=
  mkEnv (fun _ _ => (Go.bytes_of_string cfg, None))
        (fun _ _ => None)
        (fun w _ _ =>
           if Nat.leb 3 (length (files_written (trace w)))
           then Some "no space left on device" else None)
        (fun _ _ => None)
        (fun _ _ => ([], None)).

(** [u] and [u'] differ in nothing but [oldConfigContent]. *)
Definition same_settings (u u' : UdevSync) : Prop :=
  name u' = name u
  /\ configFile u' = configFile u
  /\ rulesFile u' = rulesFile u
  /\ udevTemplate u' = udevTemplate u
  /\ exec u' = exec u.

(** [w'] has the files of [w], the file [rf] apart, and has lost none. *)
Definition keeps (rf : string) (w w' : World) : Prop :=
  (forall f, f <> rf -> fs w' !! f = fs w !! f)
  /\ (forall f, is_Some (fs w !! f) -> is_Some (fs w' !! f)).

(** The world after [n] more steps that leave the files alone and open,
    write and run nothing. *)
Definition quiet_step (w w' : World) : Prop :=
  fs w' = fs w
  /\ files_written (trace w') = files_written (trace w)
  /\ commands_run (trace w') = commands_run (trace w).

(* ===================================================================== *)
(** ** The library fragments on the examples of the Go documentation *)
(* ===================================================================== *)

Example Sprintf_two : Go.Sprintf "a %s b %v c" ["x"; "y"] = "a x b y c".
Proof. reflexivity. Qed.

Example Clean_doc_1 : Go.path_Clean "a//c" = "a/c".
Proof. reflexivity. Qed.
Example Clean_doc_2 : Go.path_Clean "a/c/b/.." = "a/c".
Proof. reflexivity. Qed.
Example Clean_doc_3 : Go.path_Clean "/../a/b/../././/c" = "/a/c".
Proof. reflexivity. Qed.
Example Clean_doc_4 : Go.path_Clean "" = ".".
Proof. reflexivity. Qed.
Example Clean_doc_5 : Go.path_Clean "a/../../b/" = "../b".
Proof. reflexivity. Qed.
Example Clean_doc_6 : Go.path_Clean "/" = "/".
Proof. reflexivity. Qed.
Example Join_doc_1 : Go.path_Join ["a"; "b/c"] = "a/b/c".
Proof. reflexivity. Qed.
Example Join_doc_2 : Go.path_Join ["a/b"; "../../../xyz"] = "../xyz".
Proof. reflexivity. Qed.
Example Join_doc_3 : Go.path_Join [""; ""] = "".
Proof. reflexivity. Qed.
Example Join_doc_4 : Go.path_Join ["a"; ""] = "a".
Proof. reflexivity. Qed.
Example Join_doc_5 : Go.path_Join [""; "a"] = "a".
Proof. reflexivity. Qed.


(* ===================================================================== *)
(** ** Change detection *)
(* ===================================================================== *)

Lemma byte_eqb_eq (a b : byte) : Byte.eqb a b = true <-> a = b.
Proof.
  split.
  - apply Byte.byte_dec_bl.
  - apply Byte.byte_dec_lb.
Qed.

(** The loop started at index [length pre] on two slices of equal length:
    it does not panic and answers whether the slices differ. *)
Lemma needApplyConfig_range_spec (rest old_rest pre : list byte) :
  length rest = length old_rest ->
  needApplyConfig_range (length pre) rest (pre ++ old_rest)
  = Some (bool_decide (rest <> old_rest)).
Proof.
  revert old_rest pre.
  induction rest as [|c rest IH]; intros [|o old_rest] pre Hlen;
    simpl in Hlen; try discriminate.
  - cbn [needApplyConfig_range].
    rewrite bool_decide_eq_false_2; [reflexivity | tauto].
  - cbn [needApplyConfig_range].
    rewrite lookup_app_r by lia.
    replace (length pre - length pre) with 0 by lia.
    cbn [lookup list_lookup].
    destruct (Byte.eqb c o) eqn:Hco; cbn [negb].
    + apply byte_eqb_eq in Hco. subst o.
      specialize (IH old_rest (pre ++ [c])).
      rewrite length_app in IH. simpl in IH.
      replace (length pre + 1) with (S (length pre)) in IH by lia.
      rewrite <- app_assoc in IH. simpl in IH.
      rewrite IH by lia.
      f_equal. apply bool_decide_ext. split; intros H E.
      * apply H. congruence.
      * apply H. congruence.
    + rewrite bool_decide_eq_true_2; [reflexivity|].
      intros E. injection E as E _. subst o.
      assert (Byte.eqb c c = true) by (apply byte_eqb_eq; reflexivity).
      congruence.
Qed.

Lemma needApplyConfig_decide (u : UdevSync) (config : list byte) :
  needApplyConfig u config = Some (bool_decide (config <> oldConfigContent u)).
Proof.
  unfold needApplyConfig.
  destruct (Nat.eqb (length config) (length (oldConfigContent u))) eqn:Hlen; simpl.
  - apply Nat.eqb_eq in Hlen.
    apply (needApplyConfig_range_spec config (oldConfigContent u) [] Hlen).
  - apply Nat.eqb_neq in Hlen.
    rewrite bool_decide_eq_true_2; [reflexivity | congruence].
Qed.

(** C4. For every freshly read configuration [config] and every stored
    [oldConfigContent], [needApplyConfig] returns (it never panics on an
    index) and its answer is [true] exactly when the two byte sequences
    differ and [false] exactly when they are equal.  Sequences of different
    lengths are reported as changed by the length test that comes first,
    and two empty sequences are reported as unchanged. *)
Theorem needApplyConfig_iff_differs (u : UdevSync) (config : list byte) :
  (needApplyConfig u config = Some true <-> config <> oldConfigContent u) /\
  (needApplyConfig u config = Some false <-> config = oldConfigContent u) /\
  (length config <> length (oldConfigContent u) ->
     needApplyConfig u config = Some true) /\
  (config = [] -> oldConfigContent u = [] -> needApplyConfig u config = Some false).
Proof.
  rewrite needApplyConfig_decide.
  repeat split.
  - intros H. injection H as H. apply bool_decide_eq_true in H. exact H.
  - intros H. rewrite bool_decide_eq_true_2; auto.
  - intros H. injection H as H. apply bool_decide_eq_false in H.
    destruct (decide (config = oldConfigContent u)); tauto.
  - intros H. rewrite bool_decide_eq_false_2; auto.
  - intros H. rewrite bool_decide_eq_true_2; [reflexivity | congruence].
  - intros -> E. rewrite E. reflexivity.
Qed.

(** The length test is what keeps the loop inside [oldConfigContent]: on
    its own the loop would index past the end of a shorter snapshot. *)
Example needApplyConfig_range_alone_panics :
  needApplyConfig_range 0 ["a"%byte; "b"%byte] ["a"%byte] = None.
Proof. reflexivity. Qed.

(* ===================================================================== *)
(** ** Facts about [path.Join] *)
(* ===================================================================== *)

Module GoFacts.
Import Go.

Lemma append_assoc (a b c : string) : (a +:+ b) +:+ c = a +:+ (b +:+ c).
Proof.
  induction a as [|x a IH]; [reflexivity|].
  change (String x ((a +:+ b) +:+ c) = String x (a +:+ (b +:+ c))).
  f_equal. exact IH.
Qed.

Lemma split_slash_append (a b cur : string) :
  split_slash cur (a +:+ "/" +:+ b) = split_slash cur a ++ split_slash "" b.
Proof.
  revert cur. induction a as [|c a IH]; intros cur.
  - reflexivity.
  - simpl. destruct (Ascii.eqb c "/").
    + rewrite IH. reflexivity.
    + apply IH.
Qed.

Lemma components_append (a b : string) :
  components (a +:+ "/" +:+ b) = components a ++ components b.
Proof. apply split_slash_append. Qed.

Lemma rooted_append (a b : string) :
  a <> "" -> rooted (a +:+ b) = rooted a.
Proof. destruct a; [congruence | reflexivity]. Qed.

Lemma clean_step_plain (r : bool) (stack : list string) (c : string) :
  plain c = true -> clean_step r stack c = c :: stack.
Proof.
  unfold plain, clean_step. intros H.
  destruct (String.eqb c ""), (String.eqb c "."), (String.eqb c "..");
    simpl in *; congruence.
Qed.

Lemma fold_clean_step_plain (r : bool) (cs stack : list string) :
  forallb plain cs = true ->
  fold_left (clean_step r) cs stack = rev cs ++ stack.
Proof.
  revert stack. induction cs as [|c cs IH]; intros stack H; simpl in *.
  - reflexivity.
  - apply andb_prop in H as [Hc Hcs].
    rewrite clean_step_plain by assumption.
    rewrite IH by assumption.
    rewrite <- app_assoc. reflexivity.
Qed.

Lemma strings_Join_app (cs ds : list string) (sep : string) :
  cs <> [] -> ds <> [] ->
  strings_Join (cs ++ ds) sep
  = strings_Join cs sep +:+ sep +:+ strings_Join ds sep.
Proof.
  intros Hcs Hds. induction cs as [|c cs IH]; [congruence|].
  destruct cs as [|c' cs].
  - simpl. destruct ds; [congruence | reflexivity].
  - change (strings_Join ((c :: c' :: cs) ++ ds) sep)
      with (c +:+ sep +:+ strings_Join ((c' :: cs) ++ ds) sep).
    rewrite IH by congruence.
    change (strings_Join (c :: c' :: cs) sep)
      with (c +:+ sep +:+ strings_Join (c' :: cs) sep).
    rewrite !append_assoc. reflexivity.
Qed.

Lemma render_path_app (r : bool) (cs ds : list string) :
  cs <> [] -> ds <> [] ->
  render_path r (cs ++ ds) = render_path r cs +:+ "/" +:+ strings_Join ds "/".
Proof.
  intros Hcs Hds. unfold render_path. destruct r.
  - rewrite strings_Join_app by assumption.
    rewrite !append_assoc. reflexivity.
  - destruct cs as [|c cs]; [congruence|].
    change ((c :: cs) ++ ds) with (c :: (cs ++ ds)).
    change (c :: (cs ++ ds)) with ((c :: cs) ++ ds).
    rewrite strings_Join_app by assumption. reflexivity.
Qed.

Lemma components_nonempty (p : string) : components p <> [].
Proof.
  unfold components. generalize "".
  induction p as [|c p IH]; intros cur; simpl.
  - congruence.
  - destruct (Ascii.eqb c "/"); [congruence | apply IH].
Qed.

(** Joining a directory that [Clean] leaves alone (and that is neither
    the root nor [.]) with a path of plain components puts one slash
    between the two. *)
Lemma path_Join_clean_dir (d f : string) :
  path_Clean d = d -> d <> "/" -> d <> "." ->
  forallb plain (components f) = true ->
  path_Join [d; f] = d +:+ "/" +:+ strings_Join (components f) "/".
Proof.
  intros Hclean Hroot Hdot Hf.
  assert (Hne : d <> "") by (intros ->; discriminate Hclean).
  pose proof (components_nonempty f) as Hcf.
  unfold path_Join.
  destruct (String.eqb_spec d "") as [->|_]; [congruence|].
  change (strings_Join [d; f] "/") with (d +:+ "/" +:+ f).
  unfold path_Clean in *.
  rewrite rooted_append by assumption.
  rewrite components_append.
  unfold clean_components in *.
  rewrite fold_left_app, fold_clean_step_plain by assumption.
  rewrite rev_app_distr, rev_involutive.
  remember (rev (fold_left (clean_step (rooted d)) (components d) []))
    as cs eqn:Hcs in *.
  clear Hcs. destruct cs as [|c cs].
  - exfalso. unfold render_path in Hclean.
    destruct (rooted d); vm_compute in Hclean; congruence.
  - rewrite render_path_app by congruence.
    rewrite Hclean. reflexivity.
Qed.

End GoFacts.

(* ===================================================================== *)
(** ** The command runners *)
(* ===================================================================== *)

Lemma append_nil_r (s : string) : s +:+ "" = s.
Proof.
  induction s as [|c s IH]; [reflexivity|].
  change (String c (s +:+ "") = String c s). f_equal. exact IH.
Qed.

Lemma bind_unfold {A B} (m : M A) (k : A -> M B) (w : World) :
  (m ≫= k) w = match m w with
               | Done a w' => k a w'
               | Panicked msg w' => Panicked msg w'
               end.
Proof. reflexivity. Qed.

Lemma commands_run_app (t1 t2 : list Event) :
  commands_run (t1 ++ t2) = commands_run t1 ++ commands_run t2.
Proof.
  induction t1 as [|e t1 IH]; [reflexivity|].
  destruct e; simpl; rewrite IH; reflexivity.
Qed.

Lemma files_written_app (t1 t2 : list Event) :
  files_written (t1 ++ t2) = files_written t1 ++ files_written t2.
Proof.
  induction t1 as [|e t1 IH]; [reflexivity|].
  destruct e; simpl; rewrite IH; reflexivity.
Qed.

Lemma Sprintf_executed_error (a b c : string) :
  Go.Sprintf "executed %s: %s (error: %v)" [a; b; c]
  = "executed " +:+ a +:+ ": " +:+ b +:+ " (error: " +:+ c +:+ ")".
Proof. reflexivity. Qed.

Lemma Sprintf_executed_success (a b : string) :
  Go.Sprintf "executed %s: %s (success)" [a; b]
  = "executed " +:+ a +:+ ": " +:+ b +:+ " (success)".
Proof. reflexivity. Qed.

Lemma Sprintf_mount (p : string) :
  Go.Sprintf "--mount=%s" [p] = "--mount=" +:+ p.
Proof.
  change (Go.Sprintf "--mount=%s" [p]) with ("--mount=" +:+ (p +:+ "")).
  rewrite append_nil_r. reflexivity.
Qed.

Lemma exec_Exec_cons (env : Env) (cmd0 : string) (cmd1 : list string) (w : World) :
  exec_Exec env (cmd0 :: cmd1) w = Exec_effect env (cmd0 :: cmd1) w.
Proof.
  unfold exec_Exec, Exec_effect.
  rewrite bind_unfold. unfold osexec_CombinedOutput.
  destruct (CombinedOutput_result env w (cmd0 :: cmd1)) as [out [e|]];
    reflexivity.
Qed.

Lemma nsenterExec_Exec_any (env : Env) (hostProcDir : string)
    (cmd : list string) (w : World) :
  nsenterExec_Exec env hostProcDir cmd w
  = Exec_effect env (argv_of (NewNSEnterExec hostProcDir) cmd) w.
Proof.
  unfold nsenterExec_Exec, Exec_effect, argv_of.
  rewrite Sprintf_mount.
  cbn [app]. rewrite bind_unfold. unfold osexec_CombinedOutput.
  match goal with
  | |- context [CombinedOutput_result env w ?v] =>
      destruct (CombinedOutput_result env w v) as [out [e|]]
  end; reflexivity.
Qed.

Lemma Exec_cons (env : Env) (e : ExecInterface) (cmd0 : string)
    (cmd1 : list string) (w : World) :
  Exec env e (cmd0 :: cmd1) w = Exec_effect env (argv_of e (cmd0 :: cmd1)) w.
Proof.
  destruct e as [|d]; simpl.
  - apply exec_Exec_cons.
  - apply nsenterExec_Exec_any.
Qed.

Lemma Exec_effect_Done (env : Env) (argv : list string) (w : World) :
  exists w',
    Exec_effect env argv w = Done (CombinedOutput_result env w argv) w'
    /\ fs w' = fs w
    /\ exists line, trace w' = trace w ++ [EvCommand argv; EvLog 4 line].
Proof.
  unfold Exec_effect.
  destruct (CombinedOutput_result env w argv) as [out err].
  eexists. split; [reflexivity|]. split; [reflexivity|].
  eexists. simpl. rewrite <- app_assoc. reflexivity.
Qed.

(** C7. In namespace-entering mode, for every host-proc directory and
    every command vector [cmd], the runner returns (it never panics) and
    executes exactly one command: [nsenter], then [--mount=] followed by
    the path of [1/ns/mnt] under [hostProcDir] as [filepath.Join] gives it,
    then [--], then [cmd] unchanged; what that execution answered is handed
    back.  For a [hostProcDir] in the form [filepath.Join] leaves alone
    (cleaned, neither the root nor the current directory) the path is the
    directory, a slash and [1/ns/mnt]. *)
Theorem nsenterExec_wraps_with_pid1_mount_ns
    (env : Env) (hostProcDir : string) (cmd : list string) (w : World) :
  let argv :=
    ["nsenter";
     "--mount=" +:+ Go.filepath_Join [hostProcDir; "1/ns/mnt"];
     "--"] ++ cmd in
  (exists w',
     Exec env (NewNSEnterExec hostProcDir) cmd w
     = Done (CombinedOutput_result env w argv) w'
     /\ commands_run (trace w') = commands_run (trace w) ++ [argv]
     /\ fs w' = fs w)
  /\ (Go.path_Clean hostProcDir = hostProcDir ->
      hostProcDir <> "/" ->
      hostProcDir <> "." ->
      argv = ["nsenter"; "--mount=" +:+ hostProcDir +:+ "/1/ns/mnt"; "--"]
             ++ cmd).
Proof.
  intros argv. split.
  - change (Exec env (NewNSEnterExec hostProcDir) cmd w)
      with (nsenterExec_Exec env hostProcDir cmd w).
    rewrite nsenterExec_Exec_any.
    change (argv_of (NewNSEnterExec hostProcDir) cmd) with argv.
    destruct (Exec_effect_Done env argv w) as (w' & Hrun & Hfs & line & Htr).
    exists w'. split; [exact Hrun|]. split; [|exact Hfs].
    rewrite Htr, commands_run_app. reflexivity.
  - intros Hclean Hroot Hdot. unfold argv, Go.filepath_Join.
    rewrite (GoFacts.path_Join_clean_dir hostProcDir "1/ns/mnt")
      by (assumption || reflexivity).
    reflexivity.
Qed.

Lemma nsenterExec_wraps_with_pid1_mount_ns_witness :
  (exists w',
     Exec (env_quiet "") (NewNSEnterExec "/rootfs/proc")
          ["udevadm"; "control"; "--reload"] world_empty
     = Done ([], None) w'
     /\ commands_run (trace w')
        = [["nsenter"; "--mount=/rootfs/proc/1/ns/mnt"; "--";
            "udevadm"; "control"; "--reload"]])
  /\ ["nsenter"; "--mount=" +:+ Go.filepath_Join ["/rootfs/proc"; "1/ns/mnt"]; "--";
      "udevadm"; "control"; "--reload"]
     = ["nsenter"; "--mount=/rootfs/proc/1/ns/mnt"; "--";
        "udevadm"; "control"; "--reload"].
Proof.
  destruct (nsenterExec_wraps_with_pid1_mount_ns (env_quiet "") "/rootfs/proc"
              ["udevadm"; "control"; "--reload"] world_empty)
    as [(w' & Hrun & Hcmds & _) Hlit].
  split.
  - exists w'. split; [exact Hrun | exact Hcmds].
  - apply Hlit; [reflexivity | discriminate | discriminate].
Defined.

(** The same in terms of [argv_of], for the proofs about [reloadUdev]. *)
Lemma nsenterExec_runs_argv_of
    (env : Env) (hostProcDir : string) (cmd : list string) (w : World) :
  exists w',
    Exec env (NewNSEnterExec hostProcDir) cmd w
    = Done (CombinedOutput_result env w (argv_of (NewNSEnterExec hostProcDir) cmd)) w'
    /\ commands_run (trace w')
       = commands_run (trace w) ++ [argv_of (NewNSEnterExec hostProcDir) cmd].
Proof.
  change (Exec env (NewNSEnterExec hostProcDir) cmd w)
    with (nsenterExec_Exec env hostProcDir cmd w).
  rewrite nsenterExec_Exec_any.
  destruct (Exec_effect_Done env (argv_of (NewNSEnterExec hostProcDir) cmd) w)
    as (w' & Hrun & Hfs & line & Htr).
  exists w'. split; [exact Hrun|].
  rewrite Htr, commands_run_app. reflexivity.
Qed.

Example filepath_Join_trailing_slash :
  Go.filepath_Join ["/rootfs/proc/"; mountNsPath] = "/rootfs/proc/1/ns/mnt".
Proof. reflexivity. Qed.
Lemma Sprintf_error_executing (a b c : string) :
  Go.Sprintf "error executing %s: %s (%s))" [a; b; c]
  = "error executing " +:+ a +:+ ": " +:+ b +:+ " (" +:+ c +:+ "))".
Proof. reflexivity. Qed.

(** The loop of [reloadUdev] over any list of non-empty vectors: it runs a
    prefix of the list, in order, and stops after the first command that
    fails; the error it returns is built from that command, its output
    and its error. *)
Lemma reloadUdev_range_spec (env : Env) (e : ExecInterface)
    (cmds : list (list string)) (w : World) :
  Forall (fun cmd => cmd <> []) cmds ->
  exists (k : nat) (r : option error) (w' : World),
    reloadUdev_range env e cmds w = Done r w'
    /\ k <= length cmds
    /\ fs w' = fs w
    /\ commands_run (trace w')
       = commands_run (trace w) ++ map (argv_of e) (take k cmds)
    /\ files_written (trace w') = files_written (trace w)
    /\ match r with
       | None => k = length cmds
       | Some msg =>
           exists (j : nat) (cmd : list string) (out : list byte)
                  (err : error) (wj : World),
             k = S j
             /\ cmds !! j = Some cmd
             /\ commands_run (trace wj)
                = commands_run (trace w) ++ map (argv_of e) (take j cmds)
             /\ CombinedOutput_result env wj (argv_of e cmd) = (out, Some err)
             /\ msg = "error executing " +:+ Go.strings_Join cmd " " +:+ ": "
                      +:+ Go.string_of_bytes out +:+ " (" +:+ err +:+ "))"
       end.
Proof.
  revert w. induction cmds as [|cmd rest IH]; intros w Hne.
  - exists 0, None, w. simpl. rewrite app_nil_r. repeat split; auto.
  - inversion Hne as [|? ? Hcmd Hrest]; subst.
    destruct cmd as [|cmd0 cmd1]; [congruence|].
    cbn [reloadUdev_range]. rewrite bind_unfold, Exec_cons.
    unfold Exec_effect.
    destruct (CombinedOutput_result env w (argv_of e (cmd0 :: cmd1)))
      as [out [err|]] eqn:Hres.
    + exists 1, (Some (Go.Sprintf "error executing %s: %s (%s))"
                  [Go.strings_Join (cmd0 :: cmd1) " "; Go.string_of_bytes out; err])).
      eexists. split; [reflexivity|].
      split; [simpl; lia|]. split; [reflexivity|].
      split; [|split].
      * cbn [emit trace]. rewrite <- app_assoc, commands_run_app. reflexivity.
      * cbn [emit trace]. rewrite <- app_assoc, files_written_app.
        simpl. rewrite app_nil_r. reflexivity.
      * exists 0, (cmd0 :: cmd1), out, err, w.
        split; [reflexivity|]. split; [reflexivity|].
        split; [simpl; rewrite app_nil_r; reflexivity|].
        split; [exact Hres|]. apply Sprintf_error_executing.
    + match goal with
      | |- context [reloadUdev_range env e rest ?w1] =>
          destruct (IH w1 Hrest) as (k & r & w' & Hrun & Hk & Hfs & Hcmds & Hfiles & Hr)
      end.
      exists (S k), r, w'.
      split; [exact Hrun|]. split; [simpl; lia|].
      split; [rewrite Hfs; reflexivity|].
      split; [|split].
      * rewrite Hcmds. cbn [emit trace].
        rewrite <- (app_assoc (trace w)), commands_run_app.
        simpl. rewrite <- app_assoc. reflexivity.
      * rewrite Hfiles. cbn [emit trace].
        rewrite <- (app_assoc (trace w)), files_written_app.
        simpl. rewrite app_nil_r. reflexivity.
      * destruct r as [msg|]; [|simpl; lia].
        destruct Hr as (j & cmd & out' & err & wj & -> & Hj & Hwj & Hans & ->).
        exists (S j), cmd, out', err, wj.
        split; [reflexivity|]. split; [exact Hj|].
        split; [|split; [exact Hans | reflexivity]].
        rewrite Hwj. cbn [emit trace].
        rewrite <- (app_assoc (trace w)), commands_run_app.
        simpl. rewrite <- app_assoc. reflexivity.
Qed.

Lemma commands_nonempty : Forall (fun cmd : list string => cmd <> []) commands.
Proof. unfold commands. repeat constructor; discriminate. Qed.

Lemma ran_commands_run (env : Env) (e : ExecInterface) (w w' : World)
    (cmds : list (list string)) (answers : list (list byte * option error)) :
  ran env e w cmds answers w' ->
  commands_run (trace w') = commands_run (trace w) ++ map (argv_of e) cmds
  /\ fs w' = fs w.
Proof.
  induction 1 as [w|w w1 w' cmd cmds answer answers Hexec Hran [IHc IHf]].
  - simpl. rewrite app_nil_r. auto.
  - assert (Hw1 : commands_run (trace w1)
                  = commands_run (trace w) ++ [argv_of e cmd]
                  /\ fs w1 = fs w).
    { destruct cmd as [|cmd0 cmd1].
      - destruct e as [|d]; [discriminate Hexec|].
        destruct (nsenterExec_runs_argv_of env d [] w) as (w2 & Hrun & Hc).
        change (Exec env (NewNSEnterExec d) [] w)
          with (nsenterExec_Exec env d [] w) in *.
        rewrite nsenterExec_Exec_any in *.
        destruct (Exec_effect_Done env (argv_of (NewNSEnterExec d) []) w)
          as (w3 & Hrun3 & Hfs3 & _).
        rewrite Hrun3 in Hexec, Hrun. 
        injection Hexec as _ <-. injection Hrun as <-. auto.
      - rewrite Exec_cons in Hexec.
        destruct (Exec_effect_Done env (argv_of e (cmd0 :: cmd1)) w)
          as (w3 & Hrun3 & Hfs3 & line & Htr).
        rewrite Hrun3 in Hexec. injection Hexec as _ <-.
        rewrite Htr, commands_run_app. simpl. auto. }
    destruct Hw1 as [Hc1 Hf1].
    rewrite IHc, IHf, Hc1, Hf1. simpl. rewrite <- app_assoc. auto.
Qed.

(** The loop of [reloadUdev] in terms of [ran]: the commands before the
    last one run all succeeded. *)
Lemma reloadUdev_range_ran (env : Env) (e : ExecInterface)
    (cmds : list (list string)) (w : World) :
  Forall (fun cmd => cmd <> []) cmds ->
  exists (k : nat) (answers : list (list byte * option error))
         (r : option error) (w' : World),
    reloadUdev_range env e cmds w = Done r w'
    /\ k <= length cmds
    /\ ran env e w (take k cmds) answers w'
    /\ match r with
       | None => k = length cmds /\ Forall succeeded answers
       | Some msg =>
           exists oks out err cmd,
             answers = oks ++ [(out, Some err)]
             /\ Forall succeeded oks
             /\ k = S (length oks)
             /\ cmds !! length oks = Some cmd
             /\ msg = "error executing " +:+ Go.strings_Join cmd " " +:+ ": "
                      +:+ Go.string_of_bytes out +:+ " (" +:+ err +:+ "))"
       end.
Proof.
  revert w. induction cmds as [|cmd rest IH]; intros w Hne.
  - exists 0, [], None, w. simpl. repeat split; auto; constructor.
  - inversion Hne as [|? ? Hcmd Hrest]; subst.
    cbn [reloadUdev_range]. rewrite bind_unfold.
    destruct (Exec env e cmd w) as [[out [err|]] w1|msg w1] eqn:Hexec.
    + exists 1, [(out, Some err)]. eexists _, _.
      split; [reflexivity|]. split; [simpl; lia|].
      split; [econstructor; [exact Hexec | constructor]|].
      exists [], out, err, cmd. repeat split; auto.
    + destruct (IH w1 Hrest) as (k & answers & r & w' & Hrun & Hk & Hran & Hr).
      exists (S k), ((out, None) :: answers), r, w'.
      split; [exact Hrun|]. split; [simpl; lia|].
      split; [econstructor; eauto|].
      destruct r as [m|].
      * destruct Hr as (oks & out' & err & c & -> & Hoks & -> & Hc & ->).
        exists ((out, None) :: oks), out', err, c.
        repeat split; auto. constructor; [reflexivity | exact Hoks].
      * destruct Hr as [-> Hall]. split; [reflexivity|].
        constructor; [reflexivity | exact Hall].
    + exfalso. destruct cmd as [|cmd0 cmd1]; [congruence|].
      rewrite Exec_cons in Hexec.
      destruct (Exec_effect_Done env (argv_of e (cmd0 :: cmd1)) w)
        as (w3 & Hrun3 & _).
      congruence.
Qed.

(** C2. Every call of [reloadUdev] returns, and what it runs, through the
    runner [u.exec], is a prefix of exactly the three commands [udevadm
    control --reload], [udevadm trigger --subsystem-match=block], [udevadm
    settle --timeout=300], in that order, and no other command.  With no
    error all three ran and succeeded.  With an error, the commands run
    are the first [k]: those before the [k]-th succeeded, the [k]-th
    failed, the later ones were not run, and the error returned contains
    the combined output the failed command produced. *)
Theorem reloadUdev_three_commands_in_order_fail_fast
    (env : Env) (u : UdevSync) (w : World) :
  let three :=
    [ ["udevadm"; "control"; "--reload"];
      ["udevadm"; "trigger"; "--subsystem-match=block"];
      ["udevadm"; "settle"; "--timeout=300"] ] in
  exists (k : nat) (answers : list (list byte * option error))
         (r : option error) (w' : World),
    reloadUdev env u w = Done r w'
    /\ 1 <= k <= 3
    /\ ran env (exec u) w (take k three) answers w'
    /\ commands_run (trace w')
       = commands_run (trace w) ++ map (argv_of (exec u)) (take k three)
    /\ match r with
       | None => k = 3 /\ Forall succeeded answers
       | Some msg =>
           exists oks out err cmd,
             answers = oks ++ [(out, Some err)]
             /\ Forall succeeded oks
             /\ three !! (k - 1) = Some cmd
             /\ msg = "error executing " +:+ Go.strings_Join cmd " " +:+ ": "
                      +:+ Go.string_of_bytes out +:+ " (" +:+ err +:+ "))"
       end.
Proof.
  intros three.
  destruct (reloadUdev_range_ran env (exec u) commands w commands_nonempty)
    as (k & answers & r & w' & Hrun & Hk & Hran & Hr).
  exists k, answers, r, w'.
  split; [exact Hrun|].
  change (length commands) with 3 in *.
  change commands with three in *.
  destruct (ran_commands_run _ _ _ _ _ _ Hran) as [Hcmds _].
  destruct r as [msg|].
  - destruct Hr as (oks & out & err & cmd & Hans & Hoks & -> & Hcmd & ->).
    replace (S (length oks) - 1) with (length oks) by lia.
    split; [lia|]. split; [exact Hran|]. split; [exact Hcmds|].
    exists oks, out, err, cmd. auto.
  - destruct Hr as [-> Hall].
    split; [lia|]. split; [exact Hran|]. split; [exact Hcmds|]. auto.
Qed.

(** A run of the reload where the second command fails. *)
Example reloadUdev_stops_at_failed_trigger :
  exists w',
    reloadUdev env_trigger_fails u_pool_a world_empty
    = Done (Some "error executing udevadm trigger --subsystem-match=block: no devices (exit status 1))") w'
    /\ commands_run (trace w')
       = [ ["udevadm"; "control"; "--reload"];
           ["udevadm"; "trigger"; "--subsystem-match=block"] ].
Proof. eexists. split; vm_compute; reflexivity. Qed.

(** C10, as the code has it.  The direct runner takes [cmd[0]] of its
    argument and so panics on the empty vector; given a non-empty vector
    neither runner panics.  The namespace-entering runner takes element 0
    of the vector it has just built, which starts with [nsenter], so it
    returns for every argument, the empty one included.  The vectors of
    [reloadUdev] have three elements each, and [reloadUdev] never
    panics. *)
Theorem Exec_index_out_of_range_only_direct_on_empty (env : Env) :
  (forall w, exists msg w', Exec env NewExec [] w = Panicked msg w')
  /\ (forall e cmd0 cmd1 w, exists r w', Exec env e (cmd0 :: cmd1) w = Done r w')
  /\ (forall hostProcDir cmd w,
        exists r w', Exec env (NewNSEnterExec hostProcDir) cmd w = Done r w')
  /\ Forall (fun cmd : list string => length cmd = 3) commands
  /\ (forall u w, exists r w', reloadUdev env u w = Done r w').
Proof.
  split; [|split; [|split; [|split]]].
  - intros w. eexists _, _. reflexivity.
  - intros e cmd0 cmd1 w. rewrite Exec_cons.
    destruct (Exec_effect_Done env (argv_of e (cmd0 :: cmd1)) w) as (w' & H & _).
    eauto.
  - intros d cmd w.
    destruct (nsenterExec_runs_argv_of env d cmd w) as (w' & H & _). eauto.
  - unfold commands. repeat constructor.
  - intros u w.
    destruct (reloadUdev_range_spec env (exec u) commands w commands_nonempty)
      as (k & r & w' & Hrun & _). eauto.
Qed.

(** C10, as stated, fails for the namespace-entering runner: on the empty
    argument vector it does not panic, it runs [nsenter] with no command
    after the double dash. *)
Lemma nsenterExec_Exec_empty_argv_returns :
  Exec (env_quiet "") (NewNSEnterExec "/rootfs/proc") [] world_empty
  = Done ([], None)
      (mkWorld ∅
         [EvCommand ["nsenter"; "--mount=/rootfs/proc/1/ns/mnt"; "--"];
          EvLog 4 "executed nsenter --mount=/rootfs/proc/1/ns/mnt --:  (success)"]).
Proof. reflexivity. Qed.

Example exec_Exec_empty_argv_panics :
  Exec (env_quiet "") NewExec [] world_empty
  = Panicked "runtime error: index out of range [0] with length 0" world_empty.
Proof. reflexivity. Qed.

(* ===================================================================== *)
(** ** Rendering the rules file *)
(* ===================================================================== *)

Lemma Parse_udevFileTemplate :
  Template.Parse udevFileTemplate = Some udevTemplate_parsed.
Proof. vm_compute. reflexivity. Qed.

Lemma render_udevTemplate (name : string) (config : list byte) :
  render_nodes udevTemplate_parsed
    (Params_field (mkParams name (Go.string_of_bytes config)))
  = Some (rendered name config).
Proof.
  unfold udevTemplate_parsed, rendered. cbn [render_nodes].
  change (Params_field (mkParams name (Go.string_of_bytes config)) "Rules")
    with (Some (Go.string_of_bytes config)).
  change (Params_field (mkParams name (Go.string_of_bytes config)) "Name")
    with (Some name).
  cbn [fmap option_fmap option_map].
  unfold Go.bytes_of_string at 2, Go.string_of_bytes.
  rewrite String.list_byte_of_string_of_list_byte.
  rewrite app_nil_r. reflexivity.
Qed.

(** Executing a template whose fields the data has, on an open file, when
    no write fails: everything is written, in order, at the end of the
    file. *)
Lemma Execute_writes_rendering (env : Env) (t : list Template.Node)
    (out : string) (data : string -> option string) :
  (forall w n d, Write_error env w n d = None) ->
  forall (w : World) (old bytes : list byte),
    render_nodes t data = Some bytes ->
    fs w !! out = Some old ->
    exists w',
      Template.Execute env t out data w = Done None w'
      /\ fs w' = <[out := old ++ bytes]> (fs w)
      /\ commands_run (trace w') = commands_run (trace w)
      /\ files_written (trace w')
         = files_written (trace w) ++ repeat out (length t).
Proof.
  intros Hwrite. induction t as [|node rest IH]; intros w old bytes Hr Hold.
  - injection Hr as <-. exists w. simpl. rewrite !app_nil_r.
    rewrite insert_id by assumption. auto.
  - assert (Hstep : forall (piece : list byte) (rbytes : list byte),
               render_nodes rest data = Some rbytes ->
               bytes = piece ++ rbytes ->
               exists w',
                 (err ← file_Write env out piece;
                  match err with
                  | Some e => mret (Some e)
                  | None => Template.Execute env rest out data
                  end) w = Done None w'
                 /\ fs w' = <[out := old ++ bytes]> (fs w)
                 /\ commands_run (trace w') = commands_run (trace w)
                 /\ files_written (trace w')
                    = files_written (trace w) ++ repeat out (S (length rest))).
    { intros piece rbytes Hrest ->.
      rewrite bind_unfold. unfold file_Write. rewrite Hwrite.
      match goal with
      | |- context [Template.Execute env rest out data ?w1] =>
          destruct (IH w1 (old ++ piece) rbytes Hrest)
            as (w' & Hrun & Hfs & Hcmds & Hfiles)
      end.
      { cbn [emit set_fs fs]. rewrite lookup_alter_eq, Hold. reflexivity. }
      exists w'. split; [exact Hrun|]. split; [|split].
      - rewrite Hfs. cbn [emit set_fs fs].
        rewrite insert_alter_eq, <- app_assoc. reflexivity.
      - rewrite Hcmds. cbn [emit set_fs trace].
        rewrite commands_run_app. simpl. rewrite app_nil_r. reflexivity.
      - rewrite Hfiles. cbn [emit set_fs trace].
        rewrite files_written_app. simpl. rewrite <- app_assoc. reflexivity. }
    destruct node as [text|ident]; cbn [render_nodes] in Hr;
      cbn [Template.Execute length].
    + destruct (render_nodes rest data) as [rbytes|] eqn:Hrest; [|discriminate].
      injection Hr as <-. eapply Hstep; eauto.
    + destruct (data ident) as [v|]; [|discriminate].
      destruct (render_nodes rest data) as [rbytes|] eqn:Hrest; [|discriminate].
      injection Hr as <-. eapply Hstep; eauto.
Qed.

(** [writeRulesFile] when the file can be opened and written: the rules
    file holds the rendering and nothing else, whatever it held before. *)
Lemma writeRulesFile_writes_rendered (env : Env) (u : UdevSync)
    (config : list byte) (w : World) :
  udevTemplate u = udevTemplate_parsed ->
  (forall w n, OpenFile_error env w n = None) ->
  (forall w n d, Write_error env w n d = None) ->
  exists w',
    writeRulesFile env u config w = Done None w'
    /\ fs w' = <[rulesFile u := rendered (name u) config]> (fs w)
    /\ commands_run (trace w') = commands_run (trace w)
    /\ files_written (trace w')
       = files_written (trace w) ++ repeat (rulesFile u) 8.
Proof.
  intros Ht Hopen Hwrite.
  unfold writeRulesFile. rewrite bind_unfold.
  unfold os_OpenFile_create_trunc. rewrite Hopen.
  rewrite bind_unfold, bind_unfold.
  match goal with
  | |- context [Template.Execute env _ _ ?data ?w1] =>
      destruct (Execute_writes_rendering env (udevTemplate u) (rulesFile u)
                  data Hwrite w1 [] (rendered (name u) config))
        as (w' & Hrun & Hfs & Hcmds & Hfiles)
  end.
  { rewrite Ht. apply render_udevTemplate. }
  { cbn [emit set_fs fs]. apply lookup_insert_eq. }
  rewrite Hrun. eexists. split; [reflexivity|].
  cbn [emit set_fs fs trace] in *. split; [|split].
  - rewrite Hfs. rewrite insert_insert_eq. reflexivity.
  - rewrite !commands_run_app, Hcmds, commands_run_app. simpl.
    rewrite !app_nil_r. reflexivity.
  - rewrite !files_written_app, Hfiles, files_written_app, Ht. simpl.
    rewrite !app_nil_r, <- app_assoc. reflexivity.
Qed.

(* ===================================================================== *)
(** ** [applyConfig] *)
(* ===================================================================== *)

(** [Template.Execute] always returns; it only adds to the history, and no
    command. *)
Lemma Execute_returns (env : Env) (t : list Template.Node) (out : string)
    (data : string -> option string) (w : World) :
  exists r w' tr,
    Template.Execute env t out data w = Done r w'
    /\ trace w' = trace w ++ tr
    /\ commands_run tr = [].
Proof.
  revert w. induction t as [|node rest IH]; intros w.
  - exists None, w, []. simpl. rewrite app_nil_r. auto.
  - assert (Hstep : forall piece,
               exists r w' tr,
                 (err ← file_Write env out piece;
                  match err with
                  | Some e => mret (Some e)
                  | None => Template.Execute env rest out data
                  end) w = Done r w'
                 /\ trace w' = trace w ++ tr
                 /\ commands_run tr = []).
    { intros piece. rewrite bind_unfold. unfold file_Write.
      destruct (Write_error env w out piece) as [e|].
      - eexists _, _, _. split; [reflexivity|]. split; reflexivity.
      - match goal with
        | |- context [Template.Execute env rest out data ?w1] =>
            destruct (IH w1) as (r & w' & tr & Hrun & Htr & Hcmds)
        end.
        exists r, w', (EvWrite out piece :: tr).
        split; [exact Hrun|]. split; [|exact Hcmds].
        rewrite Htr. cbn [emit set_fs trace].
        rewrite <- app_assoc. reflexivity. }
    destruct node as [text|ident]; cbn [Template.Execute].
    + apply Hstep.
    + destruct (data ident) as [v|]; [apply Hstep|].
      eexists _, w, []. split; [reflexivity|]. rewrite app_nil_r. auto.
Qed.

(** [writeRulesFile] always returns, starts by opening the rules file and
    runs no command. *)
Lemma writeRulesFile_returns (env : Env) (u : UdevSync) (config : list byte)
    (w : World) :
  exists r w' tr,
    writeRulesFile env u config w = Done r w'
    /\ trace w' = trace w ++ EvOpenFile (rulesFile u) :: tr
    /\ commands_run tr = [].
Proof.
  unfold writeRulesFile. rewrite bind_unfold.
  unfold os_OpenFile_create_trunc.
  destruct (OpenFile_error env w (rulesFile u)) as [e|].
  - eexists _, _, []. split; [reflexivity|]. split; reflexivity.
  - rewrite bind_unfold, bind_unfold.
    match goal with
    | |- context [Template.Execute env ?t ?o ?data ?w1] =>
        destruct (Execute_returns env t o data w1)
          as (r & w' & tr & Hrun & Htr & Hcmds)
    end.
    rewrite Hrun. cbn [emit set_fs trace] in Htr.
    destruct r as [e|].
    + eexists _, _, (tr ++ [EvClose (rulesFile u)]).
      split; [reflexivity|]. cbn [emit trace]. rewrite Htr.
      split; [rewrite <- !app_assoc; reflexivity|].
      rewrite commands_run_app, Hcmds. reflexivity.
    + eexists _, _, (tr ++ [EvLog 2 _; EvClose (rulesFile u)]).
      split; [reflexivity|]. cbn [emit trace]. rewrite Htr.
      split; [rewrite <- !app_assoc; reflexivity|].
      rewrite commands_run_app, Hcmds. reflexivity.
Qed.

Lemma Sprintf_failed_to_reload (e : string) :
  Go.Sprintf "failed to reload udev rules: %s" [e]
  = "failed to reload udev rules: " +:+ e.
Proof.
  change (Go.Sprintf "failed to reload udev rules: %s" [e])
    with ("failed to reload udev rules: " +:+ (e +:+ "")).
  rewrite append_nil_r. reflexivity.
Qed.

(** [applyConfig], one case per way through its body. *)
Lemma applyConfig_cases (env : Env) (u : UdevSync) (w : World) :
  applyConfig env u w
  = let w0 := emit (EvReadFile (configFile u)) w in
    match ReadFile_result env w (configFile u) with
    | (_, Some e) => Done (Some e, u) w0
    | (config, None) =>
        if bool_decide (config <> oldConfigContent u)
        then write_then_reload env u config w0
        else Done (None, u)
               (emit (EvLog 4 "no change detected, skipping config update") w0)
    end.
Proof.
  unfold applyConfig. rewrite bind_unfold. unfold ioutil_ReadFile.
  destruct (ReadFile_result env w (configFile u)) as [config [e|]];
    [reflexivity|].
  rewrite bind_unfold, needApplyConfig_decide.
  cbn [mret M_ret].
  destruct (bool_decide (config <> oldConfigContent u)); [|reflexivity].
  cbn [negb]. unfold write_then_reload. rewrite bind_unfold.
  destruct (writeRulesFile env u config _) as [[e|] w1|msg w1]; try reflexivity.
  rewrite bind_unfold.
  destruct (reloadUdev env u w1) as [[e|] w2|msg w2]; try reflexivity.
  cbn [mret M_ret]. rewrite Sprintf_failed_to_reload. reflexivity.
Qed.

(** The loop of [reloadUdev] only adds to the history. *)
Lemma reloadUdev_range_extends (env : Env) (e : ExecInterface)
    (cmds : list (list string)) (w : World) :
  Forall (fun cmd => cmd <> []) cmds ->
  exists tr, trace (world_of (reloadUdev_range env e cmds w)) = trace w ++ tr.
Proof.
  revert w. induction cmds as [|cmd rest IH]; intros w Hne.
  - exists []. simpl. rewrite app_nil_r. reflexivity.
  - inversion Hne as [|? ? Hcmd Hrest]; subst.
    destruct cmd as [|cmd0 cmd1]; [congruence|].
    cbn [reloadUdev_range]. rewrite bind_unfold, Exec_cons.
    unfold Exec_effect.
    destruct (CombinedOutput_result env w (argv_of e (cmd0 :: cmd1)))
      as [out [err|]].
    + eexists. cbn [mret M_ret world_of emit trace].
      rewrite <- app_assoc. reflexivity.
    + match goal with
      | |- context [reloadUdev_range env e rest ?w1] =>
          destruct (IH w1 Hrest) as (tr & Htr)
      end.
      rewrite Htr. cbn [emit trace]. eexists.
      rewrite <- !app_assoc. reflexivity.
Qed.

(** [write_then_reload] always returns, and its first step is to open the
    rules file. *)
Lemma write_then_reload_returns (env : Env) (u : UdevSync)
    (config : list byte) (w : World) :
  exists r u' w' tr,
    write_then_reload env u config w = Done (r, u') w'
    /\ trace w' = trace w ++ EvOpenFile (rulesFile u) :: tr
    /\ (u' = u \/ (r = None /\ u' = set_oldConfigContent u config)).
Proof.
  unfold write_then_reload.
  destruct (writeRulesFile_returns env u config w)
    as (r1 & w1 & tr1 & Hrun1 & Htr1 & _).
  rewrite Hrun1. destruct r1 as [e|].
  - eexists _, _, _, _. split; [reflexivity|]. split; [exact Htr1 | auto].
  - destruct (reloadUdev_range_spec env (exec u) commands w1 commands_nonempty)
      as (k & r2 & w2 & Hrun2 & _).
    destruct (reloadUdev_range_extends env (exec u) commands w1 commands_nonempty)
      as (tr2 & Htr2).
    unfold reloadUdev. rewrite Hrun2 in *. cbn [world_of] in Htr2.
    destruct r2 as [e|].
    + eexists _, _, _, _. split; [reflexivity|]. split; [|auto].
      rewrite Htr2, Htr1, <- app_assoc. reflexivity.
    + eexists _, _, _, _. split; [reflexivity|]. split; [|auto].
      cbn [emit trace]. rewrite Htr2, Htr1, <- !app_assoc. reflexivity.
Qed.

(** [applyConfig] always returns; the receiver changes in nothing but
    [oldConfigContent]. *)
Lemma applyConfig_returns (env : Env) (u : UdevSync) (w : World) :
  exists r u' w',
    applyConfig env u w = Done (r, u') w'
    /\ (u' = u \/ exists config, u' = set_oldConfigContent u config).
Proof.
  rewrite applyConfig_cases. cbv zeta.
  destruct (ReadFile_result env w (configFile u)) as [config [e|]].
  - eexists _, _, _. split; [reflexivity | auto].
  - destruct (bool_decide (config <> oldConfigContent u)).
    + destruct (write_then_reload_returns env u config
                  (emit (EvReadFile (configFile u)) w))
        as (r & u' & w' & tr & Hrun & _ & [->|[_ ->]]);
        rewrite Hrun; eexists _, _, _; split; eauto.
    + eexists _, _, _. split; [reflexivity | auto].
Qed.

(** C5. After an [applyConfig] that read the configuration [cfg] and
    succeeded, an [applyConfig] that reads the same [cfg] again, at any
    later time, only reads the file and logs that nothing changed: it
    returns no error, opens and writes no file, runs no command, and leaves
    the receiver and the files as they are. *)
Theorem applyConfig_after_success_same_config_is_noop
    (env : Env) (u u1 : UdevSync) (cfg : list byte) (w w1 w2 : World) :
  ReadFile_result env w (configFile u) = (cfg, None) ->
  applyConfig env u w = Done (None, u1) w1 ->
  ReadFile_result env w2 (configFile u1) = (cfg, None) ->
  exists w2',
    applyConfig env u1 w2 = Done (None, u1) w2'
    /\ fs w2' = fs w2
    /\ trace w2'
       = trace w2 ++ [EvReadFile (configFile u1);
                      EvLog 4 "no change detected, skipping config update"]
    /\ files_written (trace w2') = files_written (trace w2)
    /\ commands_run (trace w2') = commands_run (trace w2).
Proof.
  intros Hread Happly Hread2.
  assert (Hold : oldConfigContent u1 = cfg).
  { rewrite applyConfig_cases in Happly. cbv zeta in Happly.
    rewrite Hread in Happly.
    destruct (bool_decide (cfg <> oldConfigContent u)) eqn:Hd.
    - unfold write_then_reload in Happly.
      destruct (writeRulesFile env u cfg _) as [[e|] wa|msg wa];
        try discriminate.
      destruct (reloadUdev env u wa) as [[e|] wb|msg wb]; try discriminate.
      injection Happly as <- _. reflexivity.
    - injection Happly as <- _.
      apply bool_decide_eq_false in Hd.
      destruct (decide (cfg = oldConfigContent u)); [congruence | tauto]. }
  rewrite applyConfig_cases. cbv zeta. rewrite Hread2.
  rewrite bool_decide_eq_false_2 by (rewrite Hold; tauto).
  eexists. split; [reflexivity|].
  cbn [emit fs trace]. split; [reflexivity|].
  rewrite <- app_assoc. split; [reflexivity|].
  rewrite files_written_app, commands_run_app. simpl.
  rewrite !app_nil_r. auto.
Qed.

(** C3. When [applyConfig] reads [cfg1], finds it different from the
    snapshot, writes the rules file and then the reload fails, it returns
    the reload error and leaves the receiver, [oldConfigContent] included,
    untouched.  So [needApplyConfig] still answers [true] for [cfg1], and
    any later [applyConfig] that reads the same [cfg1] goes through the
    write and the reload again: it opens the rules file right after the
    read, and once the file is written it runs the reload commands from
    the first one on. *)
Theorem applyConfig_reload_failure_keeps_snapshot_and_retries
    (env : Env) (u : UdevSync) (cfg1 : list byte) (e : error)
    (w w1 w2 w' : World) :
  ReadFile_result env w (configFile u) = (cfg1, None) ->
  cfg1 <> oldConfigContent u ->
  writeRulesFile env u cfg1 (emit (EvReadFile (configFile u)) w) = Done None w1 ->
  reloadUdev env u w1 = Done (Some e) w2 ->
  ReadFile_result env w' (configFile u) = (cfg1, None) ->
  applyConfig env u w
  = Done (Some ("failed to reload udev rules: " +:+ e), u) w2
  /\ needApplyConfig u cfg1 = Some true
  /\ applyConfig env u w'
     = write_then_reload env u cfg1 (emit (EvReadFile (configFile u)) w')
  /\ (exists r u' w'' tr,
        applyConfig env u w' = Done (r, u') w''
        /\ trace w'' = trace w' ++ EvReadFile (configFile u)
                                :: EvOpenFile (rulesFile u) :: tr)
  /\ (forall w1',
        writeRulesFile env u cfg1 (emit (EvReadFile (configFile u)) w')
        = Done None w1' ->
        exists k r u' w'',
          1 <= k <= 3
          /\ applyConfig env u w' = Done (r, u') w''
          /\ commands_run (trace w'')
             = commands_run (trace w1')
               ++ map (argv_of (exec u)) (take k commands)).
Proof.
  intros Hread Hdiff Hwrite Hreload Hread'.
  assert (Hsecond : applyConfig env u w'
            = write_then_reload env u cfg1 (emit (EvReadFile (configFile u)) w')).
  { rewrite applyConfig_cases. cbv zeta. rewrite Hread'.
    rewrite bool_decide_eq_true_2 by assumption. reflexivity. }
  split; [|split; [|split; [|split]]].
  - rewrite applyConfig_cases. cbv zeta. rewrite Hread.
    rewrite bool_decide_eq_true_2 by assumption.
    unfold write_then_reload. rewrite Hwrite, Hreload. reflexivity.
  - rewrite needApplyConfig_decide.
    rewrite bool_decide_eq_true_2 by assumption. reflexivity.
  - exact Hsecond.
  - rewrite Hsecond.
    destruct (write_then_reload_returns env u cfg1
                (emit (EvReadFile (configFile u)) w'))
      as (r & u' & w'' & tr & Hrun & Htr & _).
    exists r, u', w'', tr. split; [exact Hrun|].
    rewrite Htr. cbn [emit trace]. rewrite <- app_assoc. reflexivity.
  - intros w1' Hwrite'. rewrite Hsecond.
    unfold write_then_reload. rewrite Hwrite'.
    destruct (reloadUdev_range_spec env (exec u) commands w1' commands_nonempty)
      as (k & r & w2' & Hrun & Hk & _ & Hcmds & _ & Hr).
    unfold reloadUdev. rewrite Hrun.
    change (length commands) with 3 in *.
    destruct r as [msg|].
    + destruct Hr as (j & _ & _ & _ & _ & -> & _).
      exists (S j). eexists _, _, _. split; [lia|].
      split; [reflexivity | exact Hcmds].
    + subst k. exists 3. eexists _, _, _. split; [lia|].
      split; [reflexivity|].
      cbn [emit trace]. rewrite commands_run_app, Hcmds. simpl.
      rewrite app_nil_r. reflexivity.
Qed.

Example NewUdevSync_pool_a :
  NewUdevSync "/etc/local-storage-discoverer/rules.conf" "/run/udev/rules.d"
    "pool-a" NewExec world_empty
  = Done u_pool_a
      (mkWorld ∅
         [EvLog 4 "using rules file /run/udev/rules.d/99-kubernetes-pool-a.rules"]).
Proof. vm_compute. reflexivity. Qed.

Lemma applyConfig_reload_failure_keeps_snapshot_and_retries_witness :
  let env := env_udevadm_fails "abc" in
  let w1 := world_of (writeRulesFile env u_pool_a (Go.bytes_of_string "abc")
                        (emit (EvReadFile (configFile u_pool_a)) world_empty)) in
  let w2 := world_of (reloadUdev env u_pool_a w1) in
  applyConfig env u_pool_a world_empty
  = Done (Some ("failed to reload udev rules: "
                +:+ "error executing udevadm control --reload: failed (exit status 1))"),
          u_pool_a) w2
  /\ needApplyConfig u_pool_a (Go.bytes_of_string "abc") = Some true.
Proof.
  intros env w1 w2.
  pose proof (applyConfig_reload_failure_keeps_snapshot_and_retries
                env u_pool_a (Go.bytes_of_string "abc")
                "error executing udevadm control --reload: failed (exit status 1))"
                world_empty w1 w2 w2) as H.
  destruct H as (H1 & H2 & _).
  - reflexivity.
  - discriminate.
  - vm_compute. reflexivity.
  - vm_compute. reflexivity.
  - reflexivity.
  - split; [exact H1 | exact H2].
Defined.

Lemma applyConfig_after_success_same_config_is_noop_witness :
  let env := env_quiet "abc" in
  let u1 := set_oldConfigContent u_pool_a (Go.bytes_of_string "abc") in
  let w1 := world_of (applyConfig env u_pool_a world_empty) in
  exists w2',
    applyConfig env u1 w1 = Done (None, u1) w2'
    /\ fs w2' = fs w1
    /\ trace w2'
       = trace w1 ++ [EvReadFile (configFile u1);
                      EvLog 4 "no change detected, skipping config update"]
    /\ files_written (trace w2') = files_written (trace w1)
    /\ commands_run (trace w2') = commands_run (trace w1).
Proof.
  intros env u1 w1.
  apply (applyConfig_after_success_same_config_is_noop
           env u_pool_a u1 (Go.bytes_of_string "abc") world_empty w1 w1).
  - reflexivity.
  - vm_compute. reflexivity.
  - reflexivity.
Defined.

(* ===================================================================== *)
(** ** [NewUdevSync] and [Run] *)
(* ===================================================================== *)

Lemma NewUdevSync_returns (configFile rulesPath name : string)
    (exec : ExecInterface) (w : World) :
  NewUdevSync configFile rulesPath name exec w
  = Done (mkUdevSync name configFile []
            (Go.path_Join [rulesPath; Go.Sprintf udevRulesTemplate [name]])
            udevTemplate_parsed exec)
         (emit (EvLog 4 (Go.Sprintf "using rules file %s"
                           [Go.path_Join [rulesPath;
                                          Go.Sprintf udevRulesTemplate [name]]]))
               w).
Proof.
  unfold NewUdevSync. rewrite Parse_udevFileTemplate. reflexivity.
Qed.

Lemma Sprintf_udevRulesTemplate (name : string) :
  Go.Sprintf udevRulesTemplate [name] = "99-kubernetes-" +:+ name +:+ ".rules".
Proof. reflexivity. Qed.

Lemma Run_apply_returns (env : Env) (u : UdevSync) (w : World) :
  exists u' w', Run_apply env u w = Done u' w'.
Proof.
  unfold Run_apply. rewrite bind_unfold.
  destruct (applyConfig_returns env u w) as (r & u' & w' & Hrun & _).
  rewrite Hrun. destruct r as [e|]; eexists _, _; reflexivity.
Qed.

Lemma ticks_returns (env : Env) (u : UdevSync) (n : nat) (w : World) :
  exists u' w', ticks env u n w = Done u' w'.
Proof.
  revert u w. induction n as [|n IH]; intros u w.
  - eexists _, _. reflexivity.
  - cbn [ticks]. rewrite bind_unfold.
    destruct (Run_apply_returns env u w) as (u' & w' & Hrun).
    rewrite Hrun. apply IH.
Qed.

Lemma Run_loop_ticks (env : Env) (u : UdevSync) (n : nat)
    (later : list Select) (w : World) :
  Run_loop env u (repeat ticker_C n ++ later) w
  = (u' ← ticks env u n; Run_loop env u' later) w.
Proof.
  revert u w. induction n as [|n IH]; intros u w.
  - reflexivity.
  - cbn [repeat app Run_loop ticks]. rewrite !bind_unfold.
    destruct (Run_apply env u w) as [u' w'|msg w']; [|reflexivity].
    apply IH.
Qed.

(** A tick that reads what the snapshot already holds. *)
Lemma Run_apply_unchanged (env : Env) (u : UdevSync) (w : World) :
  ReadFile_result env w (configFile u) = (oldConfigContent u, None) ->
  Run_apply env u w
  = Done u (mkWorld (fs w)
              (trace w ++ [EvReadFile (configFile u);
                           EvLog 4 "no change detected, skipping config update"])).
Proof.
  intros Hread. unfold Run_apply.
  rewrite bind_unfold, applyConfig_cases. cbv zeta. rewrite Hread.
  rewrite bool_decide_eq_false_2 by tauto.
  unfold emit. cbn [fs trace]. rewrite <- app_assoc. reflexivity.
Qed.

(** C9. A sync object fresh from [NewUdevSync] has an empty snapshot.  If
    the configuration file reads as zero bytes every time, then the
    [applyConfig] at the start of [Run] and every tick after it, however
    many, change nothing: the snapshot stays empty, the files stay as they
    were (no rules file is created), no file is opened or written and no
    command is run. *)
Theorem empty_config_never_applied
    (env : Env) (configFile rulesPath name : string) (exec : ExecInterface)
    (n : nat) (w : World) :
  (forall w', ReadFile_result env w' configFile = ([], None)) ->
  exists u w0 w',
    NewUdevSync configFile rulesPath name exec w = Done u w0
    /\ oldConfigContent u = []
    /\ Run env u (repeat ticker_C n) w0 = Done (u, false) w'
    /\ fs w' = fs w
    /\ files_written (trace w') = files_written (trace w)
    /\ commands_run (trace w') = commands_run (trace w).
Proof.
  intros Hread.
  rewrite NewUdevSync_returns.
  match goal with
  | |- exists u1 w1 w', Done ?u0 ?w0 = _ /\ _ =>
      set (u := u0); set (w0' := w0); exists u, w0'
  end.
  assert (Hloop : forall m w1,
             exists w',
               Run_loop env u (repeat ticker_C m) w1 = Done (u, false) w'
               /\ fs w' = fs w1
               /\ files_written (trace w') = files_written (trace w1)
               /\ commands_run (trace w') = commands_run (trace w1)).
  { induction m as [|m IH]; intros w1.
    - exists w1. auto.
    - cbn [repeat Run_loop]. rewrite bind_unfold.
      rewrite (Run_apply_unchanged env u w1) by apply Hread.
      destruct (IH (mkWorld (fs w1)
                      (trace w1 ++ [EvReadFile configFile;
                         EvLog 4 "no change detected, skipping config update"])))
        as (w' & Hrun & Hfs & Hfiles & Hcmds).
      exists w'. split; [exact Hrun|].
      cbn [fs trace] in *.
      rewrite Hfs, Hfiles, Hcmds, files_written_app, commands_run_app.
      simpl. rewrite !app_nil_r. auto. }
  unfold Run. 
  destruct (Hloop n (mkWorld (fs w0')
                      (trace w0' ++ [EvReadFile configFile;
                         EvLog 4 "no change detected, skipping config update"])))
    as (w' & Hrun & Hfs & Hfiles & Hcmds).
  exists w'. split; [reflexivity|]. split; [reflexivity|].
  split.
  - rewrite bind_unfold.
    rewrite (Run_apply_unchanged env u w0') by apply Hread.
    exact Hrun.
  - cbn [fs trace] in *. subst w0'. cbn [emit fs trace] in *.
    rewrite Hfs, Hfiles, Hcmds, !files_written_app, !commands_run_app.
    simpl. rewrite !app_nil_r. auto.
Qed.

Lemma empty_config_never_applied_witness :
  exists u w0 w',
    NewUdevSync "/etc/local-storage-discoverer/rules.conf" "/run/udev/rules.d"
      "pool-a" NewExec world_empty = Done u w0
    /\ oldConfigContent u = []
    /\ Run (env_quiet "") u (repeat ticker_C 5) w0 = Done (u, false) w'
    /\ fs w' = fs world_empty
    /\ files_written (trace w') = files_written (trace world_empty)
    /\ commands_run (trace w') = commands_run (trace world_empty).
Proof.
  apply (empty_config_never_applied (env_quiet "")
           "/etc/local-storage-discoverer/rules.conf" "/run/udev/rules.d"
           "pool-a" NewExec 5 world_empty).
  intros w'. reflexivity.
Defined.

(* ===================================================================== *)
(** ** Shutdown *)
(* ===================================================================== *)

Lemma Sprintf_error_removing (f e : string) :
  Go.Sprintf "error removing udev file %s: %s" [f; e]
  = "error removing udev file " +:+ f +:+ ": " +:+ e.
Proof.
  change (Go.Sprintf "error removing udev file %s: %s" [f; e])
    with ("error removing udev file " +:+ f +:+ ": " +:+ (e +:+ "")).
  rewrite append_nil_r. reflexivity.
Qed.

(** [removeUdevFile] always returns.  When the file is removed the reload
    runs once: a non-empty prefix of the three commands.  When it is not,
    the error is logged and that is all. *)
Lemma removeUdevFile_cases (env : Env) (u : UdevSync) (w : World) :
  exists w',
    removeUdevFile env u w = Done tt w'
    /\ if Remove_succeeds env (rulesFile u) w
       then fs w' = delete (rulesFile u) (fs w)
            /\ exists k,
                 1 <= k <= 3
                 /\ commands_run (trace w')
                    = commands_run (trace w)
                      ++ map (argv_of (exec u)) (take k commands)
       else fs w' = fs w
            /\ exists e,
                 trace w'
                 = trace w
                   ++ [EvRemove (rulesFile u);
                       EvLog 0 ("error removing udev file " +:+ rulesFile u
                                +:+ ": " +:+ e)].
Proof.
  unfold removeUdevFile, Remove_succeeds. rewrite bind_unfold.
  unfold os_Remove.
  destruct (fs w !! rulesFile u) as [old|] eqn:Hfile.
  - destruct (Remove_error env w (rulesFile u)) as [e|] eqn:Herr.
    + eexists. split; [reflexivity|]. split; [reflexivity|].
      exists e. cbn [glog_Infof glog_at emit trace fs].
      rewrite Sprintf_error_removing, <- app_assoc. reflexivity.
    + rewrite bind_unfold. cbn [glog_V glog_at].
      rewrite bind_unfold.
      match goal with
      | |- context [reloadUdev env u ?w1] =>
          destruct (reloadUdev_range_spec env (exec u) commands w1
                      commands_nonempty)
            as (k & r & w2 & Hrun & Hk & Hfs & Hcmds & _ & Hr)
      end.
      unfold reloadUdev. rewrite Hrun.
      change (length commands) with 3 in *.
      cbn [emit set_fs fs trace] in Hfs, Hcmds.
      rewrite !commands_run_app in Hcmds. simpl in Hcmds.
      rewrite !app_nil_r in Hcmds.
      assert (Hk1 : 1 <= k <= 3).
      { destruct r as [msg|]; [|lia].
        destruct Hr as (j & _ & _ & _ & _ & -> & _). lia. }
      destruct r as [msg|]; eexists; (split; [reflexivity|]);
        cbn [glog_Infof glog_V glog_at emit fs trace];
        (split; [exact Hfs|]); exists k; (split; [exact Hk1|]);
        rewrite commands_run_app, Hcmds; simpl; rewrite app_nil_r;
        reflexivity.
  - eexists. split; [reflexivity|]. split; [reflexivity|].
    eexists. cbn [glog_Infof glog_at emit trace fs].
    rewrite Sprintf_error_removing, <- app_assoc. reflexivity.
Qed.

Lemma Sprintf_udev_file_removed (f : string) :
  Go.Sprintf "udev file %s removed" [f] = "udev file " +:+ f +:+ " removed".
Proof. reflexivity. Qed.

Lemma Sprintf_error_reloading (e : string) :
  Go.Sprintf "error reloading udev: %s" [e] = "error reloading udev: " +:+ e.
Proof.
  change (Go.Sprintf "error reloading udev: %s" [e])
    with ("error reloading udev: " +:+ (e +:+ "")).
  rewrite append_nil_r. reflexivity.
Qed.

(** [removeUdevFile] when the file is removed: one log line, then one call
    of [reloadUdev], then one log line that says how the reload ended. *)
Lemma removeUdevFile_removed (env : Env) (u : UdevSync) (w : World) :
  Remove_succeeds env (rulesFile u) w = true ->
  exists r w2,
    reloadUdev env u
      (emit (EvLog 2 ("udev file " +:+ rulesFile u +:+ " removed"))
         (emit (EvRemove (rulesFile u))
            (set_fs (delete (rulesFile u) (fs w)) w)))
    = Done r w2
    /\ removeUdevFile env u w
       = Done tt
           (emit match r with
                 | Some msg => EvLog 0 ("error reloading udev: " +:+ msg)
                 | None => EvLog 2 "udev reloaded"
                 end w2).
Proof.
  intros Hrm. unfold Remove_succeeds in Hrm.
  unfold removeUdevFile. rewrite bind_unfold. unfold os_Remove.
  destruct (fs w !! rulesFile u) as [old|]; [|discriminate].
  destruct (Remove_error env w (rulesFile u)) as [e|]; [discriminate|].
  rewrite bind_unfold. cbn [glog_V glog_at].
  rewrite Sprintf_udev_file_removed, bind_unfold.
  destruct (reloadUdev_range_ran env (exec u) commands
              (emit (EvLog 2 ("udev file " +:+ rulesFile u +:+ " removed"))
                 (emit (EvRemove (rulesFile u))
                    (set_fs (delete (rulesFile u) (fs w)) w)))
              commands_nonempty)
    as (k & answers & r & w2 & Hrun & _).
  exists r, w2. fold (reloadUdev env u) in Hrun.
  split; [exact Hrun|]. rewrite Hrun.
  destruct r as [msg|]; unfold glog_Infof, glog_V, glog_at.
  - rewrite Sprintf_error_reloading. reflexivity.
  - reflexivity.
Qed.

(** C1, as the code has it.  [Run] always gets to the stop signal: after
    the first [applyConfig] and [n] ticks it logs, calls [removeUdevFile]
    once and returns, whatever would fire later.  If the rules file is
    removed, it is gone afterwards and [reloadUdev] is called exactly once
    more, right after the log line of the removal: it runs the first [k] of
    the three commands, all three when it returns no error, and up to the
    first command that fails otherwise.  Nothing follows the reload but one
    log line, [udev reloaded] or the error of the reload, and the return.
    If the removal fails, the failure is logged, the files stay as they
    are, and [Run] returns without running any command. *)
Theorem Run_stop_removes_file_and_reloads_only_if_removed
    (env : Env) (u : UdevSync) (n : nat) (later : list Select) (w : World) :
  exists u1 w1 w',
    (u0 ← Run_apply env u; ticks env u0 n) w = Done u1 w1
    /\ Run env u (repeat ticker_C n ++ stopCh :: later) w = Done (u1, true) w'
    /\ let ws := emit (EvLog 0 "stopping") w1 in
       if Remove_succeeds env (rulesFile u1) ws
       then fs w' = delete (rulesFile u1) (fs w1)
            /\ fs w' !! rulesFile u1 = None
            /\ exists k,
                 1 <= k <= 3
                 /\ commands_run (trace w')
                    = commands_run (trace w1)
                      ++ map (argv_of (exec u1)) (take k commands)
                 /\ exists answers r wr w2,
                      fs wr = delete (rulesFile u1) (fs w1)
                      /\ trace wr
                         = trace w1
                           ++ [EvLog 0 "stopping"; EvRemove (rulesFile u1);
                               EvLog 2 ("udev file " +:+ rulesFile u1
                                        +:+ " removed")]
                      /\ reloadUdev env u1 wr = Done r w2
                      /\ ran env (exec u1) wr (take k commands) answers w2
                      /\ fs w' = fs w2
                      /\ match r with
                         | None =>
                             k = 3
                             /\ Forall succeeded answers
                             /\ trace w' = trace w2 ++ [EvLog 2 "udev reloaded"]
                         | Some msg =>
                             (exists oks out err cmd,
                                answers = oks ++ [(out, Some err)]
                                /\ Forall succeeded oks
                                /\ commands !! (k - 1) = Some cmd
                                /\ msg = "error executing "
                                         +:+ Go.strings_Join cmd " " +:+ ": "
                                         +:+ Go.string_of_bytes out
                                         +:+ " (" +:+ err +:+ "))")
                             /\ trace w'
                                = trace w2
                                  ++ [EvLog 0 ("error reloading udev: " +:+ msg)]
                         end
       else fs w' = fs w1
            /\ commands_run (trace w') = commands_run (trace w1)
            /\ exists e,
                 trace w'
                 = trace w1
                   ++ [EvLog 0 "stopping"; EvRemove (rulesFile u1);
                       EvLog 0 ("error removing udev file " +:+ rulesFile u1
                                +:+ ": " +:+ e)].
Proof.
  unfold Run. rewrite !bind_unfold.
  destruct (Run_apply_returns env u w) as (u0 & w0 & Hfirst).
  rewrite Hfirst, Run_loop_ticks, bind_unfold.
  destruct (ticks_returns env u0 n w0) as (u1 & w1 & Hticks).
  rewrite Hticks. exists u1, w1.
  cbn [Run_loop]. rewrite !bind_unfold.
  cbn [glog_Infof glog_at].
  change (Go.Sprintf "stopping" []) with "stopping".
  destruct (removeUdevFile_cases env u1 (emit (EvLog 0 "stopping") w1))
    as (w' & Hrun & Hcases).
  exists w'. split; [reflexivity|].
  split; [rewrite bind_unfold, Hrun; reflexivity|].
  cbv zeta.
  destruct (Remove_succeeds env (rulesFile u1) (emit (EvLog 0 "stopping") w1))
    eqn:Hrm.
  - destruct Hcases as (Hfs & _).
    cbn [emit fs trace] in Hfs.
    split; [exact Hfs|]. split; [rewrite Hfs; apply lookup_delete_eq|].
    destruct (removeUdevFile_removed env u1 _ Hrm) as (r & w2 & Hreload & Hrun').
    rewrite Hrun in Hrun'. injection Hrun' as ->.
    set (wr := emit (EvLog 2 ("udev file " +:+ rulesFile u1 +:+ " removed"))
                 (emit (EvRemove (rulesFile u1))
                    (set_fs (delete (rulesFile u1)
                               (fs (emit (EvLog 0 "stopping") w1)))
                       (emit (EvLog 0 "stopping") w1)))) in *.
    destruct (reloadUdev_range_ran env (exec u1) commands wr commands_nonempty)
      as (k & answers & r' & w2' & Hrange & Hk & Hran & Hr).
    unfold reloadUdev in Hreload. rewrite Hreload in Hrange.
    injection Hrange as <- <-.
    change (length commands) with 3 in *.
    destruct (ran_commands_run _ _ _ _ _ _ Hran) as [Hcmds Hfs2].
    assert (Hk1 : 1 <= k <= 3).
    { destruct r as [msg|]; [|lia].
      destruct Hr as (oks & _ & _ & _ & _ & _ & -> & _). lia. }
    assert (Hwr : commands_run (trace wr) = commands_run (trace w1)).
    { subst wr. cbn [emit set_fs trace].
      rewrite !commands_run_app. simpl. rewrite !app_nil_r. reflexivity. }
    exists k. split; [exact Hk1|]. split.
    { cbn [emit trace]. rewrite commands_run_app, Hcmds, Hwr.
      destruct r; simpl; rewrite app_nil_r; reflexivity. }
    exists answers, r, wr, w2.
    split; [reflexivity|].
    split; [subst wr; cbn [emit set_fs trace]; rewrite <- !app_assoc; reflexivity|].
    split; [exact Hreload|]. split; [exact Hran|].
    split; [reflexivity|].
    destruct r as [msg|].
    + destruct Hr as (oks & out & err & cmd & Hans & Hoks & -> & Hcmd & ->).
      replace (S (length oks) - 1) with (length oks) by lia.
      split; [|reflexivity]. exists oks, out, err, cmd. auto.
    + destruct Hr as [-> Hall]. auto.
  - destruct Hcases as (Hfs & e & Htr).
    cbn [emit fs trace] in Hfs, Htr.
    split; [exact Hfs|]. split.
    + rewrite Htr, !commands_run_app. simpl. rewrite !app_nil_r. reflexivity.
    + exists e. rewrite Htr, <- app_assoc. reflexivity.
Qed.

(** C1, as stated, fails: the daemon starts while the configuration file
    is missing, so no rules file was ever written; on the stop signal the
    removal fails, the failure is logged, and no reload command is run. *)
Lemma Run_stop_without_rules_file_runs_no_reload :
  Run env_no_config u_pool_a [stopCh] world_empty
  = Done (u_pool_a, true)
      (mkWorld ∅
         [EvReadFile "/etc/local-storage-discoverer/rules.conf";
          EvLog 0 "failed to apply config: open /etc/local-storage-discoverer/rules.conf: no such file or directory";
          EvLog 0 "stopping";
          EvRemove "/run/udev/rules.d/99-kubernetes-pool-a.rules";
          EvLog 0 "error removing udev file /run/udev/rules.d/99-kubernetes-pool-a.rules: remove /run/udev/rules.d/99-kubernetes-pool-a.rules: no such file or directory"])
  /\ commands_run
       (trace (world_of (Run env_no_config u_pool_a [stopCh] world_empty)))
     = [].
Proof. split; vm_compute; reflexivity. Qed.

(* ===================================================================== *)
(** ** Rendering: determinism and the first scenario *)
(* ===================================================================== *)

(** Executing a template whose fields the data has fails only when a write
    fails. *)
Lemma Execute_error_is_write_error (env : Env) (t : list Template.Node)
    (out : string) (data : string -> option string) :
  forall (w w' : World) (bytes : list byte) (e : error),
    render_nodes t data = Some bytes ->
    Template.Execute env t out data w = Done (Some e) w' ->
    exists w0 d, Write_error env w0 out d = Some e.
Proof.
  induction t as [|node rest IH]; intros w w' bytes e Hr Hrun.
  - discriminate Hrun.
  - assert (Hstep : forall piece rbytes,
               render_nodes rest data = Some rbytes ->
               (err ← file_Write env out piece;
                match err with
                | Some e => mret (Some e)
                | None => Template.Execute env rest out data
                end) w = Done (Some e) w' ->
               exists w0 d, Write_error env w0 out d = Some e).
    { intros piece rbytes Hrest H. rewrite bind_unfold in H.
      unfold file_Write in H.
      destruct (Write_error env w out piece) as [e'|] eqn:Herr.
      - injection H as -> _. eauto.
      - eapply IH; eauto. }
    destruct node as [text|ident]; cbn [render_nodes] in Hr;
      cbn [Template.Execute] in Hrun.
    + destruct (render_nodes rest data) as [rbytes|] eqn:Hrest; [|discriminate].
      eapply Hstep; eauto.
    + destruct (data ident) as [v|]; [|discriminate].
      destruct (render_nodes rest data) as [rbytes|] eqn:Hrest; [|discriminate].
      eapply Hstep; eauto.
Qed.

(** With the template of the package, [writeRulesFile] fails only when
    opening or writing the file fails. *)
Lemma writeRulesFile_error_is_OS_error (env : Env) (u : UdevSync)
    (config : list byte) (w w' : World) (e : error) :
  udevTemplate u = udevTemplate_parsed ->
  writeRulesFile env u config w = Done (Some e) w' ->
  (exists w0, OpenFile_error env w0 (rulesFile u) = Some e)
  \/ (exists w0 d e',
        Write_error env w0 (rulesFile u) d = Some e'
        /\ e = "failed to execute template: " +:+ e').
Proof.
  intros Ht Hrun. unfold writeRulesFile in Hrun.
  rewrite bind_unfold in Hrun. unfold os_OpenFile_create_trunc in Hrun.
  destruct (OpenFile_error env w (rulesFile u)) as [e0|] eqn:Hopen.
  - injection Hrun as -> _. eauto.
  - right. rewrite bind_unfold, bind_unfold in Hrun.
    destruct (Template.Execute env (udevTemplate u) (rulesFile u) _ _)
      as [[e'|] w1|msg w1] eqn:Hexec; try discriminate.
    injection Hrun as <- _.
    rewrite Ht in Hexec.
    destruct (Execute_error_is_write_error env _ _ _ _ _ _ _
                (render_udevTemplate (name u) config) Hexec) as (w0 & d & Hw).
    exists w0, d, e'. split; [exact Hw|].
    change (Go.Sprintf "failed to execute template: %s" [e'])
      with ("failed to execute template: " +:+ (e' +:+ "")).
    rewrite append_nil_r. reflexivity.
Qed.

(** C8. With the template [NewUdevSync] parses from [udevFileTemplate],
    rendering has no failure of its own: for every node-group name and
    every configuration [writeRulesFile] returns without a panic in every
    environment, and an error it returns is one the file system reported.
    Where opening and writing do not fail, rendering the same name and
    configuration from any two worlds gives the same bytes in the rules
    file: the header, the configuration bytes as they are, and the guard
    and symlink rules with the name in both. *)
Theorem rendering_is_deterministic_verbatim_and_total
    (u : UdevSync) (config : list byte) :
  Template.Parse udevFileTemplate = Some (udevTemplate u) ->
  (forall env w,
     exists r w',
       writeRulesFile env u config w = Done r w'
       /\ forall e, r = Some e ->
            (exists w0, OpenFile_error env w0 (rulesFile u) = Some e)
            \/ (exists w0 d e',
                  Write_error env w0 (rulesFile u) d = Some e'
                  /\ e = "failed to execute template: " +:+ e'))
  /\ (forall env w1 w2,
        (forall w n, OpenFile_error env w n = None) ->
        (forall w n d, Write_error env w n d = None) ->
        exists w1' w2',
          writeRulesFile env u config w1 = Done None w1'
          /\ writeRulesFile env u config w2 = Done None w2'
          /\ fs w1' !! rulesFile u
             = Some (Go.bytes_of_string artifact_header ++ config
                     ++ Go.bytes_of_string artifact_guard
                     ++ Go.bytes_of_string (name u)
                     ++ Go.bytes_of_string artifact_serial_to_kernel
                     ++ Go.bytes_of_string (name u)
                     ++ Go.bytes_of_string artifact_tail)
          /\ fs w2' !! rulesFile u = fs w1' !! rulesFile u).
Proof.
  intros Hparse.
  assert (Ht : udevTemplate u = udevTemplate_parsed).
  { rewrite Parse_udevFileTemplate in Hparse. congruence. }
  split.
  - intros env w.
    destruct (writeRulesFile_returns env u config w) as (r & w' & tr & Hrun & _).
    exists r, w'. split; [exact Hrun|].
    intros e ->. eapply writeRulesFile_error_is_OS_error; eauto.
  - intros env w1 w2 Hopen Hwrite.
    destruct (writeRulesFile_writes_rendered env u config w1 Ht Hopen Hwrite)
      as (w1' & Hrun1 & Hfs1 & _).
    destruct (writeRulesFile_writes_rendered env u config w2 Ht Hopen Hwrite)
      as (w2' & Hrun2 & Hfs2 & _).
    exists w1', w2'. split; [exact Hrun1|]. split; [exact Hrun2|].
    rewrite Hfs1, Hfs2, !lookup_insert_eq. split; reflexivity.
Qed.

Lemma rendering_is_deterministic_verbatim_and_total_witness :
  exists w1' w2',
    writeRulesFile (env_quiet "") u_pool_a (Go.bytes_of_string "abc") world_empty
    = Done None w1'
    /\ writeRulesFile (env_quiet "") u_pool_a (Go.bytes_of_string "abc") w1'
       = Done None w2'
    /\ fs w2' !! rulesFile u_pool_a = fs w1' !! rulesFile u_pool_a.
Proof.
  destruct (rendering_is_deterministic_verbatim_and_total
              u_pool_a (Go.bytes_of_string "abc")) as [_ H].
  - vm_compute. reflexivity.
  - destruct (H (env_quiet "") world_empty
                (world_of (writeRulesFile (env_quiet "") u_pool_a
                             (Go.bytes_of_string "abc") world_empty)))
      as (w1' & w2' & H1 & H2 & _ & H4).
    + reflexivity.
    + reflexivity.
    + exists w1', w2'. split; [exact H1|]. split; [|exact H4].
      rewrite H1 in H2. exact H2.
Defined.

(** C6. With the name [pool-a], [NewUdevSync] derives the path of the
    rules file once, as [path.Join] of the rules directory and
    [99-kubernetes-pool-a.rules], and [applyConfig] does not change it; for
    a rules directory in the form [path.Join] leaves alone (cleaned,
    neither the root nor the current directory) that path is
    [<rulesDir>/99-kubernetes-pool-a.rules].  When the configuration file
    holds the one rule of the scenario and the rules file can be written,
    the first [applyConfig] opens and writes that path and no other, and
    whatever the reload answers the file then holds the expected text: the
    header and the [SUBSYSTEM] guard, the rule as it is, the storage-class
    guard, and the two [SYMLINK] rules with [pool-a] in their paths. *)
Theorem scenario_A_artifact_path_and_content
    (env : Env) (configPath rulesDir : string) (runner : ExecInterface)
    (w : World) :
  (forall w' n, OpenFile_error env w' n = None) ->
  (forall w' n d, Write_error env w' n d = None) ->
  (forall w', ReadFile_result env w' configPath
              = (Go.bytes_of_string config_scenario_A, None)) ->
  exists u w0 r u' w',
    NewUdevSync configPath rulesDir "pool-a" runner w = Done u w0
    /\ rulesFile u = Go.path_Join [rulesDir; "99-kubernetes-pool-a.rules"]
    /\ (Go.path_Clean rulesDir = rulesDir ->
        rulesDir <> "/" ->
        rulesDir <> "." ->
        rulesFile u = rulesDir +:+ "/99-kubernetes-pool-a.rules")
    /\ applyConfig env u w0 = Done (r, u') w'
    /\ rulesFile u' = rulesFile u
    /\ files_written (trace w')
       = files_written (trace w) ++ repeat (rulesFile u) 8
    /\ fs w' !! rulesFile u = Some (Go.bytes_of_string artifact_scenario_A)
    /\ artifact_scenario_A
       = artifact_header +:+ config_scenario_A +:+ artifact_guard
         +:+ "pool-a" +:+ artifact_serial_to_kernel +:+ "pool-a"
         +:+ artifact_tail.
Proof.
  intros Hopen Hwrite Hread.
  rewrite NewUdevSync_returns.
  change (Go.Sprintf udevRulesTemplate ["pool-a"])
    with "99-kubernetes-pool-a.rules".
  set (rf := Go.path_Join [rulesDir; "99-kubernetes-pool-a.rules"]).
  set (u := mkUdevSync "pool-a" configPath [] rf udevTemplate_parsed runner).
  match goal with
  | |- exists u1 w1 r u' w', Done _ ?w0 = _ /\ _ => set (w0' := w0)
  end.
  set (cfg := Go.bytes_of_string config_scenario_A).
  destruct (writeRulesFile_writes_rendered env u cfg
              (emit (EvReadFile configPath) w0') eq_refl Hopen Hwrite)
    as (w1 & Hrun1 & Hfs1 & _ & Hfiles1).
  destruct (reloadUdev_range_spec env runner commands w1 commands_nonempty)
    as (k & r2 & w2 & Hrun2 & _ & Hfs2 & _ & Hfiles2 & _).
  assert (Happly : applyConfig env u w0'
            = write_then_reload env u cfg (emit (EvReadFile configPath) w0')).
  { rewrite applyConfig_cases. cbv zeta.
    change (configFile u) with configPath. rewrite Hread.
    rewrite bool_decide_eq_true_2 by discriminate. reflexivity. }
  assert (Hw : exists r u' w',
             write_then_reload env u cfg (emit (EvReadFile configPath) w0')
             = Done (r, u') w'
             /\ rulesFile u' = rf
             /\ fs w' = fs w2
             /\ files_written (trace w') = files_written (trace w2)).
  { unfold write_then_reload. rewrite Hrun1.
    unfold reloadUdev. change (exec u) with runner. rewrite Hrun2.
    destruct r2 as [e|]; eexists _, _, _; (split; [reflexivity|]).
    - auto.
    - cbn [emit fs trace]. rewrite files_written_app. simpl.
      rewrite app_nil_r. auto. }
  destruct Hw as (r & u' & w' & Hrun & Hrf & Hfs & Hfiles).
  exists u, w0', r, u', w'.
  split; [reflexivity|]. split; [reflexivity|].
  split.
  { intros Hclean Hroot Hdot. change (rulesFile u) with rf. unfold rf.
    rewrite (GoFacts.path_Join_clean_dir rulesDir "99-kubernetes-pool-a.rules")
      by (assumption || reflexivity).
    reflexivity. }
  split; [rewrite Happly; exact Hrun|].
  split; [exact Hrf|]. split; [|split].
  - rewrite Hfiles, Hfiles2, Hfiles1.
    subst w0'. cbn [emit trace]. rewrite !files_written_app. simpl.
    rewrite !app_nil_r. reflexivity.
  - rewrite Hfs, Hfs2, Hfs1.
    change (rulesFile u) with rf. rewrite lookup_insert_eq.
    apply (f_equal Some). vm_compute. reflexivity.
  - vm_compute. reflexivity.
Qed.

Lemma scenario_A_artifact_path_and_content_witness :
  exists u w0 r u' w',
    NewUdevSync "/etc/local-storage-discoverer/rules.conf" "/run/udev/rules.d"
      "pool-a" NewExec world_empty = Done u w0
    /\ rulesFile u = "/run/udev/rules.d/99-kubernetes-pool-a.rules"
    /\ applyConfig (env_quiet config_scenario_A) u w0 = Done (r, u') w'
    /\ rulesFile u' = rulesFile u
    /\ fs w' !! "/run/udev/rules.d/99-kubernetes-pool-a.rules"
       = Some (Go.bytes_of_string artifact_scenario_A).
Proof.
  destruct (scenario_A_artifact_path_and_content
              (env_quiet config_scenario_A)
              "/etc/local-storage-discoverer/rules.conf" "/run/udev/rules.d"
              NewExec world_empty)
    as (u & w0 & r & u' & w' & Hnew & Hjoin & Hlit & Happly & Hrf & _ & Hfs & _).
  - reflexivity.
  - reflexivity.
  - reflexivity.
  - assert (Hpath : rulesFile u = "/run/udev/rules.d/99-kubernetes-pool-a.rules")
      by (apply Hlit; [reflexivity | discriminate | discriminate]).
    exists u, w0, r, u', w'.
    rewrite Hpath in Hfs. auto.
Defined.

(** The configuration changes from [X] to [Y] after the first apply: the
    first tick applies [Y] (a second write of the rules file, a second
    reload), the next one finds nothing to do. *)
Example config_change_between_ticks :
  exists u' w',
    Run env_config_changes u_pool_a [ticker_C; ticker_C] world_empty
    = Done (u', false) w'
    /\ oldConfigContent u' = Go.bytes_of_string "Y"
    /\ fs w' !! rulesFile u' = Some (rendered "pool-a" (Go.bytes_of_string "Y"))
    /\ length (commands_run (trace w')) = 6
    /\ length (files_written (trace w')) = 16.
Proof.
  eexists _, _. split; [vm_compute; reflexivity|].
  repeat split; vm_compute; reflexivity.
Qed.

(* ===================================================================== *)
(** ** The pattern of [--name] on examples *)
(* ===================================================================== *)

Example dns1123Label_text : Regexp.show dns1123Label = dns1123LabelFmt.
Proof. reflexivity. Qed.

Example dns1123SubdomainRegexp_text :
  Regexp.anchored dns1123SubdomainRegexp = "^" +:+ dns1123SubdomainFmt +:+ "$".
Proof. reflexivity. Qed.

Example name_pool_a : Regexp.MatchString dns1123SubdomainRegexp "pool-a" = true.
Proof. reflexivity. Qed.
Example name_dotted : Regexp.MatchString dns1123SubdomainRegexp "ns.pool-a.x1" = true.
Proof. reflexivity. Qed.
Example name_dotdot : Regexp.MatchString dns1123SubdomainRegexp ".." = false.
Proof. reflexivity. Qed.
Example name_a_dotdot_b : Regexp.MatchString dns1123SubdomainRegexp "a..b" = false.
Proof. reflexivity. Qed.
Example name_slash : Regexp.MatchString dns1123SubdomainRegexp "a/b" = false.
Proof. reflexivity. Qed.
Example name_upper : Regexp.MatchString dns1123SubdomainRegexp "Pool" = false.
Proof. reflexivity. Qed.
Example name_trailing_dash : Regexp.MatchString dns1123SubdomainRegexp "pool-" = false.
Proof. reflexivity. Qed.
Example name_empty : Regexp.MatchString dns1123SubdomainRegexp "" = false.
Proof. reflexivity. Qed.
Example name_newline_end :
  Regexp.MatchString dns1123SubdomainRegexp ("pool" +:+ Go.nl) = false.
Proof. reflexivity. Qed.

(* ===================================================================== *)
(** ** The matcher and the language of an expression *)
(* ===================================================================== *)

Module RegexpFacts.
Import Regexp.

Lemma nullable_lang (r : re) : nullable r = true <-> lang r [].
Proof.
  split.
  - induction r as [| |c|rs|r1 IH1 r2 IH2|r1 IH1 r2 IH2|r IH|r IH];
      simpl; intros H; try discriminate.
    + constructor.
    + apply andb_prop in H as [H1 H2].
      change (@nil ascii) with (@nil ascii ++ []). constructor; auto.
    + apply orb_prop in H as [H|H]; [apply lang_Alt_l | apply lang_Alt_r]; auto.
    + constructor.
    + constructor.
  - intros H. remember [] as s eqn:Hs.
    induction H as [|c|c rs Hc|r1 r2 s1 s2 H1 IH1 H2 IH2|r1 r2 s H1 IH1
                   |r1 r2 s H2 IH2|r|r s H IH|r|r s1 s2 H1 IH1 H2 IH2];
      simpl; try discriminate; try reflexivity.
    + apply app_eq_nil in Hs as [-> ->]. rewrite IH1, IH2; reflexivity.
    + rewrite IH1 by assumption. reflexivity.
    + rewrite IH2 by assumption. apply orb_true_r.
Qed.

Lemma lang_Cat_inv (r1 r2 : re) (s : list ascii) :
  lang (Cat r1 r2) s ->
  exists s1 s2, s = s1 ++ s2 /\ lang r1 s1 /\ lang r2 s2.
Proof. intros H. inversion H; subst. eauto. Qed.

Lemma lang_Class_inv (rs : list (ascii * ascii)) (s : list ascii) :
  lang (Class rs) s -> exists c, s = [c] /\ in_class c rs = true.
Proof. intros H. inversion H; subst. eauto. Qed.

Lemma lang_Lit_inv (c : ascii) (s : list ascii) :
  lang (Lit c) s -> s = [c].
Proof. intros H. inversion H; subst. reflexivity. Qed.

Lemma lang_Opt_inv (r : re) (s : list ascii) :
  lang (Opt r) s -> s = [] \/ lang r s.
Proof. intros H. inversion H; subst; auto. Qed.

Lemma lang_Alt_inv (r1 r2 : re) (s : list ascii) :
  lang (Alt r1 r2) s -> lang r1 s \/ lang r2 s.
Proof. intros H. inversion H; subst; auto. Qed.

(** A non-empty word of a star starts with a non-empty word of the body. *)
Lemma lang_Star_cons_inv (r : re) (c : ascii) (s : list ascii) :
  lang (Star r) (c :: s) ->
  exists s1 s2, s = s1 ++ s2 /\ lang r (c :: s1) /\ lang (Star r) s2.
Proof.
  intros H. remember (Star r) as r' eqn:Hr. remember (c :: s) as w eqn:Hw.
  revert s Hw.
  induction H as [|d|d rs Hd|r1 r2 s1 s2 H1 IH1 H2 IH2|r1 r2 s0 H1 IH1
                 |r1 r2 s0 H2 IH2|r0|r0 s0 H IH|r0|r0 s1 s2 H1 IH1 H2 IH2];
    try discriminate; intros s Hw.
  injection Hr as ->.
  destruct s1 as [|d s1].
  - simpl in Hw. apply IH2; auto.
  - simpl in Hw. injection Hw as -> <-.
    exists s1, s2. auto.
Qed.

Lemma deriv_lang (c : ascii) (r : re) (s : list ascii) :
  lang (deriv c r) s <-> lang r (c :: s).
Proof.
  revert s.
  induction r as [| |d|rs|r1 IH1 r2 IH2|r1 IH1 r2 IH2|r IH|r IH]; intros s; simpl.
  - split; intros H; inversion H.
  - split; intros H; inversion H.
  - destruct (Ascii.eqb_spec c d) as [->|Hne]; split; intros H; inversion H; subst.
    + constructor.
    + constructor.
    + congruence.
  - destruct (in_class c rs) eqn:Hc; split; intros H; inversion H; subst.
    + constructor. assumption.
    + constructor.
    + congruence.
  - assert (Hcat : lang (Cat (deriv c r1) r2) s -> lang (Cat r1 r2) (c :: s)).
    { intros H. apply lang_Cat_inv in H as (s1 & s2 & -> & H1 & H2).
      apply IH1 in H1.
      change (c :: s1 ++ s2) with ((c :: s1) ++ s2). constructor; auto. }
    assert (Hinv : lang (Cat r1 r2) (c :: s) ->
                   lang (Cat (deriv c r1) r2) s
                   \/ (lang r1 [] /\ lang r2 (c :: s))).
    { intros H. apply lang_Cat_inv in H as (s1 & s2 & Heq & H1 & H2).
      destruct s1 as [|d s1].
      - right. simpl in Heq. subst. auto.
      - left. simpl in Heq. injection Heq as -> ->.
        constructor; [apply IH1|]; auto. }
    destruct (nullable r1) eqn:Hn.
    + split; intros H.
      * apply lang_Alt_inv in H as [H|H]; [auto|].
        change (c :: s) with ([] ++ c :: s). constructor.
        -- apply nullable_lang. assumption.
        -- apply IH2. assumption.
      * destruct (Hinv H) as [H'|[_ H']].
        -- apply lang_Alt_l. assumption.
        -- apply lang_Alt_r. apply IH2. assumption.
    + split; intros H; [auto|].
      destruct (Hinv H) as [H'|[H' _]]; [assumption|].
      apply nullable_lang in H'. congruence.
  - split; intros H; apply lang_Alt_inv in H as [H|H].
    + apply lang_Alt_l. apply IH1. assumption.
    + apply lang_Alt_r. apply IH2. assumption.
    + apply lang_Alt_l. apply IH1. assumption.
    + apply lang_Alt_r. apply IH2. assumption.
  - split; intros H.
    + apply lang_Opt_some. apply IH. assumption.
    + apply lang_Opt_inv in H as [H|H]; [discriminate|].
      apply IH. assumption.
  - split; intros H.
    + apply lang_Cat_inv in H as (s1 & s2 & -> & H1 & H2).
      change (c :: s1 ++ s2) with ((c :: s1) ++ s2).
      constructor; [apply IH|]; assumption.
    + apply lang_Star_cons_inv in H as (s1 & s2 & -> & H1 & H2).
      constructor; [apply IH|]; assumption.
Qed.

(** The matcher decides the language. *)
Lemma matches_lang (r : re) (s : list ascii) :
  matches r s = true <-> lang r s.
Proof.
  revert r. induction s as [|c s IH]; intros r; simpl.
  - apply nullable_lang.
  - rewrite IH. apply deriv_lang.
Qed.

(** Every byte of a word of the language is one the expression names. *)
Lemma lang_alphabet (r : re) (s : list ascii) :
  lang r s -> Forall (fun c => alphabet r c = true) s.
Proof.
  induction 1 as [|c|c rs Hc|r1 r2 s1 s2 H1 IH1 H2 IH2|r1 r2 s H1 IH1
                 |r1 r2 s H2 IH2|r|r s H IH|r|r s1 s2 H1 IH1 H2 IH2];
    simpl; try constructor; auto.
  - apply Ascii.eqb_refl.
  - apply Forall_app. split.
    + eapply Forall_impl; [exact IH1|]. simpl. intros a ->. reflexivity.
    + eapply Forall_impl; [exact IH2|]. simpl. intros a ->. apply orb_true_r.
  - eapply Forall_impl; [exact IH1|]. simpl. intros a ->. reflexivity.
  - eapply Forall_impl; [exact IH2|]. simpl. intros a ->. apply orb_true_r.
  - apply Forall_app. split; assumption.
Qed.

End RegexpFacts.

Module GlushkovFacts.
Import Regexp Glushkov RegexpFacts.

Lemma neighbours_impl (P Q : ascii -> ascii -> bool) (s : list ascii) :
  (forall c d, P c d = true -> Q c d = true) ->
  neighbours P s = true -> neighbours Q s = true.
Proof.
  intros HPQ. induction s as [|c [|d s] IH]; simpl; auto.
  intros H. apply andb_prop in H as [H1 H2].
  rewrite (HPQ _ _ H1). apply IH. exact H2.
Qed.

Lemma neighbours_app (P : ascii -> ascii -> bool) (s1 s2 : list ascii) :
  neighbours P s1 = true ->
  neighbours P s2 = true ->
  (forall c d, last s1 = Some c -> head s2 = Some d -> P c d = true) ->
  neighbours P (s1 ++ s2) = true.
Proof.
  intros H1 H2 Hmid. induction s1 as [|c [|d s1] IH].
  - exact H2.
  - destruct s2 as [|d s2]; [reflexivity|].
    change (P c d && neighbours P (d :: s2) = true).
    rewrite (Hmid c d) by reflexivity. exact H2.
  - change (P c d && neighbours P ((d :: s1) ++ s2) = true).
    change (P c d && neighbours P (d :: s1) = true) in H1.
    apply andb_prop in H1 as [H1a H1b]. rewrite H1a. apply IH; auto.
Qed.

Lemma neighbours_at (P : ascii -> ascii -> bool) (a b : list ascii) (c d : ascii) :
  neighbours P (a ++ c :: d :: b) = true -> P c d = true.
Proof.
  induction a as [|x [|y a] IH]; simpl.
  - intros H. apply andb_prop in H as [H _]. exact H.
  - intros H. apply andb_prop in H as [_ H].
    apply andb_prop in H as [H _]. exact H.
  - intros H. apply andb_prop in H as [_ H]. apply IH. exact H.
Qed.

Lemma head_app_cases (s1 s2 : list ascii) (c : ascii) :
  head (s1 ++ s2) = Some c ->
  head s1 = Some c \/ (s1 = [] /\ head s2 = Some c).
Proof. destruct s1; simpl; auto. Qed.

Lemma last_app_cases (s1 s2 : list ascii) (c : ascii) :
  last (s1 ++ s2) = Some c ->
  last s2 = Some c \/ (s2 = [] /\ last s1 = Some c).
Proof.
  destruct s2 as [|d s2] using rev_ind.
  - rewrite app_nil_r. auto.
  - rewrite app_assoc, !last_snoc. auto.
Qed.

(** Words of the language start, end and continue as the three sets say. *)
Lemma lang_local (r : re) (s : list ascii) :
  lang r s ->
  (forall c, head s = Some c -> first r c = true)
  /\ (forall c, last s = Some c -> final r c = true)
  /\ neighbours (follow r) s = true.
Proof.
  induction 1 as [|c|c rs Hc|r1 r2 s1 s2 H1 IH1 H2 IH2|r1 r2 s H1 IH1
                 |r1 r2 s H2 IH2|r|r s H IH|r|r s1 s2 H1 IH1 H2 IH2].
  - repeat split; intros; discriminate.
  - simpl. repeat split; intros d [= <-]; apply Ascii.eqb_refl.
  - simpl. repeat split; intros d [= <-]; exact Hc.
  - destruct IH1 as (F1 & L1 & N1), IH2 as (F2 & L2 & N2).
    split; [|split].
    + intros c Hc. simpl.
      apply head_app_cases in Hc as [Hc|[-> Hc]].
      * rewrite (F1 _ Hc). reflexivity.
      * rewrite (proj2 (nullable_lang r1) H1), (F2 _ Hc). apply orb_true_r.
    + intros c Hc. simpl.
      apply last_app_cases in Hc as [Hc|[-> Hc]].
      * rewrite (L2 _ Hc). reflexivity.
      * rewrite (proj2 (nullable_lang r2) H2), (L1 _ Hc). apply orb_true_r.
    + apply neighbours_app.
      * eapply neighbours_impl; [|exact N1]. simpl. intros c d ->. reflexivity.
      * eapply neighbours_impl; [|exact N2]. simpl. intros c d ->.
        rewrite orb_true_r. reflexivity.
      * intros c d Hc Hd. simpl. rewrite (L1 _ Hc), (F2 _ Hd).
        apply orb_true_r.
  - destruct IH1 as (F1 & L1 & N1). split; [|split]; simpl.
    + intros c Hc. rewrite (F1 _ Hc). reflexivity.
    + intros c Hc. rewrite (L1 _ Hc). reflexivity.
    + eapply neighbours_impl; [|exact N1]. simpl. intros c d ->. reflexivity.
  - destruct IH2 as (F2 & L2 & N2). split; [|split]; simpl.
    + intros c Hc. rewrite (F2 _ Hc). apply orb_true_r.
    + intros c Hc. rewrite (L2 _ Hc). apply orb_true_r.
    + eapply neighbours_impl; [|exact N2]. simpl. intros c d ->.
      apply orb_true_r.
  - repeat split; intros; discriminate.
  - exact IH.
  - repeat split; intros; discriminate.
  - destruct IH1 as (F1 & L1 & N1), IH2 as (F2 & L2 & N2).
    simpl in F2, L2. split; [|split].
    + intros c Hc. simpl.
      apply head_app_cases in Hc as [Hc|[-> Hc]]; auto.
    + intros c Hc. simpl.
      apply last_app_cases in Hc as [Hc|[-> Hc]]; auto.
    + apply neighbours_app.
      * eapply neighbours_impl; [|exact N1]. simpl. intros c d ->. reflexivity.
      * exact N2.
      * intros c d Hc Hd. simpl. rewrite (L1 _ Hc), (F2 _ Hd).
        apply orb_true_r.
Qed.

End GlushkovFacts.

(* ===================================================================== *)
(** ** The names [main] accepts *)
(* ===================================================================== *)

Ltac every_byte c :=
  destruct c as [[] [] [] [] [] [] [] []]; vm_compute;
  intros; first [reflexivity | discriminate | congruence].

Lemma dns1123_alphabet (c : ascii) :
  Regexp.alphabet dns1123SubdomainRegexp c = true ->
  lower_or_digit c || Ascii.eqb c "-" || Ascii.eqb c "." = true.
Proof. every_byte c. Qed.

Lemma dns1123_first (c : ascii) :
  Glushkov.first dns1123SubdomainRegexp c = true -> lower_or_digit c = true.
Proof. every_byte c. Qed.

Lemma dns1123_final (c : ascii) :
  Glushkov.final dns1123SubdomainRegexp c = true -> lower_or_digit c = true.
Proof. every_byte c. Qed.

Lemma dns1123_after_dot (d : ascii) :
  Glushkov.follow dns1123SubdomainRegexp "." d = true -> lower_or_digit d = true.
Proof. every_byte d. Qed.

Lemma dns1123_before_dot (c : ascii) :
  Glushkov.follow dns1123SubdomainRegexp c "." = true -> lower_or_digit c = true.
Proof. every_byte c. Qed.

Lemma MatchString_lang (r : Regexp.re) (s : string) :
  Regexp.MatchString r s = true -> Regexp.lang r (list_ascii_of_string s).
Proof. apply RegexpFacts.matches_lang. Qed.

(** An accepted name has no slash in it. *)
Lemma dns1123_no_slash (name : string) :
  Regexp.MatchString dns1123SubdomainRegexp name = true ->
  Forall (fun c => c <> "/"%char) (list_ascii_of_string name).
Proof.
  intros H. apply MatchString_lang, RegexpFacts.lang_alphabet in H.
  eapply Forall_impl; [exact H|]. simpl. intros c Hc ->. discriminate Hc.
Qed.

(** X1. Every byte of a name that [dns1123SubdomainRegexp] accepts is a
    lowercase letter, a digit, a dash or a dot.  So the name holds no
    double quote and no backslash (nothing that would end or escape the
    quoted [SYMLINK] value of the rules file) and no slash. *)
Theorem valid_name_bytes (name : string) :
  Regexp.MatchString dns1123SubdomainRegexp name = true ->
  Forall (fun c => lower_or_digit c || Ascii.eqb c "-" || Ascii.eqb c "." = true)
         (list_ascii_of_string name)
  /\ ~ In (Ascii.ascii_of_nat 34) (list_ascii_of_string name)
  /\ ~ In "\"%char (list_ascii_of_string name)
  /\ ~ In "/"%char (list_ascii_of_string name).
Proof.
  intros H. apply MatchString_lang, RegexpFacts.lang_alphabet in H.
  assert (Hall : Forall (fun c => lower_or_digit c || Ascii.eqb c "-"
                                  || Ascii.eqb c "." = true)
                        (list_ascii_of_string name)).
  { eapply Forall_impl; [exact H|]. apply dns1123_alphabet. }
  split; [exact Hall|].
  rewrite Forall_forall in Hall.
  repeat split; intros Hin; apply list_elem_of_In, Hall in Hin; discriminate Hin.
Qed.

Lemma valid_name_bytes_witness :
  Forall (fun c => lower_or_digit c || Ascii.eqb c "-" || Ascii.eqb c "." = true)
         (list_ascii_of_string "ns.pool-a")
  /\ ~ In "/"%char (list_ascii_of_string "ns.pool-a").
Proof.
  destruct (valid_name_bytes "ns.pool-a") as (H1 & _ & _ & H2).
  - reflexivity.
  - split; [exact H1 | exact H2].
Defined.

(** X2. A name that [dns1123SubdomainRegexp] accepts is not empty, and
    both its first and its last byte are a lowercase letter or a digit: it
    is neither [.] nor [..], and it starts with neither a dot nor a
    dash. *)
Theorem valid_name_first_and_last (name : string) :
  Regexp.MatchString dns1123SubdomainRegexp name = true ->
  exists c d,
    head (list_ascii_of_string name) = Some c
    /\ last (list_ascii_of_string name) = Some d
    /\ lower_or_digit c = true
    /\ lower_or_digit d = true.
Proof.
  intros H.
  assert (Hne : list_ascii_of_string name <> []).
  { intros E. unfold Regexp.MatchString in H. rewrite E in H. discriminate H. }
  apply MatchString_lang, GlushkovFacts.lang_local in H as (F & L & _).
  destruct (list_ascii_of_string name) as [|c s] eqn:E; [congruence|].
  destruct (last (c :: s)) as [d|] eqn:Hd.
  - exists c, d. repeat split; auto.
    + apply dns1123_first, F. reflexivity.
    + apply dns1123_final, L. reflexivity.
  - apply last_None in Hd. discriminate Hd.
Qed.

Lemma valid_name_first_and_last_witness :
  exists c d,
    head (list_ascii_of_string "ns.pool-a") = Some c
    /\ last (list_ascii_of_string "ns.pool-a") = Some d
    /\ lower_or_digit c = true
    /\ lower_or_digit d = true.
Proof. apply (valid_name_first_and_last "ns.pool-a"). reflexivity. Defined.

(** X3. In a name that [dns1123SubdomainRegexp] accepts every dot stands
    between two bytes that are lowercase letters or digits.  In particular
    the name never contains two dots in a row. *)
Theorem valid_name_dots_are_separators (name : string) :
  Regexp.MatchString dns1123SubdomainRegexp name = true ->
  (forall a b c d,
     list_ascii_of_string name = a ++ c :: d :: b ->
     (c = "."%char -> lower_or_digit d = true)
     /\ (d = "."%char -> lower_or_digit c = true))
  /\ (forall a b, list_ascii_of_string name <> a ++ "."%char :: "."%char :: b).
Proof.
  intros H.
  apply MatchString_lang, GlushkovFacts.lang_local in H as (_ & _ & N).
  assert (Hpair : forall a b c d,
             list_ascii_of_string name = a ++ c :: d :: b ->
             (c = "."%char -> lower_or_digit d = true)
             /\ (d = "."%char -> lower_or_digit c = true)).
  { intros a b c d E. rewrite E in N. apply GlushkovFacts.neighbours_at in N.
    split; intros ->.
    - apply dns1123_after_dot. exact N.
    - apply dns1123_before_dot. exact N. }
  split; [exact Hpair|].
  intros a b E. destruct (Hpair a b _ _ E) as [Hd _].
  specialize (Hd eq_refl). discriminate Hd.
Qed.

Lemma valid_name_dots_are_separators_witness :
  lower_or_digit "p" = true /\ lower_or_digit "s" = true.
Proof.
  destruct (valid_name_dots_are_separators "ns.pool-a") as [H _].
  - reflexivity.
  - split.
    + apply (H (list_ascii_of_string "ns") (list_ascii_of_string "ool-a")
               "."%char "p"%char); reflexivity.
    + apply (H (list_ascii_of_string "n") (list_ascii_of_string "pool-a")
               "s"%char "."%char); reflexivity.
Defined.

Lemma rev_app_append (s acc : string) :
  String.rev_app s acc = String.rev_app s "" +:+ acc.
Proof.
  revert acc. induction s as [|c s IH]; intros acc; [reflexivity|].
  simpl. rewrite (IH (String c acc)), (IH (String c "")).
  rewrite GoFacts.append_assoc. reflexivity.
Qed.

(** A string without a slash is one path component. *)
Lemma split_slash_no_slash (s cur : string) :
  Forall (fun c => c <> "/"%char) (list_ascii_of_string s) ->
  Go.split_slash cur s = [String.rev cur +:+ s].
Proof.
  revert cur. induction s as [|c s IH]; intros cur H.
  - simpl. rewrite append_nil_r. reflexivity.
  - simpl in H. inversion H as [|? ? Hc Hs]; subst.
    simpl. destruct (Ascii.eqb_spec c "/") as [->|_]; [congruence|].
    rewrite IH by assumption.
    unfold String.rev. simpl. rewrite (rev_app_append cur (String c "")).
    rewrite GoFacts.append_assoc. reflexivity.
Qed.

Lemma list_ascii_of_string_app (a b : string) :
  list_ascii_of_string (a +:+ b)
  = list_ascii_of_string a ++ list_ascii_of_string b.
Proof.
  induction a as [|c a IH]; [reflexivity|].
  change (c :: list_ascii_of_string (a +:+ b)
          = c :: (list_ascii_of_string a ++ list_ascii_of_string b)).
  f_equal. exact IH.
Qed.

(** The file name [NewUdevSync] builds from a name without a slash is one
    plain path component. *)
Lemma rules_file_name_plain (name : string) :
  Forall (fun c => c <> "/"%char) (list_ascii_of_string name) ->
  Go.components (Go.Sprintf udevRulesTemplate [name])
  = ["99-kubernetes-" +:+ name +:+ ".rules"]
  /\ forallb Go.plain (Go.components (Go.Sprintf udevRulesTemplate [name])) = true.
Proof.
  intros H.
  assert (Hc : Go.components (Go.Sprintf udevRulesTemplate [name])
               = ["99-kubernetes-" +:+ name +:+ ".rules"]).
  { rewrite Sprintf_udevRulesTemplate.
    unfold Go.components. rewrite split_slash_no_slash; [reflexivity|].
    rewrite (list_ascii_of_string_app "99-kubernetes-" (name +:+ ".rules")).
    rewrite list_ascii_of_string_app.
    apply Forall_app. split; [|apply Forall_app; split; [exact H|]];
      repeat constructor; discriminate. }
  split; [exact Hc|]. rewrite Hc. reflexivity.
Qed.

(** X4. For a name that [dns1123SubdomainRegexp] accepts and a rules
    directory in the form [path.Join] leaves alone, [NewUdevSync] returns
    (the template parses) a sync object with an empty snapshot whose rules
    file is [<rulesDir>/99-kubernetes-<name>.rules]: one more path
    component than the directory, so the file lies directly in it. *)
Theorem NewUdevSync_valid_name_file_in_rules_dir
    (configPath rulesDir nodeGroup : string) (runner : ExecInterface)
    (w : World) :
  Regexp.MatchString dns1123SubdomainRegexp nodeGroup = true ->
  Go.path_Clean rulesDir = rulesDir ->
  rulesDir <> "/" ->
  rulesDir <> "." ->
  exists u w',
    NewUdevSync configPath rulesDir nodeGroup runner w = Done u w'
    /\ rulesFile u = rulesDir +:+ "/99-kubernetes-" +:+ nodeGroup +:+ ".rules"
    /\ Go.components (rulesFile u)
       = Go.components rulesDir ++ ["99-kubernetes-" +:+ nodeGroup +:+ ".rules"]
    /\ name u = nodeGroup
    /\ oldConfigContent u = []
    /\ fs w' = fs w.
Proof.
  intros Hname Hclean Hroot Hdot.
  destruct (rules_file_name_plain nodeGroup (dns1123_no_slash _ Hname))
    as [Hc Hplain].
  rewrite NewUdevSync_returns.
  eexists _, _. split; [reflexivity|]. cbn [rulesFile name oldConfigContent].
  assert (Hpath : Go.path_Join [rulesDir; Go.Sprintf udevRulesTemplate [nodeGroup]]
                  = rulesDir +:+ "/99-kubernetes-" +:+ nodeGroup +:+ ".rules").
  { rewrite GoFacts.path_Join_clean_dir by assumption.
    rewrite Hc. reflexivity. }
  rewrite Hpath. split; [reflexivity|]. split; [|auto].
  change (rulesDir +:+ "/99-kubernetes-" +:+ nodeGroup +:+ ".rules")
    with (rulesDir +:+ "/" +:+ ("99-kubernetes-" +:+ nodeGroup +:+ ".rules")).
  rewrite GoFacts.components_append.
  rewrite Sprintf_udevRulesTemplate in Hc.
  rewrite Hc. reflexivity.
Qed.

Lemma NewUdevSync_valid_name_file_in_rules_dir_witness :
  exists u w',
    NewUdevSync "/etc/local-storage-discoverer/rules.conf" "/run/udev/rules.d"
      "ns.pool-a" (NewNSEnterExec "/rootfs/proc") world_empty = Done u w'
    /\ rulesFile u = "/run/udev/rules.d/99-kubernetes-ns.pool-a.rules"
    /\ Go.components (rulesFile u)
       = [""; "run"; "udev"; "rules.d"; "99-kubernetes-ns.pool-a.rules"].
Proof.
  destruct (NewUdevSync_valid_name_file_in_rules_dir
              "/etc/local-storage-discoverer/rules.conf" "/run/udev/rules.d"
              "ns.pool-a" (NewNSEnterExec "/rootfs/proc") world_empty)
    as (u & w' & H1 & H2 & H3 & _).
  - reflexivity.
  - reflexivity.
  - discriminate.
  - discriminate.
  - exists u, w'. auto.
Defined.

(** A word of a star is a row of words of the body. *)
Lemma lang_Star_words (r : Regexp.re) (s : list ascii) :
  Regexp.lang (Regexp.Star r) s ->
  exists ws, s = concat ws /\ Forall (Regexp.lang r) ws.
Proof.
  intros H. remember (Regexp.Star r) as r' eqn:Hr.
  induction H as [|d|d rs Hd|r1 r2 s1 s2 H1 IH1 H2 IH2|r1 r2 s0 H1 IH1
                 |r1 r2 s0 H2 IH2|r0|r0 s0 H IH|r0|r0 s1 s2 H1 IH1 H2 IH2];
    try discriminate.
  - exists []. split; [reflexivity | constructor].
  - injection Hr as ->.
    destruct (IH2 eq_refl) as (ws & -> & Hws).
    exists (s1 :: ws). split; [reflexivity | constructor; assumption].
Qed.

Lemma words_lang_Star (r : Regexp.re) (ws : list (list ascii)) :
  Forall (Regexp.lang r) ws -> Regexp.lang (Regexp.Star r) (concat ws).
Proof.
  induction 1 as [|w ws Hw Hws IH]; simpl; constructor; assumption.
Qed.

Lemma dns1123Label_alphabet (c : ascii) :
  Regexp.alphabet dns1123Label c = true <-> dash_lower_or_digit c = true.
Proof.
  destruct c as [[] [] [] [] [] [] [] []]; vm_compute; split; intros;
    first [reflexivity | discriminate].
Qed.

Lemma dns1123Label_first (c : ascii) :
  Glushkov.first dns1123Label c = true -> lower_or_digit c = true.
Proof. every_byte c. Qed.

Lemma dns1123Label_final (c : ascii) :
  Glushkov.final dns1123Label c = true -> lower_or_digit c = true.
Proof. every_byte c. Qed.

Lemma lower_or_digit_in_class (c : ascii) :
  lower_or_digit c = true ->
  Regexp.in_class c [("a", "z"); ("0", "9")]%char = true.
Proof. every_byte c. Qed.

Lemma dash_lower_or_digit_in_class (c : ascii) :
  dash_lower_or_digit c = true ->
  Regexp.in_class c [("-", "-"); ("a", "z"); ("0", "9")]%char = true.
Proof. every_byte c. Qed.

(** The words of [dns1123Label] are the DNS labels. *)
Lemma lang_dns1123Label (l : list ascii) :
  Regexp.lang dns1123Label l <-> dns_label l.
Proof.
  split.
  - intros H.
    assert (Hne : l <> []).
    { intros ->. apply RegexpFacts.nullable_lang in H. discriminate H. }
    pose proof (RegexpFacts.lang_alphabet _ _ H) as Ha.
    apply GlushkovFacts.lang_local in H as (F & L & _).
    destruct l as [|c l]; [congruence|].
    split; [|split].
    + exists c. split; [reflexivity|]. apply dns1123Label_first, F. reflexivity.
    + destruct (last (c :: l)) as [d|] eqn:Hd.
      * exists d. split; [reflexivity|]. apply dns1123Label_final, L. reflexivity.
      * apply last_None in Hd. discriminate Hd.
    + eapply Forall_impl; [exact Ha|]. intros x. apply dns1123Label_alphabet.
  - intros ((c & Hc & Hcl) & (d & Hd & Hdl) & Hall).
    destruct l as [|c' l]; [discriminate|]. injection Hc as ->.
    unfold dns1123Label.
    change (c :: l) with ([c] ++ l). constructor.
    { constructor. apply lower_or_digit_in_class. exact Hcl. }
    destruct l as [|x l] using rev_ind; [constructor|]. clear IHl.
    apply Regexp.lang_Opt_some. constructor.
    + apply Forall_cons in Hall as [_ Hall].
      apply Forall_app in Hall as [Hall _].
      clear -Hall. induction Hall as [|y l Hy Hl IH].
      * constructor.
      * change (y :: l) with ([y] ++ l). constructor; [|exact IH].
        constructor. apply dash_lower_or_digit_in_class. exact Hy.
    + change (c :: l ++ [x]) with ((c :: l) ++ [x]) in Hd.
      rewrite last_snoc in Hd. injection Hd as ->.
      constructor. apply lower_or_digit_in_class. exact Hdl.
Qed.

(** X13. [dns1123SubdomainRegexp] accepts exactly the names made of one or
    more DNS labels with a dot between them, a label being a non-empty
    string of lowercase letters, digits and dashes that neither starts nor
    ends with a dash. *)
Theorem valid_name_iff_dotted_labels (name : string) :
  Regexp.MatchString dns1123SubdomainRegexp name = true
  <-> exists labels,
        labels <> []
        /\ list_ascii_of_string name = join_dots labels
        /\ Forall dns_label labels.
Proof.
  unfold Regexp.MatchString. rewrite RegexpFacts.matches_lang.
  unfold dns1123SubdomainRegexp. split.
  - intros H.
    apply RegexpFacts.lang_Cat_inv in H as (l0 & rest & -> & H0 & Hrest).
    apply lang_Star_words in Hrest as (ws & -> & Hws).
    assert (Hls : exists ls, ws = map (cons "."%char) ls /\ Forall dns_label ls).
    { clear -Hws. induction Hws as [|x ws Hx Hws IH].
      - exists []. split; [reflexivity | constructor].
      - destruct IH as (ls & -> & Hls).
        apply RegexpFacts.lang_Cat_inv in Hx as (d & l & -> & Hd & Hl).
        apply RegexpFacts.lang_Lit_inv in Hd as ->.
        exists (l :: ls). split; [reflexivity|].
        constructor; [apply lang_dns1123Label; exact Hl | exact Hls]. }
    destruct Hls as (ls & -> & Hls).
    exists (l0 :: ls). split; [discriminate|]. split; [reflexivity|].
    constructor; [apply lang_dns1123Label; exact H0 | exact Hls].
  - intros (labels & Hne & -> & Hall).
    destruct labels as [|l0 ls]; [congruence|].
    apply Forall_cons in Hall as [H0 Hls].
    simpl. constructor; [apply lang_dns1123Label; exact H0|].
    apply words_lang_Star.
    clear -Hls. induction Hls as [|l ls Hl Hls IH]; simpl; constructor;
      [|exact IH].
    change ("."%char :: l) with (["."%char] ++ l).
    constructor; [constructor | apply lang_dns1123Label; exact Hl].
Qed.

(* ===================================================================== *)
(** ** What a write of the rules file can leave behind *)
(* ===================================================================== *)

(** In any environment, executing a template whose fields the data has
    appends to the open file a prefix of what it renders, all of it when
    no error is returned, and touches no other file. *)
Lemma Execute_appends_prefix (env : Env) (t : list Template.Node)
    (out : string) (data : string -> option string) :
  forall (w : World) (old bytes : list byte),
    render_nodes t data = Some bytes ->
    fs w !! out = Some old ->
    exists r w' written,
      Template.Execute env t out data w = Done r w'
      /\ fs w' = <[out := old ++ written]> (fs w)
      /\ written `prefix_of` bytes
      /\ (r = None -> written = bytes).
Proof.
  induction t as [|node rest IH]; intros w old bytes Hr Hold.
  - injection Hr as <-. exists None, w, []. simpl.
    rewrite app_nil_r, insert_id by assumption. auto.
  - assert (Hstep : forall (piece rbytes : list byte),
               render_nodes rest data = Some rbytes ->
               bytes = piece ++ rbytes ->
               exists r w' written,
                 (err ← file_Write env out piece;
                  match err with
                  | Some e => mret (Some e)
                  | None => Template.Execute env rest out data
                  end) w = Done r w'
                 /\ fs w' = <[out := old ++ written]> (fs w)
                 /\ written `prefix_of` bytes
                 /\ (r = None -> written = bytes)).
    { intros piece rbytes Hrest ->.
      rewrite bind_unfold. unfold file_Write.
      destruct (Write_error env w out piece) as [e|].
      - exists (Some e). eexists _, []. split; [reflexivity|].
        cbn [emit fs]. rewrite app_nil_r, insert_id by assumption.
        split; [reflexivity|]. split; [apply prefix_nil | discriminate].
      - match goal with
        | |- context [Template.Execute env rest out data ?w1] =>
            destruct (IH w1 (old ++ piece) rbytes Hrest)
              as (r & w' & written & Hrun & Hfs & Hpre & Hall)
        end.
        { cbn [emit set_fs fs]. rewrite lookup_alter_eq, Hold. reflexivity. }
        exists r, w', (piece ++ written). split; [exact Hrun|].
        split; [|split].
        + rewrite Hfs. cbn [emit set_fs fs].
          rewrite insert_alter_eq, <- app_assoc. reflexivity.
        + apply prefix_app. exact Hpre.
        + intros Hnone. rewrite (Hall Hnone). reflexivity. }
    destruct node as [text|ident]; cbn [render_nodes] in Hr;
      cbn [Template.Execute].
    + destruct (render_nodes rest data) as [rbytes|] eqn:Hrest; [|discriminate].
      injection Hr as <-. eapply Hstep; eauto.
    + destruct (data ident) as [v|]; [|discriminate].
      destruct (render_nodes rest data) as [rbytes|] eqn:Hrest; [|discriminate].
      injection Hr as <-. eapply Hstep; eauto.
Qed.

(** [writeRulesFile] in any environment. *)
Lemma writeRulesFile_any (env : Env) (u : UdevSync) (config : list byte)
    (w : World) :
  udevTemplate u = udevTemplate_parsed ->
  exists r w',
    writeRulesFile env u config w = Done r w'
    /\ commands_run (trace w') = commands_run (trace w)
    /\ match OpenFile_error env w (rulesFile u) with
       | Some e => r = Some e /\ fs w' = fs w
       | None =>
           exists written,
             fs w' = <[rulesFile u := written]> (fs w)
             /\ written `prefix_of` rendered (name u) config
             /\ (r = None -> written = rendered (name u) config)
       end.
Proof.
  intros Ht.
  destruct (writeRulesFile_returns env u config w)
    as (r & w' & tr & Hrun & Htr & Hcmds).
  exists r, w'. split; [exact Hrun|]. split.
  { rewrite Htr, commands_run_app. simpl. rewrite Hcmds, app_nil_r. reflexivity. }
  unfold writeRulesFile in Hrun. rewrite bind_unfold in Hrun.
  unfold os_OpenFile_create_trunc in Hrun.
  destruct (OpenFile_error env w (rulesFile u)) as [e|].
  - injection Hrun as <- <-. auto.
  - rewrite bind_unfold, bind_unfold in Hrun.
    match type of Hrun with
    | context [Template.Execute env _ _ ?data ?w1] =>
        destruct (Execute_appends_prefix env (udevTemplate u) (rulesFile u)
                    data w1 [] (rendered (name u) config))
          as (r1 & w1' & written & Hexec & Hfs & Hpre & Hall)
    end.
    { rewrite Ht. apply render_udevTemplate. }
    { cbn [emit set_fs fs]. apply lookup_insert_eq. }
    rewrite Hexec in Hrun. cbn [emit set_fs fs] in Hfs.
    rewrite insert_insert_eq in Hfs. simpl in Hfs.
    exists written.
    destruct r1 as [e|]; injection Hrun as <- <-; cbn [emit fs];
      (split; [exact Hfs|]); (split; [exact Hpre|]).
    + discriminate.
    + auto.
Qed.

Lemma template_of_Parse (u : UdevSync) :
  Template.Parse udevFileTemplate = Some (udevTemplate u) ->
  udevTemplate u = udevTemplate_parsed.
Proof. rewrite Parse_udevFileTemplate. congruence. Qed.

(** X5. Whatever the file system does, after [writeRulesFile] the rules
    file is either untouched (it could not be opened) or holds a prefix of
    the rendering of the name and the configuration, never anything else:
    once the file is opened, what it held before is gone.  With no error
    returned it holds the whole rendering.  No other file changes. *)
Theorem writeRulesFile_leaves_prefix_of_rendering
    (u : UdevSync) (config : list byte) (env : Env) (w : World) :
  Template.Parse udevFileTemplate = Some (udevTemplate u) ->
  exists r w',
    writeRulesFile env u config w = Done r w'
    /\ (forall f, f <> rulesFile u -> fs w' !! f = fs w !! f)
    /\ (forall e, OpenFile_error env w (rulesFile u) = Some e ->
          r = Some e /\ fs w' = fs w)
    /\ (OpenFile_error env w (rulesFile u) = None ->
          exists written,
            fs w' !! rulesFile u = Some written
            /\ written `prefix_of` rendered (name u) config)
    /\ (r = None -> fs w' !! rulesFile u = Some (rendered (name u) config)).
Proof.
  intros Hparse. apply template_of_Parse in Hparse.
  destruct (writeRulesFile_any env u config w Hparse)
    as (r & w' & Hrun & _ & Hcases).
  exists r, w'. split; [exact Hrun|].
  destruct (OpenFile_error env w (rulesFile u)) as [e|].
  - destruct Hcases as [-> Hfs]. rewrite Hfs.
    split; [reflexivity|]. split; [intros e' [= <-]; auto|].
    split; discriminate.
  - destruct Hcases as (written & Hfs & Hpre & Hall). rewrite Hfs.
    split; [intros f Hf; apply lookup_insert_ne; congruence|].
    split; [discriminate|]. split.
    + intros _. exists written. rewrite lookup_insert_eq. auto.
    + intros Hnone. rewrite lookup_insert_eq, (Hall Hnone). reflexivity.
Qed.

(** [applyConfig] in any environment: what it returns, what it leaves in
    the rules file and which commands it runs, case by case. *)
Lemma applyConfig_any (env : Env) (u : UdevSync) (w : World) :
  udevTemplate u = udevTemplate_parsed ->
  exists r u' w',
    applyConfig env u w = Done (r, u') w'
    /\ (forall f, f <> rulesFile u -> fs w' !! f = fs w !! f)
    /\ ((u' = u /\ (r = None -> fs w' = fs w
                               /\ commands_run (trace w') = commands_run (trace w)))
        \/ (r = None
            /\ ReadFile_result env w (configFile u) = (oldConfigContent u', None)
            /\ oldConfigContent u' <> oldConfigContent u
            /\ u' = set_oldConfigContent u (oldConfigContent u')
            /\ fs w' !! rulesFile u
               = Some (rendered (name u) (oldConfigContent u'))
            /\ commands_run (trace w')
               = commands_run (trace w) ++ map (argv_of (exec u)) commands))
    /\ (commands_run (trace w') <> commands_run (trace w) ->
        fs w' !! rulesFile u
        = Some (rendered (name u) (fst (ReadFile_result env w (configFile u))))).
Proof.
  intros Ht. rewrite applyConfig_cases. cbv zeta.
  destruct (ReadFile_result env w (configFile u)) as [config [e|]] eqn:Hread.
  - eexists _, _, _. split; [reflexivity|]. cbn [emit fs trace].
    split; [reflexivity|]. split.
    + left. split; [reflexivity | discriminate].
    + rewrite commands_run_app. simpl. rewrite app_nil_r. congruence.
  - destruct (bool_decide (config <> oldConfigContent u)) eqn:Hd.
    2:{ eexists _, _, _. split; [reflexivity|]. cbn [emit fs trace].
        split; [reflexivity|].
        rewrite !commands_run_app. simpl. rewrite !app_nil_r.
        split; [left; auto | congruence]. }
    apply bool_decide_eq_true in Hd.
    unfold write_then_reload.
    destruct (writeRulesFile_any env u config
                (emit (EvReadFile (configFile u)) w) Ht)
      as (r1 & w1 & Hrun1 & Hcmds1 & Hcases).
    rewrite Hrun1.
    cbn [emit fs trace] in Hcmds1, Hcases.
    rewrite commands_run_app in Hcmds1. simpl in Hcmds1.
    rewrite app_nil_r in Hcmds1.
    assert (Hframe1 : forall f, f <> rulesFile u -> fs w1 !! f = fs w !! f).
    { intros f Hf. destruct (OpenFile_error env _ (rulesFile u)).
      - destruct Hcases as [_ ->]. reflexivity.
      - destruct Hcases as (written & -> & _).
        apply lookup_insert_ne. congruence. }
    destruct r1 as [e|].
    + eexists _, _, _. split; [reflexivity|]. split; [exact Hframe1|].
      split; [left; split; [reflexivity | discriminate] | congruence].
    + assert (Hfile : fs w1 !! rulesFile u = Some (rendered (name u) config)).
      { destruct (OpenFile_error env _ (rulesFile u)).
        - destruct Hcases as [Hc _]. discriminate Hc.
        - destruct Hcases as (written & -> & _ & Hall).
          rewrite lookup_insert_eq, Hall; reflexivity. }
      destruct (reloadUdev_range_spec env (exec u) commands w1 commands_nonempty)
        as (k & r2 & w2 & Hrun2 & Hk & Hfs2 & Hcmds2 & _ & Hr).
      unfold reloadUdev. rewrite Hrun2.
      destruct r2 as [msg|].
      * eexists _, _, _. split; [reflexivity|].
        split; [intros f Hf; rewrite Hfs2; auto|].
        split; [left; split; [reflexivity | discriminate]|].
        intros _. rewrite Hfs2. exact Hfile.
      * subst k. rewrite take_ge in Hcmds2 by reflexivity.
        eexists _, _, _. split; [reflexivity|]. cbn [emit fs trace].
        split; [intros f Hf; rewrite Hfs2; auto|].
        split.
        -- right. cbn [set_oldConfigContent oldConfigContent].
           split; [reflexivity|]. split; [reflexivity|].
           split; [exact Hd|]. split; [reflexivity|].
           split; [rewrite Hfs2; exact Hfile|].
           rewrite commands_run_app, Hcmds2, Hcmds1. simpl.
           rewrite app_nil_r. reflexivity.
        -- intros _. rewrite Hfs2. exact Hfile.
Qed.

Lemma writeRulesFile_leaves_prefix_of_rendering_witness :
  exists r w' written,
    writeRulesFile (env_disk_full "abc") u_pool_a (Go.bytes_of_string "abc")
      world_empty = Done r w'
    /\ fs w' !! rulesFile u_pool_a = Some written
    /\ written `prefix_of` rendered "pool-a" (Go.bytes_of_string "abc").
Proof.
  destruct (writeRulesFile_leaves_prefix_of_rendering u_pool_a
              (Go.bytes_of_string "abc") (env_disk_full "abc") world_empty)
    as (r & w' & Hrun & _ & _ & Hopen & _).
  - vm_compute. reflexivity.
  - destruct Hopen as (written & Hfile & Hpre); [reflexivity|].
    exists r, w', written. auto.
Defined.

(** On a full disk the third write fails: the file is left with the header
    and the configuration, and the error says so. *)
Example writeRulesFile_disk_full :
  exists w',
    writeRulesFile (env_disk_full "abc") u_pool_a (Go.bytes_of_string "abc")
      world_empty
    = Done (Some "failed to execute template: no space left on device") w'
    /\ fs w' !! rulesFile u_pool_a
       = Some (Go.bytes_of_string artifact_header ++ Go.bytes_of_string "abc").
Proof. eexists. split; vm_compute; reflexivity. Qed.

(** X6. In any environment [applyConfig] changes [oldConfigContent] only
    when it returns no error after a complete apply: the new snapshot is
    what was just read, it differs from the old one, the rules file holds
    exactly its rendering, and all three reload commands were run.  When
    [applyConfig] returns an error the receiver is unchanged. *)
Theorem applyConfig_snapshot_only_after_complete_apply
    (env : Env) (u : UdevSync) (w : World) :
  Template.Parse udevFileTemplate = Some (udevTemplate u) ->
  exists r u' w',
    applyConfig env u w = Done (r, u') w'
    /\ (r <> None -> u' = u)
    /\ same_settings u u'
    /\ (oldConfigContent u' <> oldConfigContent u ->
        r = None
        /\ ReadFile_result env w (configFile u) = (oldConfigContent u', None)
        /\ fs w' !! rulesFile u = Some (rendered (name u) (oldConfigContent u'))
        /\ commands_run (trace w')
           = commands_run (trace w) ++ map (argv_of (exec u)) commands).
Proof.
  intros Hparse. apply template_of_Parse in Hparse.
  destruct (applyConfig_any env u w Hparse)
    as (r & u' & w' & Hrun & _ & Hcases & _).
  exists r, u', w'. split; [exact Hrun|].
  destruct Hcases as [[-> _]|(-> & Hread & Hdiff & Hu' & Hfile & Hcmds)].
  - split; [reflexivity|]. split; [repeat split|]. congruence.
  - split; [congruence|]. split; [rewrite Hu'; repeat split|]. auto.
Qed.

Lemma applyConfig_snapshot_only_after_complete_apply_witness :
  exists r u' w',
    applyConfig (env_quiet "abc") u_pool_a world_empty = Done (r, u') w'
    /\ (r <> None -> u' = u_pool_a)
    /\ same_settings u_pool_a u'.
Proof.
  destruct (applyConfig_snapshot_only_after_complete_apply
              (env_quiet "abc") u_pool_a world_empty)
    as (r & u' & w' & H1 & H2 & H3 & _).
  - vm_compute. reflexivity.
  - exists r, u', w'. auto.
Defined.

(** X7. In any environment [applyConfig] runs a command only after the
    rules file has been written completely: if it ran any command, the
    rules file holds exactly the rendering of the configuration it read.
    So a failure to open or to write the file means that no command is
    run. *)
Theorem applyConfig_reloads_only_complete_file
    (env : Env) (u : UdevSync) (w : World) :
  Template.Parse udevFileTemplate = Some (udevTemplate u) ->
  exists r u' w',
    applyConfig env u w = Done (r, u') w'
    /\ (commands_run (trace w') <> commands_run (trace w) ->
        fs w' !! rulesFile u
        = Some (rendered (name u) (fst (ReadFile_result env w (configFile u)))))
    /\ (fs w' !! rulesFile u
        <> Some (rendered (name u) (fst (ReadFile_result env w (configFile u)))) ->
        commands_run (trace w') = commands_run (trace w)).
Proof.
  intros Hparse. apply template_of_Parse in Hparse.
  destruct (applyConfig_any env u w Hparse)
    as (r & u' & w' & Hrun & _ & _ & Hcmds).
  exists r, u', w'. split; [exact Hrun|]. split; [exact Hcmds|].
  intros Hfile.
  destruct (decide (commands_run (trace w') = commands_run (trace w)))
    as [E|Hne]; [exact E|].
  exfalso. apply Hfile, Hcmds, Hne.
Qed.

Lemma applyConfig_reloads_only_complete_file_witness :
  exists r u' w',
    applyConfig (env_disk_full "abc") u_pool_a world_empty = Done (r, u') w'
    /\ commands_run (trace w') = commands_run (trace world_empty).
Proof.
  destruct (applyConfig_reloads_only_complete_file
              (env_disk_full "abc") u_pool_a world_empty)
    as (r & u' & w' & H1 & _ & H3).
  - vm_compute. reflexivity.
  - exists r, u', w'. split; [exact H1|]. apply H3.
    remember (applyConfig (env_disk_full "abc") u_pool_a world_empty) as o eqn:Ho.
    vm_compute in Ho. subst o. injection H1 as <- <- <-.
    vm_compute. discriminate.
Defined.

(* ===================================================================== *)
(** ** What [Run] does to the files *)
(* ===================================================================== *)

Lemma same_settings_refl (u : UdevSync) : same_settings u u.
Proof. repeat split. Qed.

Lemma same_settings_trans (u1 u2 u3 : UdevSync) :
  same_settings u1 u2 -> same_settings u2 u3 -> same_settings u1 u3.
Proof.
  intros (A1 & A2 & A3 & A4 & A5) (B1 & B2 & B3 & B4 & B5).
  repeat split; congruence.
Qed.

Lemma keeps_refl (rf : string) (w : World) : keeps rf w w.
Proof. split; auto. Qed.

Lemma keeps_trans (rf : string) (w1 w2 w3 : World) :
  keeps rf w1 w2 -> keeps rf w2 w3 -> keeps rf w1 w3.
Proof.
  intros [A1 A2] [B1 B2]. split.
  - intros f Hf. rewrite B1, A1; auto.
  - auto.
Qed.

Lemma keeps_same_fs (rf : string) (w w' : World) :
  fs w' = fs w -> keeps rf w w'.
Proof. intros E. split; intros; rewrite E; auto. Qed.

Lemma Execute_keeps (env : Env) (t : list Template.Node) (out : string)
    (data : string -> option string) (w : World) :
  exists r w', Template.Execute env t out data w = Done r w' /\ keeps out w w'.
Proof.
  revert w. induction t as [|node rest IH]; intros w.
  - exists None, w. split; [reflexivity | apply keeps_refl].
  - assert (Hstep : forall piece,
               exists r w',
                 (err ← file_Write env out piece;
                  match err with
                  | Some e => mret (Some e)
                  | None => Template.Execute env rest out data
                  end) w = Done r w' /\ keeps out w w').
    { intros piece. rewrite bind_unfold. unfold file_Write.
      destruct (Write_error env w out piece) as [e|].
      - eexists _, _. split; [reflexivity|]. apply keeps_same_fs. reflexivity.
      - match goal with
        | |- context [Template.Execute env rest out data ?w1] =>
            destruct (IH w1) as (r & w' & Hrun & Hkeep)
        end.
        exists r, w'. split; [exact Hrun|].
        eapply keeps_trans; [|exact Hkeep]. split; cbn [emit set_fs fs].
        + intros f Hf. apply lookup_alter_ne. congruence.
        + intros f [x Hx]. destruct (decide (f = out)) as [->|Hne].
          * rewrite lookup_alter_eq, Hx. eexists. reflexivity.
          * rewrite lookup_alter_ne by congruence. eauto. }
    destruct node as [text|ident]; cbn [Template.Execute].
    + apply Hstep.
    + destruct (data ident) as [v|]; [apply Hstep|].
      eexists _, w. split; [reflexivity | apply keeps_refl].
Qed.

Lemma writeRulesFile_keeps (env : Env) (u : UdevSync) (config : list byte)
    (w : World) :
  exists r w',
    writeRulesFile env u config w = Done r w' /\ keeps (rulesFile u) w w'.
Proof.
  unfold writeRulesFile. rewrite bind_unfold.
  unfold os_OpenFile_create_trunc.
  destruct (OpenFile_error env w (rulesFile u)) as [e|].
  - eexists _, _. split; [reflexivity|]. apply keeps_same_fs. reflexivity.
  - rewrite bind_unfold, bind_unfold.
    match goal with
    | |- context [Template.Execute env ?t ?o ?data ?w1] =>
        destruct (Execute_keeps env t o data w1) as (r & w' & Hrun & Hkeep)
    end.
    rewrite Hrun.
    assert (Hk : keeps (rulesFile u) w w').
    { eapply keeps_trans; [|exact Hkeep]. split; cbn [emit set_fs fs].
      - intros f Hf. apply lookup_insert_ne. congruence.
      - intros f [x Hx]. destruct (decide (f = rulesFile u)) as [->|Hne].
        + rewrite lookup_insert_eq. eauto.
        + rewrite lookup_insert_ne by congruence. eauto. }
    destruct r as [e|]; eexists _, _; (split; [reflexivity|]);
      (eapply keeps_trans; [exact Hk|]); apply keeps_same_fs; reflexivity.
Qed.

Lemma applyConfig_keeps (env : Env) (u : UdevSync) (w : World) :
  exists r u' w',
    applyConfig env u w = Done (r, u') w'
    /\ same_settings u u'
    /\ keeps (rulesFile u) w w'.
Proof.
  rewrite applyConfig_cases. cbv zeta.
  destruct (ReadFile_result env w (configFile u)) as [config [e|]].
  - eexists _, _, _. split; [reflexivity|].
    split; [apply same_settings_refl | apply keeps_same_fs; reflexivity].
  - destruct (bool_decide (config <> oldConfigContent u)).
    2:{ eexists _, _, _. split; [reflexivity|].
        split; [apply same_settings_refl | apply keeps_same_fs; reflexivity]. }
    unfold write_then_reload.
    destruct (writeRulesFile_keeps env u config
                (emit (EvReadFile (configFile u)) w))
      as (r1 & w1 & Hrun1 & Hk1).
    rewrite Hrun1.
    assert (Hk : keeps (rulesFile u) w w1).
    { eapply keeps_trans; [|exact Hk1]. apply keeps_same_fs. reflexivity. }
    destruct r1 as [e|].
    + eexists _, _, _. split; [reflexivity|].
      split; [apply same_settings_refl | exact Hk].
    + destruct (reloadUdev_range_spec env (exec u) commands w1 commands_nonempty)
        as (k & r2 & w2 & Hrun2 & _ & Hfs2 & _).
      unfold reloadUdev. rewrite Hrun2.
      destruct r2 as [msg|]; eexists _, _, _; (split; [reflexivity|]).
      * split; [apply same_settings_refl|].
        eapply keeps_trans; [exact Hk|]. apply keeps_same_fs. exact Hfs2.
      * split; [repeat split|].
        eapply keeps_trans; [exact Hk|]. apply keeps_same_fs. exact Hfs2.
Qed.

Lemma Run_apply_keeps (env : Env) (u : UdevSync) (w : World) :
  exists u' w',
    Run_apply env u w = Done u' w'
    /\ same_settings u u'
    /\ keeps (rulesFile u) w w'.
Proof.
  unfold Run_apply. rewrite bind_unfold.
  destruct (applyConfig_keeps env u w) as (r & u' & w' & Hrun & Hs & Hk).
  rewrite Hrun.
  destruct r as [e|]; eexists _, _; (split; [reflexivity|]);
    (split; [exact Hs|]); (eapply keeps_trans; [exact Hk|]);
    apply keeps_same_fs; reflexivity.
Qed.

(** X8. In any environment and for any order of ticks and stop signals,
    [Run] never panics, changes nothing of the receiver but
    [oldConfigContent], and leaves every file other than the rules file as
    it was.  It returns exactly when a stop signal fired; until then it
    removes no file at all. *)
Theorem Run_touches_only_the_rules_file
    (env : Env) (u : UdevSync) (fired : list Select) (w : World) :
  exists u' returned w',
    Run env u fired w = Done (u', returned) w'
    /\ same_settings u u'
    /\ (forall f, f <> rulesFile u -> fs w' !! f = fs w !! f)
    /\ (returned = true <-> In stopCh fired)
    /\ (~ In stopCh fired ->
        forall f, is_Some (fs w !! f) -> is_Some (fs w' !! f)).
Proof.
  assert (Hloop : forall fired u w,
             exists u' returned w',
               Run_loop env u fired w = Done (u', returned) w'
               /\ same_settings u u'
               /\ (forall f, f <> rulesFile u -> fs w' !! f = fs w !! f)
               /\ (returned = true <-> In stopCh fired)
               /\ (~ In stopCh fired ->
                   forall f, is_Some (fs w !! f) -> is_Some (fs w' !! f))).
  { clear. intros fired. induction fired as [|s later IH]; intros u w.
    - exists u, false, w. split; [reflexivity|].
      split; [apply same_settings_refl|]. split; [auto|].
      split; [split; [discriminate | intros []] | auto].
    - destruct s.
      + cbn [Run_loop]. rewrite bind_unfold.
        destruct (Run_apply_keeps env u w) as (u1 & w1 & Hrun1 & Hs1 & [Hf1 Hk1]).
        rewrite Hrun1.
        destruct (IH u1 w1) as (u' & b & w' & Hrun & Hs & Hf & Hb & Hk).
        exists u', b, w'. split; [exact Hrun|].
        split; [eapply same_settings_trans; eauto|].
        destruct Hs1 as (_ & _ & Hrf & _).
        split; [intros f Hne; rewrite Hf, Hf1; congruence|].
        split.
        * rewrite Hb. simpl. split; [auto | intros [H|H]; [discriminate | auto]].
        * intros Hn f Hsome. apply Hk; [|apply Hk1; exact Hsome].
          intros Hin. apply Hn. right. exact Hin.
      + destruct (removeUdevFile_cases env u (emit (EvLog 0 "stopping") w))
          as (w' & Hrun & Hcases).
        exists u, true, w'. split.
        { cbn [Run_loop]. rewrite !bind_unfold. cbn [glog_Infof glog_at].
          change (Go.Sprintf "stopping" []) with "stopping".
          rewrite bind_unfold, Hrun. reflexivity. }
        split; [apply same_settings_refl|]. split.
        * intros f Hne.
          destruct (Remove_succeeds env (rulesFile u) _).
          -- destruct Hcases as [-> _]. cbn [emit fs].
             apply lookup_delete_ne. congruence.
          -- destruct Hcases as [-> _]. reflexivity.
        * split; [split; [intros _; left; reflexivity | reflexivity]|].
          intros Hn. exfalso. apply Hn. left. reflexivity. }
  unfold Run. rewrite bind_unfold.
  destruct (Run_apply_keeps env u w) as (u1 & w1 & Hrun1 & Hs1 & [Hf1 Hk1]).
  rewrite Hrun1.
  destruct (Hloop fired u1 w1) as (u' & b & w' & Hrun & Hs & Hf & Hb & Hk).
  exists u', b, w'. split; [exact Hrun|].
  split; [eapply same_settings_trans; eauto|].
  destruct Hs1 as (_ & _ & Hrf & _).
  split; [intros f Hne; rewrite Hf, Hf1; congruence|].
  split; [exact Hb|].
  intros Hn f Hsome. apply Hk; [exact Hn | apply Hk1; exact Hsome].
Qed.

(* ===================================================================== *)
(** ** Runs of the loop in environments that behave *)
(* ===================================================================== *)

Lemma quiet_step_refl (w : World) : quiet_step w w.
Proof. repeat split. Qed.

Lemma quiet_step_trans (w1 w2 w3 : World) :
  quiet_step w1 w2 -> quiet_step w2 w3 -> quiet_step w1 w3.
Proof. intros (A & B & C) (D & E & F). repeat split; congruence. Qed.

Lemma quiet_step_log (v : nat) (msg : string) (w : World) :
  quiet_step w (emit (EvLog v msg) w).
Proof.
  repeat split; cbn [emit trace].
  - rewrite files_written_app. simpl. apply app_nil_r.
  - rewrite commands_run_app. simpl. apply app_nil_r.
Qed.

Lemma quiet_step_read (name : string) (w : World) :
  quiet_step w (emit (EvReadFile name) w).
Proof.
  repeat split; cbn [emit trace].
  - rewrite files_written_app. simpl. apply app_nil_r.
  - rewrite commands_run_app. simpl. apply app_nil_r.
Qed.

(** Ticks that read what the snapshot holds. *)
Lemma ticks_unchanged (env : Env) (u : UdevSync) (n : nat) (w : World) :
  (forall w', ReadFile_result env w' (configFile u) = (oldConfigContent u, None)) ->
  exists w', ticks env u n w = Done u w' /\ quiet_step w w'.
Proof.
  intros Hread. revert w. induction n as [|n IH]; intros w.
  - exists w. split; [reflexivity | apply quiet_step_refl].
  - cbn [ticks]. rewrite bind_unfold.
    rewrite (Run_apply_unchanged env u w) by apply Hread.
    cbv beta iota.
    edestruct IH as (w' & Hrun & Hq).
    exists w'. split; [exact Hrun|].
    eapply quiet_step_trans; [|exact Hq].
    repeat split; cbn [fs trace].
    + rewrite files_written_app. simpl. apply app_nil_r.
    + rewrite commands_run_app. simpl. apply app_nil_r.
Qed.

(** Ticks that cannot read the configuration file. *)
Lemma ticks_unreadable (env : Env) (u : UdevSync) (n : nat) (w : World) :
  (forall w', snd (ReadFile_result env w' (configFile u)) <> None) ->
  exists w', ticks env u n w = Done u w' /\ quiet_step w w'.
Proof.
  intros Hread. revert w. induction n as [|n IH]; intros w.
  - exists w. split; [reflexivity | apply quiet_step_refl].
  - cbn [ticks]. rewrite bind_unfold. unfold Run_apply.
    rewrite bind_unfold, applyConfig_cases. cbv zeta.
    specialize (Hread w) as Hw.
    destruct (ReadFile_result env w (configFile u)) as [data [e|]];
      [|simpl in Hw; congruence].
    rewrite bind_unfold. cbn [glog_Infof glog_at]. cbv beta iota.
    edestruct IH as (w' & Hrun & Hq).
    exists w'. split; [exact Hrun|].
    eapply quiet_step_trans; [|exact Hq].
    eapply quiet_step_trans; [apply quiet_step_read | apply quiet_step_log].
Qed.

Lemma Run_loop_only_ticks (env : Env) (u : UdevSync) (n : nat) (w : World) :
  Run_loop env u (repeat ticker_C n) w
  = (u' ← ticks env u n; mret (u', false)) w.
Proof.
  rewrite <- (app_nil_r (repeat ticker_C n)) at 1.
  rewrite Run_loop_ticks. reflexivity.
Qed.

(** The reload when every command succeeds. *)
Lemma reloadUdev_all_succeed (env : Env) (u : UdevSync) (w : World) :
  (forall w' argv, snd (CombinedOutput_result env w' argv) = None) ->
  exists w',
    reloadUdev env u w = Done None w'
    /\ fs w' = fs w
    /\ files_written (trace w') = files_written (trace w)
    /\ commands_run (trace w')
       = commands_run (trace w) ++ map (argv_of (exec u)) commands.
Proof.
  intros Hok.
  destruct (reloadUdev_range_spec env (exec u) commands w commands_nonempty)
    as (k & r & w' & Hrun & _ & Hfs & Hcmds & Hfiles & Hr).
  destruct r as [msg|].
  - destruct Hr as (j & cmd & out & err & wj & _ & _ & _ & Hans & _).
    specialize (Hok wj (argv_of (exec u) cmd)). rewrite Hans in Hok.
    discriminate Hok.
  - subst k. rewrite take_ge in Hcmds by reflexivity.
    exists w'. auto.
Qed.

(** The reload when every command fails: the first one is run, no other. *)
Lemma reloadUdev_all_fail (env : Env) (u : UdevSync) (w : World) :
  (forall w' argv, snd (CombinedOutput_result env w' argv) <> None) ->
  exists e w',
    reloadUdev env u w = Done (Some e) w'
    /\ fs w' = fs w
    /\ files_written (trace w') = files_written (trace w)
    /\ commands_run (trace w')
       = commands_run (trace w)
         ++ [argv_of (exec u) ["udevadm"; "control"; "--reload"]].
Proof.
  intros Hfail.
  pose proof (Hfail w (argv_of (exec u) ["udevadm"; "control"; "--reload"])) as Hf.
  unfold reloadUdev, commands. cbn [reloadUdev_range].
  rewrite bind_unfold, Exec_cons. unfold Exec_effect.
  destruct (CombinedOutput_result env w _) as [o [e'|]]; [|simpl in Hf; congruence].
  eexists _, _. split; [reflexivity|]. cbn [emit fs trace].
  split; [reflexivity|].
  rewrite <- app_assoc, files_written_app, commands_run_app. simpl.
  rewrite app_nil_r. auto.
Qed.

(** One [applyConfig] of a new configuration where nothing fails. *)
Lemma applyConfig_applies (env : Env) (u : UdevSync) (cfg : list byte)
    (w : World) :
  udevTemplate u = udevTemplate_parsed ->
  ReadFile_result env w (configFile u) = (cfg, None) ->
  cfg <> oldConfigContent u ->
  (forall w' n, OpenFile_error env w' n = None) ->
  (forall w' n d, Write_error env w' n d = None) ->
  (forall w' argv, snd (CombinedOutput_result env w' argv) = None) ->
  exists w',
    applyConfig env u w = Done (None, set_oldConfigContent u cfg) w'
    /\ fs w' = <[rulesFile u := rendered (name u) cfg]> (fs w)
    /\ files_written (trace w')
       = files_written (trace w) ++ repeat (rulesFile u) 8
    /\ commands_run (trace w')
       = commands_run (trace w) ++ map (argv_of (exec u)) commands.
Proof.
  intros Ht Hread Hdiff Hopen Hwrite Hok.
  rewrite applyConfig_cases. cbv zeta. rewrite Hread.
  rewrite bool_decide_eq_true_2 by assumption.
  unfold write_then_reload.
  destruct (writeRulesFile_writes_rendered env u cfg
              (emit (EvReadFile (configFile u)) w) Ht Hopen Hwrite)
    as (w1 & Hrun1 & Hfs1 & Hcmds1 & Hfiles1).
  rewrite Hrun1.
  destruct (reloadUdev_all_succeed env u w1 Hok)
    as (w2 & Hrun2 & Hfs2 & Hfiles2 & Hcmds2).
  rewrite Hrun2. eexists. split; [reflexivity|].
  cbn [emit fs trace] in *.
  rewrite files_written_app, commands_run_app, Hfs2, Hfiles2, Hcmds2.
  rewrite Hfs1, Hfiles1, Hcmds1, files_written_app, commands_run_app.
  simpl. rewrite !app_nil_r. auto.
Qed.

(** One [applyConfig] of a new configuration where the file is written
    and every command fails. *)
Lemma applyConfig_reload_fails (env : Env) (u : UdevSync) (cfg : list byte)
    (w : World) :
  udevTemplate u = udevTemplate_parsed ->
  ReadFile_result env w (configFile u) = (cfg, None) ->
  cfg <> oldConfigContent u ->
  (forall w' n, OpenFile_error env w' n = None) ->
  (forall w' n d, Write_error env w' n d = None) ->
  (forall w' argv, snd (CombinedOutput_result env w' argv) <> None) ->
  exists e w',
    applyConfig env u w = Done (Some e, u) w'
    /\ fs w' = <[rulesFile u := rendered (name u) cfg]> (fs w)
    /\ files_written (trace w')
       = files_written (trace w) ++ repeat (rulesFile u) 8
    /\ commands_run (trace w')
       = commands_run (trace w)
         ++ [argv_of (exec u) ["udevadm"; "control"; "--reload"]].
Proof.
  intros Ht Hread Hdiff Hopen Hwrite Hfail.
  rewrite applyConfig_cases. cbv zeta. rewrite Hread.
  rewrite bool_decide_eq_true_2 by assumption.
  unfold write_then_reload.
  destruct (writeRulesFile_writes_rendered env u cfg
              (emit (EvReadFile (configFile u)) w) Ht Hopen Hwrite)
    as (w1 & Hrun1 & Hfs1 & Hcmds1 & Hfiles1).
  rewrite Hrun1.
  destruct (reloadUdev_all_fail env u w1 Hfail)
    as (e & w2 & Hrun2 & Hfs2 & Hfiles2 & Hcmds2).
  rewrite Hrun2. eexists _, _. split; [reflexivity|].
  cbn [emit fs trace] in *.
  rewrite Hfs2, Hfiles2, Hcmds2.
  rewrite Hfs1, Hfiles1, Hcmds1, files_written_app, commands_run_app.
  simpl. rewrite !app_nil_r. auto.
Qed.

(** X9. Where nothing fails and the configuration file keeps holding the
    same bytes [cfg], different from the snapshot [Run] starts with, the
    configuration is applied exactly once however many ticks follow: the
    rules file is written once and holds the rendering of [cfg], the three
    reload commands are run once, and the snapshot is [cfg]. *)
Theorem Run_applies_a_stable_config_exactly_once
    (env : Env) (u : UdevSync) (cfg : list byte) (n : nat) (w : World) :
  Template.Parse udevFileTemplate = Some (udevTemplate u) ->
  (forall w', ReadFile_result env w' (configFile u) = (cfg, None)) ->
  cfg <> oldConfigContent u ->
  (forall w' f, OpenFile_error env w' f = None) ->
  (forall w' f d, Write_error env w' f d = None) ->
  (forall w' argv, snd (CombinedOutput_result env w' argv) = None) ->
  exists w',
    Run env u (repeat ticker_C n) w
    = Done (set_oldConfigContent u cfg, false) w'
    /\ fs w' = <[rulesFile u := rendered (name u) cfg]> (fs w)
    /\ files_written (trace w')
       = files_written (trace w) ++ repeat (rulesFile u) 8
    /\ commands_run (trace w')
       = commands_run (trace w) ++ map (argv_of (exec u)) commands.
Proof.
  intros Hparse Hread Hdiff Hopen Hwrite Hok.
  apply template_of_Parse in Hparse.
  destruct (applyConfig_applies env u cfg w Hparse (Hread w) Hdiff Hopen Hwrite Hok)
    as (w1 & Hrun1 & Hfs1 & Hfiles1 & Hcmds1).
  unfold Run, Run_apply. rewrite !bind_unfold, Hrun1. cbv beta iota.
  rewrite bind_unfold. cbn [mret M_ret]. cbv beta iota.
  rewrite Run_loop_only_ticks, bind_unfold.
  destruct (ticks_unchanged env (set_oldConfigContent u cfg) n w1)
    as (w2 & Hrun2 & Hfs2 & Hfiles2 & Hcmds2); [exact Hread|].
  rewrite Hrun2. exists w2. split; [reflexivity|].
  rewrite Hfs2, Hfiles2, Hcmds2. auto.
Qed.

Lemma Run_applies_a_stable_config_exactly_once_witness :
  exists w',
    Run (env_quiet "abc") u_pool_a (repeat ticker_C 3) world_empty
    = Done (set_oldConfigContent u_pool_a (Go.bytes_of_string "abc"), false) w'
    /\ commands_run (trace w')
       = [ ["udevadm"; "control"; "--reload"];
           ["udevadm"; "trigger"; "--subsystem-match=block"];
           ["udevadm"; "settle"; "--timeout=300"] ].
Proof.
  destruct (Run_applies_a_stable_config_exactly_once (env_quiet "abc") u_pool_a
              (Go.bytes_of_string "abc") 3 world_empty)
    as (w' & H1 & _ & _ & H4).
  - vm_compute. reflexivity.
  - reflexivity.
  - discriminate.
  - reflexivity.
  - reflexivity.
  - reflexivity.
  - exists w'. split; [exact H1 | exact H4].
Defined.

Lemma Run_only_ticks (env : Env) (u : UdevSync) (n : nat) (w : World) :
  Run env u (repeat ticker_C n) w
  = (u' ← ticks env u (S n); mret (u', false)) w.
Proof.
  unfold Run. cbn [ticks]. rewrite !bind_unfold.
  destruct (Run_apply env u w) as [u1 w1|msg w1]; [|reflexivity].
  rewrite Run_loop_only_ticks. reflexivity.
Qed.

(** Ticks in an environment where the file is written and every command
    fails: each one writes the file again and runs the first command. *)
Lemma ticks_reload_fails (env : Env) (u : UdevSync) (cfg : list byte)
    (n : nat) (w : World) :
  udevTemplate u = udevTemplate_parsed ->
  (forall w', ReadFile_result env w' (configFile u) = (cfg, None)) ->
  cfg <> oldConfigContent u ->
  (forall w' f, OpenFile_error env w' f = None) ->
  (forall w' f d, Write_error env w' f d = None) ->
  (forall w' argv, snd (CombinedOutput_result env w' argv) <> None) ->
  exists w',
    ticks env u n w = Done u w'
    /\ fs w' = match n with
               | O => fs w
               | S _ => <[rulesFile u := rendered (name u) cfg]> (fs w)
               end
    /\ files_written (trace w')
       = files_written (trace w) ++ repeat (rulesFile u) (8 * n)
    /\ commands_run (trace w')
       = commands_run (trace w)
         ++ repeat (argv_of (exec u) ["udevadm"; "control"; "--reload"]) n.
Proof.
  intros Ht Hread Hdiff Hopen Hwrite Hfail. revert w.
  induction n as [|n IH]; intros w.
  - exists w. split; [reflexivity|]. simpl. rewrite !app_nil_r. auto.
  - cbn [ticks]. rewrite bind_unfold. unfold Run_apply. rewrite bind_unfold.
    destruct (applyConfig_reload_fails env u cfg w Ht (Hread w) Hdiff
                Hopen Hwrite Hfail)
      as (e & w1 & Hrun1 & Hfs1 & Hfiles1 & Hcmds1).
    rewrite Hrun1. cbv beta iota. rewrite bind_unfold.
    cbn [glog_Infof glog_at]. cbv beta iota.
    edestruct IH as (w' & Hrun & Hfs' & Hfiles & Hcmds).
    exists w'. split; [exact Hrun|]. split; [|split].
    + rewrite Hfs'. cbn [emit fs]. rewrite Hfs1.
      destruct n; [reflexivity | apply insert_insert_eq].
    + rewrite Hfiles. cbn [emit trace].
      rewrite files_written_app, Hfiles1.
      replace (8 * S n) with (8 + 8 * n) by lia. rewrite repeat_app.
      cbn [files_written]. rewrite app_nil_r, <- !app_assoc. reflexivity.
    + rewrite Hcmds. cbn [emit trace].
      rewrite commands_run_app, Hcmds1. simpl.
      rewrite !app_nil_r, <- !app_assoc. reflexivity.
Qed.

(** X10. Where the rules file can be written but every command fails, and
    the configuration file keeps holding the same new bytes, [Run] retries
    at the start and at every tick: after [n] ticks the rules file has been
    written [n + 1] times and holds the rendering, the first reload command
    [udevadm control --reload] has been run [n + 1] times and no other
    command ever, and the snapshot is still the old one. *)
Theorem Run_retries_at_every_tick_while_reload_fails
    (env : Env) (u : UdevSync) (cfg : list byte) (n : nat) (w : World) :
  Template.Parse udevFileTemplate = Some (udevTemplate u) ->
  (forall w', ReadFile_result env w' (configFile u) = (cfg, None)) ->
  cfg <> oldConfigContent u ->
  (forall w' f, OpenFile_error env w' f = None) ->
  (forall w' f d, Write_error env w' f d = None) ->
  (forall w' argv, snd (CombinedOutput_result env w' argv) <> None) ->
  exists w',
    Run env u (repeat ticker_C n) w = Done (u, false) w'
    /\ fs w' = <[rulesFile u := rendered (name u) cfg]> (fs w)
    /\ files_written (trace w')
       = files_written (trace w) ++ repeat (rulesFile u) (8 * S n)
    /\ commands_run (trace w')
       = commands_run (trace w)
         ++ repeat (argv_of (exec u) ["udevadm"; "control"; "--reload"]) (S n).
Proof.
  intros Hparse Hread Hdiff Hopen Hwrite Hfail.
  apply template_of_Parse in Hparse.
  destruct (ticks_reload_fails env u cfg (S n) w Hparse Hread Hdiff
              Hopen Hwrite Hfail) as (w' & Hrun & Hfs & Hfiles & Hcmds).
  exists w'. split; [|auto].
  rewrite Run_only_ticks, bind_unfold, Hrun. reflexivity.
Qed.

Lemma Run_retries_at_every_tick_while_reload_fails_witness :
  exists w',
    Run (env_udevadm_fails "abc") u_pool_a (repeat ticker_C 2) world_empty
    = Done (u_pool_a, false) w'
    /\ commands_run (trace w')
       = repeat ["udevadm"; "control"; "--reload"] 3.
Proof.
  destruct (Run_retries_at_every_tick_while_reload_fails
              (env_udevadm_fails "abc") u_pool_a (Go.bytes_of_string "abc")
              2 world_empty)
    as (w' & H1 & _ & _ & H4).
  - vm_compute. reflexivity.
  - reflexivity.
  - discriminate.
  - reflexivity.
  - reflexivity.
  - discriminate.
  - exists w'. split; [exact H1 | exact H4].
Defined.

(** The shutdown when the rules file is there, can be removed, and every
    command succeeds. *)
Lemma removeUdevFile_all_ok (env : Env) (u : UdevSync) (w : World) :
  is_Some (fs w !! rulesFile u) ->
  Remove_error env w (rulesFile u) = None ->
  (forall w' argv, snd (CombinedOutput_result env w' argv) = None) ->
  exists w',
    removeUdevFile env u w = Done tt w'
    /\ fs w' = delete (rulesFile u) (fs w)
    /\ commands_run (trace w')
       = commands_run (trace w) ++ map (argv_of (exec u)) commands.
Proof.
  intros [old Hfile] Hrm Hok.
  unfold removeUdevFile. rewrite bind_unfold. unfold os_Remove.
  rewrite Hfile, Hrm. rewrite bind_unfold. cbn [glog_V glog_at].
  rewrite bind_unfold.
  edestruct (reloadUdev_all_succeed env u) as (w2 & Hrun2 & Hfs2 & _ & Hcmds2);
    [exact Hok|].
  rewrite Hrun2. eexists. split; [reflexivity|].
  cbn [glog_V glog_at emit fs trace] in *.
  rewrite Hfs2, commands_run_app, Hcmds2, !commands_run_app.
  simpl. rewrite !app_nil_r. auto.
Qed.

(** X11. Where nothing fails, a run that applies a configuration, ticks
    any number of times and then gets the stop signal returns with the
    rules file removed and two reloads run in all, one for the apply and
    one for the removal.  If there was no rules file before the run, the
    files are exactly what they were before it. *)
Theorem Run_apply_then_stop_restores_the_directory
    (env : Env) (u : UdevSync) (cfg : list byte) (n : nat)
    (later : list Select) (w : World) :
  Template.Parse udevFileTemplate = Some (udevTemplate u) ->
  (forall w', ReadFile_result env w' (configFile u) = (cfg, None)) ->
  cfg <> oldConfigContent u ->
  (forall w' f, OpenFile_error env w' f = None) ->
  (forall w' f d, Write_error env w' f d = None) ->
  (forall w' f, Remove_error env w' f = None) ->
  (forall w' argv, snd (CombinedOutput_result env w' argv) = None) ->
  exists w',
    Run env u (repeat ticker_C n ++ stopCh :: later) w
    = Done (set_oldConfigContent u cfg, true) w'
    /\ fs w' = delete (rulesFile u) (fs w)
    /\ (fs w !! rulesFile u = None -> fs w' = fs w)
    /\ commands_run (trace w')
       = commands_run (trace w)
         ++ map (argv_of (exec u)) commands
         ++ map (argv_of (exec u)) commands.
Proof.
  intros Hparse Hread Hdiff Hopen Hwrite Hremove Hok.
  apply template_of_Parse in Hparse.
  destruct (applyConfig_applies env u cfg w Hparse (Hread w) Hdiff Hopen Hwrite Hok)
    as (w1 & Hrun1 & Hfs1 & _ & Hcmds1).
  set (u1 := set_oldConfigContent u cfg) in *.
  destruct (ticks_unchanged env u1 n w1) as (w2 & Hrun2 & Hfs2 & _ & Hcmds2);
    [exact Hread|].
  destruct (removeUdevFile_all_ok env u1 (emit (EvLog 0 "stopping") w2))
    as (w3 & Hrun3 & Hfs3 & Hcmds3).
  { cbn [emit fs]. rewrite Hfs2, Hfs1. change (rulesFile u1) with (rulesFile u).
    rewrite lookup_insert_eq. eauto. }
  { apply Hremove. }
  { exact Hok. }
  exists w3. split.
  { unfold Run, Run_apply. rewrite !bind_unfold, Hrun1. cbv beta iota.
    rewrite bind_unfold. cbn [mret M_ret]. cbv beta iota.
    rewrite Run_loop_ticks, bind_unfold, Hrun2.
    cbn [Run_loop]. rewrite !bind_unfold. cbn [glog_Infof glog_at].
    change (Go.Sprintf "stopping" []) with "stopping".
    rewrite bind_unfold, Hrun3. reflexivity. }
  cbn [emit fs trace] in Hfs3, Hcmds3.
  change (rulesFile u1) with (rulesFile u) in *.
  change (exec u1) with (exec u) in *.
  assert (Hfs : fs w3 = delete (rulesFile u) (fs w)).
  { rewrite Hfs3, Hfs2, Hfs1. apply delete_insert_eq. }
  split; [exact Hfs|]. split.
  - intros Hnone. rewrite Hfs. apply delete_id. exact Hnone.
  - rewrite Hcmds3, commands_run_app, Hcmds2, Hcmds1. simpl.
    rewrite app_nil_r, <- app_assoc. reflexivity.
Qed.

Lemma Run_apply_then_stop_restores_the_directory_witness :
  exists w',
    Run (env_quiet "abc") u_pool_a (repeat ticker_C 2 ++ [stopCh]) world_empty
    = Done (set_oldConfigContent u_pool_a (Go.bytes_of_string "abc"), true) w'
    /\ fs w' = fs world_empty.
Proof.
  destruct (Run_apply_then_stop_restores_the_directory (env_quiet "abc")
              u_pool_a (Go.bytes_of_string "abc") 2 [] world_empty)
    as (w' & H1 & _ & H3 & _).
  - vm_compute. reflexivity.
  - reflexivity.
  - discriminate.
  - reflexivity.
  - reflexivity.
  - reflexivity.
  - reflexivity.
  - exists w'. split; [exact H1|]. apply H3. reflexivity.
Defined.

(** X12. While the configuration file cannot be read, [Run] changes
    nothing: after the first [applyConfig] and any number of ticks the
    snapshot and the files are what they were, no file was opened or
    written and no command was run.  A rules file applied earlier stays in
    place. *)
Theorem Run_unreadable_config_changes_nothing
    (env : Env) (u : UdevSync) (n : nat) (w : World) :
  (forall w', snd (ReadFile_result env w' (configFile u)) <> None) ->
  exists w',
    Run env u (repeat ticker_C n) w = Done (u, false) w'
    /\ fs w' = fs w
    /\ files_written (trace w') = files_written (trace w)
    /\ commands_run (trace w') = commands_run (trace w).
Proof.
  intros Hread.
  destruct (ticks_unreadable env u (S n) w Hread) as (w' & Hrun & Hq).
  exists w'. split; [|exact Hq].
  rewrite Run_only_ticks, bind_unfold, Hrun. reflexivity.
Qed.

Lemma Run_unreadable_config_changes_nothing_witness :
  exists w',
    Run env_no_config u_pool_a (repeat ticker_C 4) world_empty
    = Done (u_pool_a, false) w'
    /\ fs w' = fs world_empty
    /\ files_written (trace w') = files_written (trace world_empty)
    /\ commands_run (trace w') = commands_run (trace world_empty).
Proof.
  apply (Run_unreadable_config_changes_nothing env_no_config u_pool_a 4
           world_empty).
  intros w'. discriminate.
Defined.
